(** * Stat value ingestion of stathq (main.go, db.go): a shallow embedding

    The Go handlers of [main.go] are modelled over an explicit store of
    value rows.  The Go standard-library pieces they call ([strconv.Atoi],
    [strconv.ParseFloat], [fmt.Sprintf("%.2f")], [strings.Split],
    [time.Parse]/[AddDate]) are modelled first, in module [Go]; float64
    arithmetic is the IEEE-754 binary64 of [SpecFloat] (round to nearest
    even), which is what Go's [float64] operations compute. *)

From Stdlib Require Import ZArith Lia List Bool.
From Stdlib Require Import Strings.String Strings.Ascii.
From Stdlib Require Import Floats.SpecFloat.
Import ListNotations.

Open Scope string_scope.
Open Scope Z_scope.

Module Go.

(** ** Go's [int] (64 bits) with its wrap-around *)

Definition wrap64 (z : Z) : Z := (z + 2 ^ 63) mod 2 ^ 64 - 2 ^ 63.

Definition int64_min : Z := - 2 ^ 63.
Definition int64_max : Z := 2 ^ 63 - 1.

(** ** Results of fallible Go calls: a value or a non-nil [error] *)

Inductive res (A : Type) : Type :=
| OK (a : A)
| ERR (msg : string).
Arguments OK {A} a.
Arguments ERR {A} msg.

Definition bind {A B} (r : res A) (k : A -> res B) : res B :=
  match r with OK a => k a | ERR m => ERR m end.

Notation "x <- r ;; k" := (bind r (fun x => k))
  (at level 61, r at next level, right associativity).

(** ** Characters and strings *)

Definition is_digit (c : ascii) : bool :=
  let n := nat_of_ascii c in (48 <=? n)%nat && (n <=? 57)%nat.

Definition digit_val (c : ascii) : Z := Z.of_nat (nat_of_ascii c) - 48.

Definition digit_char (d : Z) : ascii := ascii_of_nat (Z.to_nat (d + 48)).

(** ASCII lower-casing ([strings.ToLower] on ASCII input). *)
Definition lower_char (c : ascii) : ascii :=
  let n := nat_of_ascii c in
  if (65 <=? n)%nat && (n <=? 90)%nat then ascii_of_nat (n + 32) else c.

Fixpoint ToLower (s : string) : string :=
  match s with
  | EmptyString => EmptyString
  | String c r => String (lower_char c) (ToLower r)
  end.

(** [strings.TrimSpace] on ASCII white space. *)
Definition is_space (c : ascii) : bool :=
  let n := nat_of_ascii c in
  (n =? 32)%nat || ((9 <=? n)%nat && (n <=? 13)%nat).

Fixpoint trim_left (s : string) : string :=
  match s with
  | EmptyString => EmptyString
  | String c r => if is_space c then trim_left r else s
  end.

Definition rev_string (s : string) : string :=
  string_of_list_ascii (rev (list_ascii_of_string s)).

Definition TrimSpace (s : string) : string :=
  rev_string (trim_left (rev_string (trim_left s))).

(** [strings.Split(s, ".")]. *)
Fixpoint split_dot_aux (s : string) (cur : string) : list string :=
  match s with
  | EmptyString => [cur]
  | String c r =>
      if Ascii.eqb c "." then cur :: split_dot_aux r EmptyString
      else split_dot_aux r (cur ++ String c EmptyString)
  end.

Definition Split_dot (s : string) : list string := split_dot_aux s EmptyString.

(** Decimal digits of a natural number, most significant first; [fmt]'s
    [%d].  [fuel] bounds the number of digits. *)
Fixpoint digits_aux (fuel : nat) (n : Z) (acc : string) : string :=
  match fuel with
  | O => acc
  | S f =>
      let acc' := String (digit_char (n mod 10)) acc in
      if Z.ltb n 10 then acc' else digits_aux f (n / 10) acc'
  end.

Definition nat_digits (n : Z) : string := digits_aux 40 n EmptyString.

Definition Itoa (z : Z) : string :=
  if Z.ltb z 0 then "-" ++ nat_digits (- z) else nat_digits z.

(** Zero-padded to [w] characters (the layouts "2006", "01", "02"). *)
Definition pad_left (w : nat) (s : string) : string :=
  let k := (w - String.length s)%nat in
  string_of_list_ascii (repeat "0"%char k) ++ s.

(** ** [strconv.Atoi] (64-bit [int]) *)

Fixpoint digits_value (s : string) (acc : Z) : option Z :=
  match s with
  | EmptyString => Some acc
  | String c r =>
      if is_digit c then digits_value r (acc * 10 + digit_val c) else None
  end.

Definition unsigned_digits (s : string) : option Z :=
  match s with
  | EmptyString => None
  | _ => digits_value s 0
  end.

Definition range_check (z : Z) : res Z :=
  if (int64_min <=? z) && (z <=? int64_max) then OK z
  else ERR "strconv.Atoi: value out of range".

Definition Atoi (s : string) : res Z :=
  match s with
  | String c r =>
      if Ascii.eqb c "-" then
        match unsigned_digits r with
        | Some n => range_check (- n)
        | None => ERR "strconv.Atoi: invalid syntax"
        end
      else if Ascii.eqb c "+" then
        match unsigned_digits r with
        | Some n => range_check n
        | None => ERR "strconv.Atoi: invalid syntax"
        end
      else
        match unsigned_digits s with
        | Some n => range_check n
        | None => ERR "strconv.Atoi: invalid syntax"
        end
  | EmptyString => ERR "strconv.Atoi: invalid syntax"
  end.

(** ** float64 *)

Definition prec : Z := 53.
Definition emax : Z := 1024.
Definition float64 := spec_float.

Definition fadd : float64 -> float64 -> float64 := SFadd prec emax.
Definition fmul : float64 -> float64 -> float64 := SFmul prec emax.
Definition fdiv : float64 -> float64 -> float64 := SFdiv prec emax.
Definition fltb : float64 -> float64 -> bool := SFltb.

(** [float64(i)] for an integer [i]: rounded to nearest even. *)
Definition float_of_int (z : Z) : float64 := binary_normalize prec emax z 0 false.

Definition f_zero : float64 := S754_zero false.
Definition f_half : float64 := binary_normalize prec emax 1 (-1) false.
Definition f_100 : float64 := float_of_int 100.

(** The integer conversion [int64(x)] / [USD(x)] of a float: truncation
    toward zero.  Out of range and non-finite values are
    implementation-dependent in Go; on amd64 they give the minimal int64. *)
Definition float_to_int (f : float64) : Z :=
  match f with
  | S754_zero _ => 0
  | S754_finite s m e =>
      let v := if 0 <=? e then Zpos m * 2 ^ e else Zpos m / 2 ^ (- e) in
      let v' := if s then - v else v in
      if (int64_min <=? v') && (v' <=? int64_max) then v' else int64_min
  | _ => int64_min
  end.

(** Correctly rounded binary64 value of [n / d * 2^e2], for [n, d > 0]:
    the quotient is taken with more than [prec + 2] bits and a sticky bit
    for the remainder, so that [binary_normalize] rounds it as it would
    round the exact value. *)
Definition round_ratio (neg : bool) (n d e2 : Z) : float64 :=
  let sh := Z.log2 d + 56 in
  let q := (n * 2 ^ sh) / d in
  let r := (n * 2 ^ sh) mod d in
  let m := 2 * q + (if r =? 0 then 0 else 1) in
  binary_normalize prec emax (if neg then - m else m) (e2 - sh - 1) neg.

(** The float nearest to [(-1)^neg * mant * 10^exp10]. *)
Definition decimal_to_float (neg : bool) (mant exp10 : Z) : float64 :=
  if mant =? 0 then S754_zero neg
  else if 0 <=? exp10 then
    binary_normalize prec emax
      (if neg then - (mant * 10 ^ exp10) else mant * 10 ^ exp10) 0 neg
  else round_ratio neg mant (10 ^ (- exp10)) 0.

(** ** [strconv.ParseFloat(s, 64)]

    The decimal syntax of [readFloat] (sign, digits with at most one dot,
    optional exponent whose value saturates once it reaches 10000) and the
    special values of [special] ("inf", "infinity", "nan", case-insensitive).
    The hexadecimal syntax "0x...p..." is not modelled and is reported as an
    error.  Overflow to an infinity is Go's [ErrRange] error. *)

Definition special (s : string) : option float64 :=
  let l := ToLower s in
  if existsb (String.eqb l) ["inf"; "+inf"; "infinity"; "+infinity"]
  then Some (S754_infinity false)
  else if existsb (String.eqb l) ["-inf"; "-infinity"]
  then Some (S754_infinity true)
  else if String.eqb l "nan" then Some S754_nan
  else None.

(** Mantissa: accumulated digits, number of digits after the dot, whether a
    digit was seen, and the unread rest. *)
Fixpoint read_mant (s : string) (m nfrac : Z) (sawdot sawdigits : bool)
  : Z * Z * bool * string :=
  match s with
  | EmptyString => (m, nfrac, sawdigits, s)
  | String c r =>
      if is_digit c then
        read_mant r (m * 10 + digit_val c) (if sawdot then nfrac + 1 else nfrac)
          sawdot true
      else if Ascii.eqb c "." then
        if sawdot then (m, nfrac, sawdigits, s)
        else read_mant r m nfrac true sawdigits
      else (m, nfrac, sawdigits, s)
  end.

Fixpoint read_exp_digits (s : string) (e : Z) : Z * string :=
  match s with
  | String c r =>
      if is_digit c then
        read_exp_digits r (if e <? 10000 then e * 10 + digit_val c else e)
      else (e, s)
  | EmptyString => (e, s)
  end.

(** Optional exponent: [None] on a malformed one, else its value and the rest. *)
Definition read_exp (s : string) : option (Z * string) :=
  match s with
  | String c r =>
      if Ascii.eqb c "e" || Ascii.eqb c "E" then
        let '(esign, r') :=
          match r with
          | String c' r'' =>
              if Ascii.eqb c' "+" then (1, r'')
              else if Ascii.eqb c' "-" then (-1, r'') else (1, r)
          | EmptyString => (1, r)
          end in
        match r' with
        | String d _ =>
            if is_digit d then
              let '(e, rest) := read_exp_digits r' 0 in Some (esign * e, rest)
            else None
        | EmptyString => None
        end
      else Some (0, s)
  | EmptyString => Some (0, s)
  end.

Definition read_float (s : string) : option float64 :=
  let '(neg, body) :=
    match s with
    | String c r =>
        if Ascii.eqb c "+" then (false, r)
        else if Ascii.eqb c "-" then (true, r) else (false, s)
    | EmptyString => (false, s)
    end in
  match body with
  | String "0" (String x _) =>
      if Ascii.eqb (lower_char x) "x" then None else
      let '(m, nfrac, sawdigits, rest) := read_mant body 0 0 false false in
      if negb sawdigits then None else
      match read_exp rest with
      | Some (e, EmptyString) => Some (decimal_to_float neg m (e - nfrac))
      | _ => None
      end
  | _ =>
      let '(m, nfrac, sawdigits, rest) := read_mant body 0 0 false false in
      if negb sawdigits then None else
      match read_exp rest with
      | Some (e, EmptyString) => Some (decimal_to_float neg m (e - nfrac))
      | _ => None
      end
  end.

Definition ParseFloat (s : string) : res float64 :=
  match special s with
  | Some f => OK f
  | None =>
      match read_float s with
      | Some (S754_infinity _) => ERR "strconv.ParseFloat: value out of range"
      | Some f => OK f
      | None => ERR "strconv.ParseFloat: invalid syntax"
      end
  end.

(** ** [fmt.Sprintf("%.2f", x)]

    The exact binary value rounded to hundredths, ties to even (strconv's
    decimal rounding); the sign is printed whenever the sign bit is set. *)

Definition hundredths (m : positive) (e : Z) : Z :=
  if 0 <=? e then Zpos m * 2 ^ e * 100
  else
    let n := Zpos m * 100 in
    let d := 2 ^ (- e) in
    let q := n / d in
    let r := n mod d in
    if (d <? 2 * r) || ((2 * r =? d) && Z.odd q) then q + 1 else q.

Definition Sprintf_2f (f : float64) : string :=
  match f with
  | S754_zero s => (if s then "-" else "") ++ "0.00"
  | S754_infinity s => if s then "-Inf" else "+Inf"
  | S754_nan => "NaN"
  | S754_finite s m e =>
      let c := hundredths m e in
      (if s then "-" else "") ++ nat_digits (c / 100) ++ "."
        ++ pad_left 2 (nat_digits (c mod 100))
  end.

(** ** [time.Parse("2006-01-02", s)] (four-digit year, two-digit month and
    day, the day checked against the month's length, no extra text), [Weekday], [AddDate(0, 0, k)], [Format] *)

Record date := mkDate { year : Z; month : Z; day : Z }.

Definition is_leap (y : Z) : bool :=
  (y mod 4 =? 0) && (negb (y mod 100 =? 0) || (y mod 400 =? 0)).

Definition days_in (m y : Z) : Z :=
  if m =? 2 then (if is_leap y then 29 else 28)
  else if (m =? 4) || (m =? 6) || (m =? 9) || (m =? 11) then 30 else 31.

Definition parse_date (s : string) : option date :=
  match s with
  | String a (String b (String c (String d
      (String s1 (String m1 (String m2 (String s2 (String d1 (String d2 EmptyString)))))))))
    =>
      match unsigned_digits (String a (String b (String c (String d EmptyString)))) with
      | Some y =>
          if Ascii.eqb s1 "-" && Ascii.eqb s2 "-" && is_digit m1 && is_digit m2
             && is_digit d1 && is_digit d2 then
            let m := digit_val m1 * 10 + digit_val m2 in
            let dd := digit_val d1 * 10 + digit_val d2 in
            if (1 <=? m) && (m <=? 12) && (1 <=? dd) && (dd <=? days_in m y)
            then Some (mkDate y m dd) else None
          else None
      | None => None
      end
  | _ => None
  end.

(** Days since 1970-01-01 in the proleptic Gregorian calendar. *)
Definition days_from_civil (t : date) : Z :=
  let y := if month t <=? 2 then year t - 1 else year t in
  let era := y / 400 in
  let yoe := y - era * 400 in
  let mp := (month t + 9) mod 12 in
  let doy := (153 * mp + 2) / 5 + day t - 1 in
  let doe := yoe * 365 + yoe / 4 - yoe / 100 + doy in
  era * 146097 + doe - 719468.

(** [t.Weekday()], Sunday = 0; 1970-01-01 was a Thursday. *)
Definition weekday (t : date) : Z := (days_from_civil t + 4) mod 7.

Definition time_Thursday : Z := 4.

(** One day later, for a valid date. *)
Definition next_day (t : date) : date :=
  if day t <? days_in (month t) (year t) then mkDate (year t) (month t) (day t + 1)
  else if month t <? 12 then mkDate (year t) (month t + 1) 1
  else mkDate (year t + 1) 1 1.

Definition AddDays (t : date) (k : nat) : date := Nat.iter k next_day t.

(** [Format("2006-01-02")]: the year zero-padded to four digits (with a
    leading '-' when negative), month and day to two. *)
Definition format_year (y : Z) : string :=
  if y <? 0 then "-" ++ pad_left 4 (nat_digits (- y)) else pad_left 4 (nat_digits y).

Definition Format (t : date) : string :=
  format_year (year t) ++ "-" ++ pad_left 2 (nat_digits (month t)) ++ "-"
    ++ pad_left 2 (nat_digits (day t)).

(** The zero [time.Time]: January 1 of year 1. *)
Definition zero_time : date := mkDate 1 1 1.

Definition ToUpper (s : string) : string :=
  string_of_list_ascii
    (map (fun c => let n := nat_of_ascii c in
                   if (97 <=? n)%nat && (n <=? 122)%nat then ascii_of_nat (n - 32) else c)
         (list_ascii_of_string s)).

End Go.

Import Go.

(** * Money (main.go: [USD], [Money], [StringToMoney], quota helpers) *)

(** [type USD int64]: an amount in cents. *)
Definition USD := Z.

(** [func ToUSD(f float64) USD { return USD((f * 100) + 0.5) }] *)
Definition ToUSD (f : float64) : USD := float_to_int (fadd (fmul f f_100) f_half).

Definition USD_Float64 (m : USD) : float64 := fdiv (float_of_int m) f_100.

Definition USD_Multiply (m : USD) (f : float64) : USD :=
  float_to_int (fadd (fmul (float_of_int m) f) f_half).

Definition USD_Divide (m : USD) (f : float64) : USD :=
  float_to_int (fadd (fdiv (float_of_int m) f) f_half).

(** [func (m USD) String() string]: [fmt.Sprintf("%.2f", float64(m) / 100)]. *)
Definition USD_String (m : USD) : string := Sprintf_2f (fdiv (float_of_int m) f_100).

Record Money := mkMoney { Dollars : Z; Cents : Z; Negative : bool }.

Definition StringToMoney (s0 : string) : res Money :=
  let s := if String.eqb s0 "" then "0.00" else s0 in
  fl <- ParseFloat s ;;
  let neg := fltb fl f_zero in
  let str := Sprintf_2f fl in
  match Split_dot str with
  | [p0; p1] =>
      d <- Atoi p0 ;;
      c <- Atoi p1 ;;
      OK (mkMoney d c neg)
  | _ => ERR "couldn't split parts of money"
  end.

(** [c := m.Dollars * 100; c += m.Cents; return USD(c)] *)
Definition MoneyToUSD (m : Money) : USD := wrap64 (wrap64 (Dollars m * 100) + Cents m).

Definition GetQuotaInt (i : Z) (q0 : string) : res Z :=
  let q := if String.eqb q0 "" then "0" else q0 in
  n <- Atoi q ;;
  OK (wrap64 (Z.quot n 5 * i)).

Definition GetQuotaFloat (i : Z) (q0 : string) : res float64 :=
  let q := if String.eqb q0 "" then "0.00" else q0 in
  fl <- ParseFloat q ;;
  let pennies := ToUSD fl in
  let pennies := USD_Divide pennies (float_of_int 5) in
  let pennies := USD_Multiply pennies (float_of_int i) in
  OK (USD_Float64 pennies).

(** * The store (db.go [InitDB]) as the handlers address it

    The write and read handlers address value rows through a [name] column
    holding the lower-cased short id of the stat, a [user_id] column for
    per-user rows and a [division_id] column for division rows; rows are
    modelled with those columns, in insertion (rowid) order.  No unique
    index covers these columns ([uniq_weekly_stat_week] of [InitDB] is on
    [stat_id], which the handlers never write), so an insert into
    [weekly_stats] or [daily_stats] always adds its row. *)

Record Stat := mkStat {
  id : Z;
  short_id : string;
  stype : string;                  (* column [type]: personal/divisional/main *)
  value_type : string;             (* number/currency/percentage *)
  assigned_user_id : option Z;
  assigned_division_id : option Z
}.

Record WeeklyRow := mkWeekly {
  w_name : string;
  w_week_ending : string;
  w_value : Z;
  w_user_id : option Z;
  w_division_id : option Z
}.

Record DailyRow := mkDaily {
  d_name : string;
  d_date : string;
  d_value : Z;
  d_user_id : option Z;
  d_division_id : option Z
}.

Record DB := mkDB {
  stats : list Stat;
  weekly_stats : list WeeklyRow;
  daily_stats : list DailyRow
}.

Definition set_weekly (db : DB) (w : list WeeklyRow) : DB :=
  mkDB (stats db) w (daily_stats db).
Definition set_daily (db : DB) (d : list DailyRow) : DB :=
  mkDB (stats db) (weekly_stats db) d.

Definition opt_eqb (a b : option Z) : bool :=
  match a, b with
  | Some x, Some y => x =? y
  | None, None => true
  | _, _ => false
  end.

(** SQL [col = ?] with a bound integer: false on NULL. *)
Definition sql_eq (col : option Z) (v : Z) : bool :=
  match col with Some x => x =? v | None => false end.

Definition is_not_null (col : option Z) : bool :=
  match col with Some _ => true | None => false end.

(** [SELECT ... FROM stats WHERE id = ? LIMIT 1] *)
Definition stat_by_id (db : DB) (i : Z) : option Stat :=
  find (fun s => id s =? i) (stats db).

(** [SELECT ... FROM stats WHERE LOWER(short_id) = ? LIMIT 1] *)
Definition stat_by_short (db : DB) (lower : string) : option Stat :=
  find (fun s => String.eqb (ToLower (short_id s)) lower) (stats db).

(** [INSERT INTO weekly_stats (name, week_ending, value, user_id)]. *)
Definition insert_weekly (db : DB) (r : WeeklyRow) : DB :=
  set_weekly db (weekly_stats db ++ [r]).

Definition insert_daily (db : DB) (r : DailyRow) : DB :=
  set_daily db (daily_stats db ++ [r]).

Definition delete_weekly (db : DB) (p : WeeklyRow -> bool) : DB :=
  set_weekly db (filter (fun r => negb (p r)) (weekly_stats db)).

Definition delete_daily (db : DB) (p : DailyRow -> bool) : DB :=
  set_daily db (filter (fun r => negb (p r)) (daily_stats db)).

(** A handler's outcome: the JSON success message, or the [webFail] message. *)
Definition outcome := res string.

(** A write transaction: a store-to-store computation; [tx.Commit] keeps its
    result, [tx.Rollback] on any error keeps the store as it was. *)
Definition run_tx (db : DB) (t : res DB) (okmsg : string) : outcome * DB :=
  match t with
  | OK db' => (OK okmsg, db')
  | ERR m => (ERR m, db)
  end.

(** * Value validation (main.go) *)

Record DailyStat := mkDailyStat {
  Name : string; Thursday : string; Friday : string; Monday : string;
  Tuesday : string; Wednesday : string; Quota : string
}.

(** The day cells in the order Thursday, Friday, Monday, Tuesday,
    Wednesday.  The Go code ranges over a map of them, in random order;
    whether a row is accepted does not depend on that order, only which
    cell an error message names does. *)
Definition day_cells (row : DailyStat) : list (string * string) :=
  [("Thursday", Thursday row); ("Friday", Friday row); ("Monday", Monday row);
   ("Tuesday", Tuesday row); ("Wednesday", Wednesday row)].

Definition cells_with_quota (row : DailyStat) : list (string * string) :=
  day_cells row ++ [("Quota", Quota row)].

(** The first failure of [check] over the cells, in order. *)
Fixpoint check_cells (check : string -> string -> res unit)
  (cells : list (string * string)) : res unit :=
  match cells with
  | [] => OK tt
  | (field, v) :: rest => _ <- check field v ;; check_cells check rest
  end.

Definition fieldErr (field val msg : string) : res unit :=
  ERR ("Value " ++ val ++ " on " ++ field ++ " is invalid: " ++ msg).

Definition validateDailyStatByType (name valueType : string) (row : DailyStat)
  : res unit :=
  if String.eqb valueType "currency" then
    check_cells (fun field val =>
      if String.eqb val "" then OK tt else
      match StringToMoney val with
      | OK _ => OK tt
      | ERR _ => fieldErr field val "not a valid money value (use plain decimal e.g. 1234.56)"
      end) (cells_with_quota row)
  else if String.eqb valueType "number" then
    check_cells (fun field val =>
      if String.eqb val "" then OK tt else
      match Atoi val with
      | OK _ => OK tt
      | ERR _ => fieldErr field val "not a valid integer"
      end) (cells_with_quota row)
  else if String.eqb valueType "percentage" then
    check_cells (fun field val =>
      if String.eqb val "" then OK tt else
      match ParseFloat val with
      | OK f =>
          if fltb f f_zero || fltb (float_of_int 100) f
          then fieldErr field val "percentage out of range 0-100"
          else OK tt
      | ERR _ => fieldErr field val "not a valid number"
      end) (cells_with_quota row)
  else ERR ("Unknown value_type " ++ valueType ++ " for stat " ++ name).

Definition validateWeeklyValueByType (valueStr0 valueType : string) : res unit :=
  let valueStr := TrimSpace valueStr0 in
  if String.eqb valueStr "" then OK tt
  else if String.eqb valueType "currency" then
    match StringToMoney valueStr with
    | OK _ => OK tt | ERR e => ERR ("invalid currency value: " ++ e) end
  else if String.eqb valueType "number" then
    match Atoi valueStr with
    | OK _ => OK tt | ERR e => ERR ("invalid integer value: " ++ e) end
  else if String.eqb valueType "percentage" then
    match ParseFloat valueStr with
    | OK _ => OK tt | ERR e => ERR ("invalid percentage value: " ++ e) end
  else ERR ("unknown value_type: " ++ valueType).

(** [storeVal = int64((f * 100) + 0.5)] of the percentage paths. *)
Definition percent_store (f : float64) : Z := float_to_int (fadd (fmul f f_100) f_half).

(** * Week-ending dates (main.go [checkIfValidWE] and the date map of the
      7R handlers) *)

(** [checkIfValidWE we == nil]: an ISO date falling on a Thursday. *)
Definition checkIfValidWE (we : string) : bool :=
  match parse_date we with
  | Some t => weekday t =? time_Thursday
  | None => false
  end.

(** [we, _ := time.Parse(...)] and the five dates Thursday = we, Friday =
    we+1, Monday = we+4, Tuesday = we+5, Wednesday = we+6. *)
Definition week_anchor (thisWeek : string) : date :=
  match parse_date thisWeek with Some t => t | None => zero_time end.

Definition week_dates (thisWeek : string) : list string :=
  let we := week_anchor thisWeek in
  [Format we; Format (AddDays we 1); Format (AddDays we 4);
   Format (AddDays we 5); Format (AddDays we 6)].

(** * POST /services/save7R ([handleSave7R]) *)

(** A decoded payload row (the JSON decoding of [StatID] is not modelled). *)
Record Row := mkRow {
  StatID : Z; Row_Name : string; Row_Thursday : string; Row_Friday : string;
  Row_Monday : string; Row_Tuesday : string; Row_Wednesday : string;
  Row_Quota : string
}.

Definition row_daily (shortID : string) (v : Row) : DailyStat :=
  mkDailyStat shortID (Row_Thursday v) (Row_Friday v) (Row_Monday v)
    (Row_Tuesday v) (Row_Wednesday v) (Row_Quota v).

(** The first loop: stat metadata by id, then [validateDailyStatByType]. *)
Fixpoint validate_rows (db : DB) (rows : list Row) : res unit :=
  match rows with
  | [] => OK tt
  | v :: rest =>
      match stat_by_id db (StatID v) with
      | None => ERR "Stat not found for StatID"
      | Some st =>
          match validateDailyStatByType (short_id st) (value_type st)
                  (row_daily (short_id st) v) with
          | ERR _ => ERR "Validation failed for daily stat"
          | OK _ => validate_rows db rest
          end
      end
  end.

(** [valueInt] of a trimmed, non-empty cell: [StringToMoney] first, then
    [strconv.Atoi]. *)
Definition cell_value (raw : string) : res Z :=
  match StringToMoney raw with
  | OK m => OK (MoneyToUSD m)
  | ERR _ =>
      match Atoi raw with
      | OK i => OK i
      | ERR _ => ERR "Invalid numeric value"
      end
  end.

(** The inner loop over the day cells, paired with their dates. *)
Fixpoint insert_cells (db : DB) (nameLower : string) (cells : list (string * string))
  (u : Z) : res DB :=
  match cells with
  | [] => OK db
  | (dateStr, raw0) :: rest =>
      let raw := TrimSpace raw0 in
      if String.eqb raw "" then insert_cells db nameLower rest u
      else
        match cell_value raw with
        | ERR m => ERR m
        | OK v =>
            insert_cells (insert_daily db (mkDaily nameLower dateStr v (Some u) None))
              nameLower rest u
        end
  end.

Definition row_cells (v : Row) : list string :=
  [Row_Thursday v; Row_Friday v; Row_Monday v; Row_Tuesday v; Row_Wednesday v].

(** The transaction of [handleSave7R]: per row, the stat by id, the
    personal-scope check, the delete of the session user's rows of that stat
    for the week, and the inserts of the non-empty cells. *)
Fixpoint save7R_rows (db : DB) (dates : list string) (rows : list Row) (u : Z)
  : res DB :=
  match rows with
  | [] => OK db
  | row :: rest =>
      match stat_by_id db (StatID row) with
      | None => ERR "Stat not found for StatID"
      | Some st =>
          let nameLower := ToLower (short_id st) in
          if negb (String.eqb (stype st) "personal") then
            ERR "Stat is not a personal stat and cannot be written via this endpoint"
          else
            let db1 := delete_daily db (fun r =>
                         String.eqb (ToLower (d_name r)) nameLower
                         && existsb (String.eqb (d_date r)) dates
                         && sql_eq (d_user_id r) u) in
            match insert_cells db1 nameLower (combine dates (row_cells row)) u with
            | ERR m => ERR m
            | OK db2 => save7R_rows db2 dates rest u
            end
      end
  end.

Definition handleSave7R (db : DB) (thisWeek : string) (rows : list Row)
  (sessionUserID : Z) : outcome * DB :=
  if String.eqb thisWeek "" then (ERR "thisWeek query param required", db)
  else if negb (checkIfValidWE thisWeek) then (ERR "Invalid W/E date", db)
  else
    match validate_rows db rows with
    | ERR m => (ERR m, db)
    | OK _ =>
        run_tx db (save7R_rows db (week_dates thisWeek) rows sessionUserID)
          "Saved 7R grid"
    end.

(** * POST weekly value ([handleLogWeeklyStats]) *)

(** [storeVal] of the weekly handlers, by value type. *)
Definition weekly_store_value (value valueType : string) : res Z :=
  if String.eqb valueType "currency" then
    match StringToMoney value with
    | OK m => OK (MoneyToUSD m)
    | ERR _ => ERR "Invalid currency"
    end
  else if String.eqb valueType "number" then
    match Atoi value with
    | OK i => OK i
    | ERR _ => ERR "Invalid integer"
    end
  else if String.eqb valueType "percentage" then
    match ParseFloat value with
    | OK f => OK (percent_store f)
    | ERR _ => ERR "Invalid percentage"
    end
  else ERR "Unknown value type".

(** The decoded request: [statID], [date], [value] (JSON or form). *)
Definition handleLogWeeklyStats (db : DB) (statID : Z) (date value : string)
  (sessionUserID : Z) : outcome * DB :=
  if statID =? 0 then (ERR "stat_id is required", db)
  else if negb (checkIfValidWE date) then
    (ERR "The weekending date is not valid or is not Thursday", db)
  else
    match stat_by_id db statID with
    | None => (ERR "Stat not found", db)
    | Some st =>
        if negb (String.eqb (stype st) "personal") then
          (ERR "Only personal stats can be written via this endpoint", db)
        else
          match validateWeeklyValueByType value (value_type st) with
          | ERR _ => (ERR "Invalid value", db)
          | OK _ =>
              match weekly_store_value value (value_type st) with
              | ERR m => (ERR m, db)
              | OK storeVal =>
                  let nameLower := ToLower (short_id st) in
                  run_tx db
                    (OK (insert_weekly
                       (delete_weekly db (fun r =>
                          String.eqb (ToLower (w_name r)) nameLower
                          && String.eqb (w_week_ending r) date
                          && sql_eq (w_user_id r) sessionUserID))
                       (mkWeekly nameLower date storeVal (Some sessionUserID) None)))
                    "Weekly value saved"
              end
          end
    end.

(** * POST /services/saveWeeklyEdit ([handleSaveWeeklyEdit]) *)

Record EditRow := mkEditRow { E_StatID : Z; Weekending : string; Value : string }.

Definition known_value_type (vt : string) : bool :=
  String.eqb vt "currency" || String.eqb vt "number" || String.eqb vt "percentage".

(** The value to insert, [None] for the [continue] on an empty value. *)
Definition edit_store_value (value valueType : string) : res (option Z) :=
  if known_value_type valueType then
    if String.eqb (TrimSpace value) "" then OK None
    else match weekly_store_value value valueType with
         | OK v => OK (Some v)
         | ERR m => ERR m
         end
  else ERR "Unknown value type".

Fixpoint weekly_edit_rows (db : DB) (payload : list EditRow) (u : Z) : res DB :=
  match payload with
  | [] => OK db
  | row :: rest =>
      match stat_by_id db (E_StatID row) with
      | None => ERR "Stat not found for StatID"
      | Some st =>
          if negb (String.eqb (stype st) "personal") then
            ERR "Stat is not personal and cannot be written via this endpoint"
          else
            match validateWeeklyValueByType (Value row) (value_type st) with
            | ERR m => ERR m
            | OK _ =>
                match edit_store_value (Value row) (value_type st) with
                | ERR m => ERR m
                | OK None => weekly_edit_rows db rest u
                | OK (Some v) =>
                    weekly_edit_rows
                      (insert_weekly db
                         (mkWeekly (ToLower (short_id st)) (Weekending row) v (Some u) None))
                      rest u
                end
            end
      end
  end.

Definition handleSaveWeeklyEdit (db : DB) (payload : list EditRow)
  (sessionUserID : Z) : outcome * DB :=
  match payload with
  | [] => (ERR "Empty payload", db)
  | _ =>
      if existsb (fun row => negb (checkIfValidWE (Weekending row))) payload
      then (ERR "W/E date invalid", db)
      else
        let weList := map Weekending payload in
        run_tx db
          (weekly_edit_rows
             (delete_weekly db (fun r =>
                sql_eq (w_user_id r) sessionUserID
                && existsb (String.eqb (w_week_ending r)) weList))
             payload sessionUserID)
          "Saved Weekly stat data"
  end.

(** * Reads: [resolveStatIdentity], [handleGetWeeklyStats],
      [handleGetDailyStats] *)

Definition resolveStatIdentity (db : DB) (statIDStr statShort : string)
  : res (string * string) :=
  if negb (String.eqb statIDStr "") then
    i <- Atoi statIDStr ;;
    match stat_by_id db i with
    | Some st => OK (ToLower (short_id st), stype st)
    | None => ERR "sql: no rows in result set"
    end
  else if negb (String.eqb statShort "") then
    match stat_by_short db (ToLower statShort) with
    | Some st => OK (ToLower statShort, stype st)
    | None => OK (ToLower statShort, "personal")   (* not found -> default to personal *)
    end
  else ERR "either stat_id or stat (short id) must be provided".

(** [ORDER BY week_ending] (byte order), as a stable insertion sort. *)
Fixpoint insert_by_week (r : WeeklyRow) (l : list WeeklyRow) : list WeeklyRow :=
  match l with
  | [] => [r]
  | x :: xs =>
      if String.leb (w_week_ending r) (w_week_ending x) then r :: x :: xs
      else x :: insert_by_week r xs
  end.

Definition order_by_week (l : list WeeklyRow) : list WeeklyRow :=
  fold_right insert_by_week [] l.

(** [WeeklyValue{WeekEnding, Value: float64(v) / 100.0}] *)
Record WeeklyValue := mkWeeklyValue { WeekEnding : string; WV_Value : float64 }.

Definition handleGetWeeklyStats (db : DB) (statIDStr statShort userIDParam : string)
  (sessionUser : Z) (sessionIsAdmin : bool) : res (list WeeklyValue) :=
  if String.eqb statIDStr "" && String.eqb statShort "" then
    ERR "stat_id or stat query param required"
  else
    match resolveStatIdentity db statIDStr statShort with
    | ERR _ => ERR "Failed to resolve stat"
    | OK (nameLower, statType) =>
        let target :=
          if String.eqb userIDParam "" then OK sessionUser
          else if negb sessionIsAdmin then
            ERR "Insufficient permissions to request other user's stats"
          else match Atoi userIDParam with
               | OK uid => OK uid
               | ERR _ => ERR "Invalid user_id parameter"
               end in
        targetUserID <- target ;;
        let rows :=
          if String.eqb statType "personal" then
            filter (fun r => String.eqb (ToLower (w_name r)) nameLower
                             && sql_eq (w_user_id r) targetUserID) (weekly_stats db)
          else
            filter (fun r => String.eqb (ToLower (w_name r)) nameLower
                             && is_not_null (w_division_id r)) (weekly_stats db) in
        OK (map (fun r => mkWeeklyValue (w_week_ending r)
                            (fdiv (float_of_int (w_value r)) f_100))
                (order_by_week rows))
    end.

(** The formatting of a stored daily value: currency as [USD.String],
    every other value type as the plain integer ([fmt.Sprintf("%d")]). *)
Definition format_daily (valueType : string) (v : Z) : string :=
  if String.eqb valueType "currency" then USD_String v else Itoa v.

(** Stat metadata of [handleGetDailyStats]: [(nameLower, statType, valueType)]. *)
Definition daily_stat_meta (db : DB) (statIDStr statShort : string)
  : res (string * string * string) :=
  if negb (String.eqb statIDStr "") then
    match Atoi statIDStr with
    | ERR _ => ERR "Invalid stat_id"
    | OK i =>
        match stat_by_id db i with
        | Some st => OK (ToLower (short_id st), stype st, value_type st)
        | None => ERR "Stat not found"
        end
    end
  else
    match stat_by_short db (ToLower statShort) with
    | Some st => OK (ToLower (short_id st), stype st, value_type st)
    | None => OK (ToLower statShort, "personal", "number")
    end.

(** [SELECT value FROM daily_stats WHERE ... LIMIT 1] for one date. *)
Definition daily_lookup (db : DB) (statType nameLower dateStr : string) (u : Z)
  : option Z :=
  option_map d_value
    (find (fun r => String.eqb (ToLower (d_name r)) nameLower
                    && String.eqb (d_date r) dateStr
                    && (if String.eqb statType "personal" then sql_eq (d_user_id r) u
                        else is_not_null (d_division_id r)))
          (daily_stats db)).

Definition handleGetDailyStats (db : DB) (thisWeek statIDStr statShort : string)
  (sessionUserID : Z) : res DailyStat :=
  if String.eqb thisWeek "" || (String.eqb statIDStr "" && String.eqb statShort "")
  then ERR "date and (stat_id or stat) are required"
  else if negb (checkIfValidWE thisWeek) then ERR "Invalid W/E date"
  else
    meta <- daily_stat_meta db statIDStr statShort ;;
    let '(nameLower, statType, valueType) := meta in
    let cell dateStr :=
      match daily_lookup db statType nameLower dateStr sessionUserID with
      | Some v => format_daily valueType v
      | None => ""
      end in
    let we := week_anchor thisWeek in
    OK (mkDailyStat (ToUpper nameLower) (cell (Format we))
          (cell (Format (AddDays we 1))) (cell (Format (AddDays we 4)))
          (cell (Format (AddDays we 5))) (cell (Format (AddDays we 6))) "").

(** * Auxiliary definitions for the statements *)

(** The store with every stat's [assigned_user_id] replaced by [g]. *)
Definition reassign (g : Stat -> option Z) (db : DB) : DB :=
  mkDB (map (fun s => mkStat (id s) (short_id s) (stype s) (value_type s) (g s)
                        (assigned_division_id s)) (stats db))
       (weekly_stats db) (daily_stats db).

(** The store with every stat's [value_type] replaced by [g]. *)
Definition retype (g : Stat -> string) (db : DB) : DB :=
  mkDB (map (fun s => mkStat (id s) (short_id s) (stype s) (g s) (assigned_user_id s)
                        (assigned_division_id s)) (stats db))
       (weekly_stats db) (daily_stats db).

Definition is_err {A} (r : res A) : bool :=
  match r with ERR _ => true | OK _ => false end.

(** A 7R row that [handleSave7R] must refuse: unknown stat, a cell failing
    [validateDailyStatByType], a non-personal stat, or a non-empty cell that
    is neither money nor an integer. *)
Definition row7R_fails (db : DB) (r : Row) : bool :=
  match stat_by_id db (StatID r) with
  | None => true
  | Some st =>
      is_err (validateDailyStatByType (short_id st) (value_type st)
                (row_daily (short_id st) r))
      || negb (String.eqb (stype st) "personal")
      || existsb (fun raw => negb (String.eqb (TrimSpace raw) "")
                             && is_err (cell_value (TrimSpace raw))) (row_cells r)
  end.

(** A weekly edit row that [handleSaveWeeklyEdit] must refuse. *)
Definition edit_row_fails (db : DB) (r : EditRow) : bool :=
  negb (checkIfValidWE (Weekending r))
  || match stat_by_id db (E_StatID r) with
     | None => true
     | Some st =>
         negb (String.eqb (stype st) "personal")
         || is_err (validateWeeklyValueByType (Value r) (value_type st))
         || is_err (edit_store_value (Value r) (value_type st))
     end.



(** The weekly row a weekly edit inserts for a payload row. *)
Definition edit_row_inserted (db : DB) (u : Z) (row : EditRow) (r : WeeklyRow) : Prop :=
  exists st v, stat_by_id db (E_StatID row) = Some st
    /\ weekly_store_value (Value row) (value_type st) = OK v
    /\ r = mkWeekly (ToLower (short_id st)) (Weekending row) v (Some u) None.

(** A new weekly row written by a weekly edit for one of its payload rows. *)
Definition edit_row_written (db : DB) (payload : list EditRow) (u : Z) (r : WeeklyRow) : Prop :=
  w_user_id r = Some u
  /\ exists row st, In row payload /\ w_week_ending r = Weekending row
     /\ stat_by_id db (E_StatID row) = Some st /\ w_name r = ToLower (short_id st).

(** A calendar date as [time.Parse] accepts it. *)
Definition valid_date (t : date) : Prop :=
  1 <= month t <= 12 /\ 1 <= day t <= days_in (month t) (year t).



(** * The remaining helpers of main.go *)

(** [strings.Split(s, sep)] for a one-character separator. *)
Fixpoint split_sep_aux (sep : ascii) (s cur : string) : list string :=
  match s with
  | EmptyString => [cur]
  | String c r =>
      if Ascii.eqb c sep then cur :: split_sep_aux sep r EmptyString
      else split_sep_aux sep r (cur ++ String c EmptyString)
  end.

Definition Split_sep (s : string) (sep : ascii) : list string :=
  split_sep_aux sep s EmptyString.

(** The loop of [splitInt]: the parts [strconv.Atoi] accepts, in order. *)
Fixpoint keep_ints (parts : list string) : list Z :=
  match parts with
  | [] => []
  | p :: rest =>
      match Atoi p with
      | OK i => i :: keep_ints rest
      | ERR _ => keep_ints rest
      end
  end.

Definition splitInt (s : string) : list Z :=
  if String.eqb s "" then [] else keep_ints (Split_sep s ",").

(** [GROUP_CONCAT] with its default separator: the values joined by ",". *)
Fixpoint join_comma (l : list string) : string :=
  match l with
  | [] => ""
  | [x] => x
  | x :: rest => x ++ "," ++ join_comma rest
  end.

(** [parseIntLenient]. *)
Definition parseIntLenient (s0 : string) : res Z :=
  let s := TrimSpace s0 in
  if String.eqb s "" then OK 0 else Atoi s.

(** The loop shared by [CumWeekInt] and [CumWeekFloat]: convert each
    argument, stop at the first error, add with 64-bit wrap-around. *)
Fixpoint accumulate (conv : string -> res Z) (args : list string) (i : Z) : res Z :=
  match args with
  | [] => OK i
  | v :: rest =>
      match conv v with
      | ERR m => ERR m
      | OK value => accumulate conv rest (wrap64 (i + value))
      end
  end.

(** [CumWeekInt]: an empty argument counts as "0". *)
Definition cum_int_item (v0 : string) : res Z :=
  let v := if String.eqb v0 "" then "0" else v0 in Atoi v.

Definition CumWeekInt (args : list string) : res Z := accumulate cum_int_item args 0.

(** [CumWeekFloat]: cents through [StringToMoney] and [MoneyToUSD], then
    [USD.Float64]. *)
Definition cum_money_item (v : string) : res Z :=
  m <- StringToMoney v ;; OK (MoneyToUSD m).

Definition CumWeekFloat (args : list string) : res float64 :=
  d <- accumulate cum_money_item args 0 ;; OK (USD_Float64 d).

(** The legacy [validateDailyStats] (CSV rows): a money check for "GI" and
    "VSD", an integer check for "Sites", any other name refused. *)
Definition day_msg (value day name : string) : string :=
  "Value " ++ value ++ " on " ++ day ++ " for stat " ++ name
  ++ " is invalid. Please check your data and try again".

Definition quota_msg (value name : string) : string :=
  "Value " ++ value ++ " for the " ++ name ++ " Quota is invalid. Please check your data and try again".

Definition check_fields {A} (conv : string -> res A) (v : DailyStat) : res unit :=
  let nm := Name v in
  match conv (Thursday v) with ERR _ => ERR (day_msg (Thursday v) "Thursday" nm) | OK _ =>
  match conv (Friday v) with ERR _ => ERR (day_msg (Friday v) "Friday" nm) | OK _ =>
  match conv (Monday v) with ERR _ => ERR (day_msg (Monday v) "Monday" nm) | OK _ =>
  match conv (Tuesday v) with ERR _ => ERR (day_msg (Tuesday v) "Tuesday" nm) | OK _ =>
  match conv (Wednesday v) with ERR _ => ERR (day_msg (Wednesday v) "Wednesday" nm) | OK _ =>
  match conv (Quota v) with ERR _ => ERR (quota_msg (Quota v) nm) | OK _ =>
  OK tt end end end end end end.

Definition validateDailyStats (v : DailyStat) : res unit :=
  if String.eqb (Name v) "GI" || String.eqb (Name v) "VSD" then check_fields StringToMoney v
  else if String.eqb (Name v) "Sites" then check_fields Atoi v
  else ERR ("The stat name " ++ Name v ++ " is not valid. It should be GI, VSD or Sites"
        ++ String (ascii_of_nat 10) EmptyString).

(** [handleDailyStatsRequest]'s name of last week's file: [t.Add(...)]
    returns a new time that is discarded, so [t] is formatted unchanged. *)
Definition daily_last_week (thisWeek : string) : string :=
  let t := match parse_date thisWeek with Some t => t | None => zero_time end in
  Format t.

(** Fixed-width decimal renderings, for the date round trip. *)
Definition fw2 (n : Z) : string :=
  String (digit_char (n / 10 mod 10)) (String (digit_char (n mod 10)) EmptyString).

Definition fw4 (n : Z) : string :=
  String (digit_char (n / 1000 mod 10)) (String (digit_char (n / 100 mod 10))
    (String (digit_char (n / 10 mod 10)) (String (digit_char (n mod 10)) EmptyString))).

(** * Accounts and administration (db.go: the first [InitDB] schema,
      [RegisterCompany], [RegisterUser]; main.go: [AuthMiddleware], the
      login and user handlers, the stat and division administration)

    The tables the administration code writes, with the columns it uses, in
    rowid order.  [AUTOINCREMENT] ids come from a per-table sequence that a
    rolled-back transaction restores.  Rows of [daily_stats] and
    [weekly_stats] appear only through their [author_user_id] values, which
    reference [users(id)] without an action. *)

Record Company := mkCompany { c_id : Z; company_id : string; c_name : string }.

Record User := mkUser {
  u_id : Z; u_company_id : Z; username : string; password_hash : string; role : string
}.

Record Division := mkDivision { dv_id : Z; dv_name : string }.

(** A row of [stats] with the columns the stat handlers write. *)
Record StatDef := mkStatDef {
  sd_id : Z; sd_short_id : string; sd_full_name : string; sd_type : string;
  sd_value_type : string; sd_reversed : bool
}.

Record Admin := mkAdmin {
  companies : list Company;
  users : list User;
  divisions : list Division;
  stat_defs : list StatDef;
  user_assignments : list (Z * Z);       (* stat_user_assignments (stat_id, user_id) *)
  division_assignments : list (Z * Z);   (* stat_division_assignments (stat_id, division_id) *)
  author_ids : list Z;                   (* author_user_id of daily and weekly rows *)
  seq_companies : Z; seq_users : Z; seq_divisions : Z; seq_stats : Z
}.

Definition set_companies (a : Admin) (cs : list Company) (sq : Z) : Admin :=
  mkAdmin cs (users a) (divisions a) (stat_defs a) (user_assignments a)
    (division_assignments a) (author_ids a) sq (seq_users a) (seq_divisions a) (seq_stats a).

Definition set_users (a : Admin) (us : list User) (sq : Z) : Admin :=
  mkAdmin (companies a) us (divisions a) (stat_defs a) (user_assignments a)
    (division_assignments a) (author_ids a) (seq_companies a) sq (seq_divisions a) (seq_stats a).

Definition set_divisions (a : Admin) (ds : list Division) (sq : Z) : Admin :=
  mkAdmin (companies a) (users a) ds (stat_defs a) (user_assignments a)
    (division_assignments a) (author_ids a) (seq_companies a) (seq_users a) sq (seq_stats a).

Definition set_stat_defs (a : Admin) (ss : list StatDef) (sq : Z) : Admin :=
  mkAdmin (companies a) (users a) (divisions a) ss (user_assignments a)
    (division_assignments a) (author_ids a) (seq_companies a) (seq_users a) (seq_divisions a) sq.

Definition set_user_assignments (a : Admin) (l : list (Z * Z)) : Admin :=
  mkAdmin (companies a) (users a) (divisions a) (stat_defs a) l
    (division_assignments a) (author_ids a) (seq_companies a) (seq_users a) (seq_divisions a)
    (seq_stats a).

Definition set_division_assignments (a : Admin) (l : list (Z * Z)) : Admin :=
  mkAdmin (companies a) (users a) (divisions a) (stat_defs a) (user_assignments a)
    l (author_ids a) (seq_companies a) (seq_users a) (seq_divisions a) (seq_stats a).

Definition with_hash (u : User) (h : string) : User :=
  mkUser (u_id u) (u_company_id u) (username u) h (role u).

Definition with_role (u : User) (r : string) : User :=
  mkUser (u_id u) (u_company_id u) (username u) (password_hash u) r.

(** [fmt.Errorf(pre + "%v", err)] *)
Definition wrap_err {A} (pre : string) (r : res A) : res A :=
  match r with OK x => OK x | ERR m => ERR (pre ++ m) end.

Definition uint64_max : Z := 2 ^ 64 - 1.

(** The digit loop of [strconv.ParseUint] (base 10): it stops at the first
    non-digit with a syntax error, or as soon as the value exceeds the
    largest uint64 with a range error, whichever comes first. *)
Inductive uint_scan_result := Scan_ok (n : Z) | Scan_syntax | Scan_range.

Fixpoint uint_scan (s : string) (n : Z) : uint_scan_result :=
  match s with
  | EmptyString => Scan_ok n
  | String c r =>
      if is_digit c then
        let n1 := n * 10 + digit_val c in
        if uint64_max <? n1 then Scan_range else uint_scan r n1
      else Scan_syntax
  end.

(** The value [strconv.Atoi] returns beside its error: 0 on a syntax
    error, the clamped bound on a range error ([strconv.ParseInt] strips
    the sign, and a value of the digit loop outside the int64 range is a
    range error too). *)
Definition Atoi_value (s : string) : Z :=
  match Atoi s with
  | OK n => n
  | ERR _ =>
      let (neg, body) :=
        match s with
        | String c r =>
            if Ascii.eqb c "-" then (true, r)
            else if Ascii.eqb c "+" then (false, r)
            else (false, s)
        | EmptyString => (false, EmptyString)
        end in
      match body with
      | EmptyString => 0
      | _ =>
          match uint_scan body 0 with
          | Scan_syntax => 0
          | _ => if neg then int64_min else int64_max
          end
      end
  end.

(** [SELECT ... FROM companies WHERE id = ?] *)
Definition company_by_id (a : Admin) (i : Z) : option Company :=
  find (fun c => c_id c =? i) (companies a).

(** [SELECT id FROM companies WHERE company_id = ?] *)
Definition company_by_cid (a : Admin) (cid : string) : option Company :=
  find (fun c => String.eqb (company_id c) cid) (companies a).

(** [SELECT ... FROM users u JOIN companies c ON u.company_id = c.id WHERE
    p(u, c)], first row. *)
Fixpoint join_company_aux (a : Admin) (p : User -> Company -> bool) (us : list User)
  : option (User * Company) :=
  match us with
  | [] => None
  | u :: r =>
      match company_by_id a (u_company_id u) with
      | Some c => if p u c then Some (u, c) else join_company_aux a p r
      | None => join_company_aux a p r
      end
  end.

Definition join_company (a : Admin) (p : User -> Company -> bool) : option (User * Company) :=
  join_company_aux a p (users a).

(** [INSERT INTO companies (company_id, name)]: [company_id] is UNIQUE. *)
Definition insert_company (a : Admin) (cid name : string) : res (Z * Admin) :=
  if existsb (fun c => String.eqb (company_id c) cid) (companies a)
  then ERR "UNIQUE constraint failed: companies.company_id"
  else
    let i := seq_companies a + 1 in
    OK (i, set_companies a (companies a ++ [mkCompany i cid name]) i).

(** [INSERT INTO stats (short_id, full_name, type, value_type, reversed)]. *)
Definition insert_stat (a : Admin) (sh fn ty vt : string) (rev : bool) : res (Z * Admin) :=
  if negb (String.eqb ty "personal" || String.eqb ty "divisional" || String.eqb ty "main")
  then ERR "CHECK constraint failed: type IN ('personal','divisional','main')"
  else if negb (String.eqb vt "number" || String.eqb vt "currency" || String.eqb vt "percentage")
  then ERR "CHECK constraint failed: value_type IN ('number','currency','percentage')"
  else
    let i := seq_stats a + 1 in
    OK (i, set_stat_defs a (stat_defs a ++ [mkStatDef i sh fn ty vt rev]) i).

(** [UPDATE stats SET ... WHERE id = ?]: the CHECK constraints are only
    evaluated on a row the UPDATE matches; with no stat [sid] it changes
    nothing and succeeds. *)
Definition update_stat (a : Admin) (sid : Z) (sh fn ty vt : string) (rev : bool) : res Admin :=
  if negb (existsb (fun s => sd_id s =? sid) (stat_defs a)) then OK a
  else if negb (String.eqb ty "personal" || String.eqb ty "divisional" || String.eqb ty "main")
  then ERR "CHECK constraint failed: type IN ('personal','divisional','main')"
  else if negb (String.eqb vt "number" || String.eqb vt "currency" || String.eqb vt "percentage")
  then ERR "CHECK constraint failed: value_type IN ('number','currency','percentage')"
  else OK (set_stat_defs a
             (map (fun s => if sd_id s =? sid then mkStatDef (sd_id s) sh fn ty vt rev else s)
                  (stat_defs a)) (seq_stats a)).

(** A stat creation or update request as decoded from JSON. *)
Record StatReq := mkStatReq {
  ShortID : string; FullName : string; Type_ : string; ValueType : string;
  Reversed : bool; UserIDs : list Z; DivisionIDs : list Z
}.

Section Administration.

(** [bcrypt.GenerateFromPassword] (it fails on passwords over 72 bytes). *)
Variable GenerateFromPassword : string -> res string.

(** [bcrypt.CompareHashAndPassword(hash, password) == nil]. *)
Variable CompareHashAndPassword : string -> string -> bool.

(** SQLite's reading of a bound text compared with the INTEGER column
    [users.id] (NUMERIC affinity). *)
Variable text_to_int : string -> option Z.

(** Whether the connection running a statement or transaction enforces
    foreign keys: [InitDB] runs [PRAGMA foreign_keys = ON] through the
    connection pool, which sets it on one connection only. *)
Variable fk : bool.

(** [INSERT INTO users (company_id, username, password_hash, role)]. *)
Definition insert_user (a : Admin) (comp : Z) (uname hash r : string) : res Admin :=
  if negb (String.eqb r "admin" || String.eqb r "user")
  then ERR "CHECK constraint failed: role IN ('admin','user')"
  else if existsb (fun u => (u_company_id u =? comp) && String.eqb (username u) uname) (users a)
  then ERR "UNIQUE constraint failed: users.company_id, users.username"
  else if fk && negb (existsb (fun c => c_id c =? comp) (companies a))
  then ERR "FOREIGN KEY constraint failed"
  else
    let i := seq_users a + 1 in
    OK (set_users a (users a ++ [mkUser i comp uname hash r]) i).

(** [RegisterCompany]: one transaction, rolled back on any error. *)
Definition RegisterCompany (a : Admin) (cid cname uname pw : string) : res unit * Admin :=
  let t :=
    p <- wrap_err "failed to insert company: " (insert_company a cid cname) ;;
    let '(cdb, a1) := p in
    hash <- wrap_err "failed to hash password: " (GenerateFromPassword pw) ;;
    wrap_err "failed to insert admin user: " (insert_user a1 cdb uname hash "admin") in
  match t with
  | OK a' => (OK tt, a')
  | ERR m => (ERR m, a)
  end.

(** [RegisterUser]. *)
Definition RegisterUser (a : Admin) (cid uname pw r : string) : res unit * Admin :=
  if negb (String.eqb r "admin" || String.eqb r "user" || String.eqb r "manager")
  then (ERR ("invalid role: " ++ r), a)
  else
    match company_by_cid a cid with
    | None => (ERR "company not found: sql: no rows in result set", a)
    | Some c =>
        match GenerateFromPassword pw with
        | ERR m => (ERR ("failed to hash password: " ++ m), a)
        | OK h =>
            match insert_user a (c_id c) uname h r with
            | ERR m => (ERR ("failed to insert user: " ++ m), a)
            | OK a' => (OK tt, a')
            end
        end
    end.

(** [AuthMiddleware]: the session's [user_id] (None when absent or not an
    int) gives the request context's company id and user id. *)
Definition AuthMiddleware (requireRole : string) (sess : option Z) (a : Admin)
  : res (string * Z) :=
  match sess with
  | None => ERR "Unauthorized"
  | Some uid =>
      if uid =? 0 then ERR "Unauthorized" else
      match join_company a (fun u _ => u_id u =? uid) with
      | None => ERR "Unauthorized"
      | Some (u, c) =>
          if negb (String.eqb requireRole "") && negb (String.eqb (role u) requireRole)
          then ERR "Forbidden"
          else OK (company_id c, uid)
      end
  end.

(** [LoginHandler]: the user id saved in the session. *)
Definition LoginHandler (a : Admin) (cid uname pw : string) : res Z :=
  match join_company a (fun u c => String.eqb (company_id c) cid && String.eqb (username u) uname) with
  | None => ERR "Invalid credentials"
  | Some (u, _) =>
      if CompareHashAndPassword (password_hash u) pw then OK (u_id u)
      else ERR "Invalid credentials"
  end.

(** [LogoutHandler]: [session.Values["user_id"] = 0]. *)
Definition LogoutHandler (sess : option Z) : option Z := Some 0.

(** [WHERE u.id = ?] with the path text of [mux.Vars(r)["id"]]. *)
Definition id_matches (userID : string) (u : User) : bool :=
  match text_to_int userID with Some n => u_id u =? n | None => false end.

(** [DELETE FROM users WHERE id = ?]: refused while a daily or weekly row
    names the user as author; stat assignments of the user cascade. *)
Definition delete_user (a : Admin) (userID : string) : res Admin :=
  let gone := map u_id (filter (id_matches userID) (users a)) in
  if fk && existsb (fun i => existsb (Z.eqb i) (author_ids a)) gone
  then ERR "FOREIGN KEY constraint failed"
  else
    let a1 := set_users a (filter (fun u => negb (id_matches userID u)) (users a)) (seq_users a) in
    OK (if fk
        then set_user_assignments a1
               (filter (fun sa => negb (existsb (Z.eqb (snd sa)) gone)) (user_assignments a1))
        else a1).

(** [DeleteUserHandler]: [companyID] and [adminID] from the context. *)
Definition DeleteUserHandler (a : Admin) (companyID : string) (adminID : Z) (userID : string)
  : outcome * Admin :=
  if String.eqb userID (Itoa adminID) then (ERR "Cannot delete own account", a) else
  match join_company a (fun u _ => id_matches userID u) with
  | Some (_, c) =>
      if String.eqb (company_id c) companyID then
        match delete_user a userID with
        | ERR _ => (ERR "Server error", a)
        | OK a' => (OK "User deleted successfully", a')
        end
      else (ERR "User not found", a)
  | None => (ERR "User not found", a)
  end.

(** [UpdateUserRoleHandler]. *)
Definition UpdateUserRoleHandler (a : Admin) (companyID : string) (adminID : Z)
  (userID newRole : string) : outcome * Admin :=
  if negb (String.eqb newRole "user" || String.eqb newRole "admin") then (ERR "Invalid role", a)
  else if String.eqb userID (Itoa adminID) then (ERR "Cannot change own role", a) else
  match join_company a (fun u _ => id_matches userID u) with
  | Some (_, c) =>
      if String.eqb (company_id c) companyID then
        (OK "Role updated successfully",
         set_users a (map (fun u => if id_matches userID u then with_role u newRole else u)
                          (users a)) (seq_users a))
      else (ERR "User not found", a)
  | None => (ERR "User not found", a)
  end.

(** [ResetPasswordHandler]: [req.UserID] is a decoded int. *)
Definition ResetPasswordHandler (a : Admin) (companyID : string) (target : Z) (pw : string)
  : outcome * Admin :=
  match join_company a (fun u _ => u_id u =? target) with
  | Some (_, c) =>
      if String.eqb (company_id c) companyID then
        match GenerateFromPassword pw with
        | ERR _ => (ERR "Server error", a)
        | OK h =>
            (OK "Password reset successful",
             set_users a (map (fun u => if u_id u =? target then with_hash u h else u) (users a))
               (seq_users a))
        end
      else (ERR "User not found", a)
  | None => (ERR "User not found", a)
  end.

(** [ChangePasswordHandler]: [userID] from the context. *)
Definition ChangePasswordHandler (a : Admin) (userID : Z) (oldpw newpw : string)
  : outcome * Admin :=
  match find (fun u => u_id u =? userID) (users a) with
  | None => (ERR "Server error", a)
  | Some u =>
      if negb (CompareHashAndPassword (password_hash u) oldpw) then (ERR "Invalid old password", a)
      else
        match GenerateFromPassword newpw with
        | ERR _ => (ERR "Server error", a)
        | OK h =>
            (OK "Password changed successfully",
             set_users a (map (fun v => if u_id v =? userID then with_hash v h else v) (users a))
               (seq_users a))
        end
  end.

(** [INSERT INTO stat_user_assignments (stat_id, user_id)]: primary key
    (stat_id, user_id), both columns foreign keys. *)
Definition insert_user_assignment (a : Admin) (sid uid : Z) : res Admin :=
  if existsb (fun p => (fst p =? sid) && (snd p =? uid)) (user_assignments a)
  then ERR "UNIQUE constraint failed: stat_user_assignments.stat_id, stat_user_assignments.user_id"
  else if fk && negb (existsb (fun s => sd_id s =? sid) (stat_defs a)
                      && existsb (fun u => u_id u =? uid) (users a))
  then ERR "FOREIGN KEY constraint failed"
  else OK (set_user_assignments a (user_assignments a ++ [(sid, uid)])).

(** [INSERT INTO stat_division_assignments (stat_id, division_id)]. *)
Definition insert_division_assignment (a : Admin) (sid did : Z) : res Admin :=
  if existsb (fun p => (fst p =? sid) && (snd p =? did)) (division_assignments a)
  then ERR "UNIQUE constraint failed: stat_division_assignments.stat_id, stat_division_assignments.division_id"
  else if fk && negb (existsb (fun s => sd_id s =? sid) (stat_defs a)
                      && existsb (fun d => dv_id d =? did) (divisions a))
  then ERR "FOREIGN KEY constraint failed"
  else OK (set_division_assignments a (division_assignments a ++ [(sid, did)])).

(** The assignment loops of [CreateStatHandler]: the first error aborts. *)
Fixpoint assign_users (a : Admin) (sid : Z) (uids : list Z) : res Admin :=
  match uids with
  | [] => OK a
  | uid :: r =>
      match insert_user_assignment a sid uid with
      | ERR m => ERR m
      | OK a' => assign_users a' sid r
      end
  end.

Fixpoint assign_divisions (a : Admin) (sid : Z) (dids : list Z) : res Admin :=
  match dids with
  | [] => OK a
  | did :: r =>
      match insert_division_assignment a sid did with
      | ERR m => ERR m
      | OK a' => assign_divisions a' sid r
      end
  end.

(** The loops of [UpdateStatHandler]: [tx.Exec] errors are not checked. *)
Fixpoint assign_users_lenient (a : Admin) (sid : Z) (uids : list Z) : Admin :=
  match uids with
  | [] => a
  | uid :: r =>
      match insert_user_assignment a sid uid with
      | ERR _ => assign_users_lenient a sid r
      | OK a' => assign_users_lenient a' sid r
      end
  end.

Fixpoint assign_divisions_lenient (a : Admin) (sid : Z) (dids : list Z) : Admin :=
  match dids with
  | [] => a
  | did :: r =>
      match insert_division_assignment a sid did with
      | ERR _ => assign_divisions_lenient a sid r
      | OK a' => assign_divisions_lenient a' sid r
      end
  end.

(** [CreateStatHandler] after the JSON decoding; one transaction. *)
Definition CreateStatHandler (a : Admin) (req : StatReq) : outcome * Admin :=
  if String.eqb (TrimSpace (ShortID req)) "" then (ERR "Short ID is required", a)
  else if String.eqb (TrimSpace (FullName req)) "" then (ERR "Full Name is required", a)
  else
    let sh := ToUpper (TrimSpace (ShortID req)) in
    let fn := TrimSpace (FullName req) in
    match insert_stat a sh fn (Type_ req) (ValueType req) (Reversed req) with
    | ERR _ => (ERR "Failed to insert stat", a)
    | OK (sid, a1) =>
        match assign_users a1 sid (UserIDs req) with
        | ERR _ => (ERR "Failed to assign user", a)
        | OK a2 =>
            match assign_divisions a2 sid (DivisionIDs req) with
            | ERR _ => (ERR "Failed to assign division", a)
            | OK a3 => (OK "Stat created", a3)
            end
        end
    end.

(** [UpdateStatHandler] after the JSON decoding; one transaction. *)
Definition UpdateStatHandler (a : Admin) (idStr : string) (req : StatReq) : outcome * Admin :=
  match Atoi idStr with
  | ERR _ => (ERR "Invalid stat ID", a)
  | OK sid =>
      if String.eqb (TrimSpace (ShortID req)) "" then (ERR "Short ID is required", a)
      else if String.eqb (TrimSpace (FullName req)) "" then (ERR "Full Name is required", a)
      else
        let sh := ToUpper (TrimSpace (ShortID req)) in
        let fn := TrimSpace (FullName req) in
        match update_stat a sid sh fn (Type_ req) (ValueType req) (Reversed req) with
        | ERR _ => (ERR "Failed to update stat", a)
        | OK a1 =>
            let a2 := set_user_assignments a1
                        (filter (fun p => negb (fst p =? sid)) (user_assignments a1)) in
            let a3 := set_division_assignments a2
                        (filter (fun p => negb (fst p =? sid)) (division_assignments a2)) in
            let a4 := assign_users_lenient a3 sid (UserIDs req) in
            (OK "Stat updated", assign_divisions_lenient a4 sid (DivisionIDs req))
        end
  end.

(** [DELETE FROM stats WHERE id = ?]: the stat's assignments cascade. *)
Definition delete_stat (a : Admin) (sid : Z) : Admin :=
  let gone := map sd_id (filter (fun s => sd_id s =? sid) (stat_defs a)) in
  let a1 := set_stat_defs a (filter (fun s => negb (sd_id s =? sid)) (stat_defs a)) (seq_stats a) in
  if fk then
    set_division_assignments
      (set_user_assignments a1
         (filter (fun p => negb (existsb (Z.eqb (fst p)) gone)) (user_assignments a1)))
      (filter (fun p => negb (existsb (Z.eqb (fst p)) gone)) (division_assignments a1))
  else a1.

(** [DeleteStatHandler]: [id, _ := strconv.Atoi(idStr)]. *)
Definition DeleteStatHandler (a : Admin) (idStr : string) : outcome * Admin :=
  (OK "Stat deleted", delete_stat a (Atoi_value idStr)).

End Administration.

(** The [UNIQUE(company_id, username)] key of a user row. *)
Definition user_key (u : User) : Z * string := (u_company_id u, username u).

(** The account tables as the schema and [AUTOINCREMENT] keep them: ids
    positive, unique and not above their table's sequence, company ids
    unique, (company, user name) unique, and every user's company present. *)
Definition accounts_wf (a : Admin) : Prop :=
  0 <= seq_companies a /\ 0 <= seq_users a
  /\ Forall (fun c => 0 < c_id c <= seq_companies a) (companies a)
  /\ Forall (fun u => 0 < u_id u <= seq_users a /\ In (u_company_id u) (map c_id (companies a)))
       (users a)
  /\ NoDup (map c_id (companies a)) /\ NoDup (map company_id (companies a))
  /\ NoDup (map u_id (users a)) /\ NoDup (map user_key (users a)).

(** A user whose company (joined on [users.company_id]) has the given
    company id. *)
Definition in_company (a : Admin) (cid : string) (u : User) : Prop :=
  exists c, company_by_id a (u_company_id u) = Some c /\ company_id c = cid.

(** One day earlier, for a valid date. *)
Definition prev_day (t : date) : date :=
  if 1 <? day t then mkDate (year t) (month t) (day t - 1)
  else if 1 <? month t then mkDate (year t) (month t - 1) (days_in (month t - 1) (year t))
  else mkDate (year t - 1) 12 31.

(** [t.Add(-k * 24 * time.Hour)] on a UTC time. *)
Definition SubDays (t : date) (k : nat) : date := Nat.iter k prev_day t.

(** The loop of [getWeeks]: [n] steps of one week back, each formatted. *)
Fixpoint weeks_back (t : date) (n : nat) : list string :=
  match n with
  | O => []
  | S k => let t' := SubDays t 7 in Format t' :: weeks_back t' k
  end.

(** [getWeeks(n)]: [week] is the date of [now.EndOfWeek()] with weeks
    starting on Friday, [isThursday] whether [time.Now()] is a Thursday. *)
Definition getWeeks (week : date) (isThursday : bool) (n : nat) : list string :=
  ((if isThursday then [Format (AddDays week 7)] else []) ++ Format week :: weeks_back week n)%list.

(** A string without the separator character. *)
Definition no_sep (sep : ascii) (s : string) : bool :=
  forallb (fun c => negb (Ascii.eqb c sep)) (list_ascii_of_string s).

(** * Sample stats used by the concrete statements *)

Definition stat_sales : Stat := mkStat 1 "Sales" "personal" "number" (Some 1) None.
Definition stat_pct : Stat := mkStat 2 "Pct" "personal" "percentage" (Some 1) None.
Definition stat_gi : Stat := mkStat 3 "GI" "personal" "currency" (Some 1) None.
Definition sample_db : DB := mkDB [stat_sales; stat_pct; stat_gi] [] [].

(** ======================================================================
    * Properties
    ====================================================================== *)

(** ** Concrete behaviour *)

(** C4: a percentage of "150" through [handleLogWeeklyStats] and through
    [handleSaveWeeklyEdit] is accepted and stored as 15000, while
    [handleSave7R] rejects the same value for the same stat. *)
Theorem weekly_percentage_150_stored :
  handleLogWeeklyStats sample_db 2 "2024-01-04" "150" 7
    = (OK "Weekly value saved",
       set_weekly sample_db [mkWeekly "pct" "2024-01-04" 15000 (Some 7) None])
  /\ handleSaveWeeklyEdit sample_db [mkEditRow 2 "2024-01-04" "150"] 7
    = (OK "Saved Weekly stat data",
       set_weekly sample_db [mkWeekly "pct" "2024-01-04" 15000 (Some 7) None])
  /\ handleSave7R sample_db "2024-01-04" [mkRow 2 "" "150" "" "" "" "" ""] 7
    = (ERR "Validation failed for daily stat", sample_db).
Proof. vm_compute. repeat split. Qed.

(** C6: a number-typed cell "5" saved through [handleSave7R] is stored as
    500 (it is read as money first and scaled to cents), while
    [handleLogWeeklyStats] stores the same value as 5. *)
Theorem save7R_number_stored_in_cents :
  handleSave7R sample_db "2024-01-04" [mkRow 1 "" "5" "" "" "" "" ""] 7
    = (OK "Saved 7R grid",
       set_daily sample_db [mkDaily "sales" "2024-01-04" 500 (Some 7) None])
  /\ handleLogWeeklyStats sample_db 1 "2024-01-04" "5" 7
    = (OK "Weekly value saved",
       set_weekly sample_db [mkWeekly "sales" "2024-01-04" 5 (Some 7) None]).
Proof. vm_compute. split; reflexivity. Qed.

(** C10: "-1.50" parses to dollars -1, cents 50 with the [Negative] flag
    set; [MoneyToUSD] ignores the flag and gives -50 cents, which formats
    as "-0.50", not "-1.50".  A non-negative "1234.5" does round-trip; the
    tie "0.125" is rounded to even (12 cents), not half up. *)
Theorem negative_money_loses_dollars :
  StringToMoney "-1.50" = OK (mkMoney (-1) 50 true)
  /\ MoneyToUSD (mkMoney (-1) 50 true) = -50
  /\ USD_String (-50) = "-0.50"
  /\ StringToMoney "1234.5" = OK (mkMoney 1234 50 false)
  /\ MoneyToUSD (mkMoney 1234 50 false) = 123450
  /\ USD_String 123450 = "1234.50"
  /\ StringToMoney "0.125" = OK (mkMoney 0 12 false).
Proof. vm_compute. repeat split. Qed.

(** ** Counterexamples *)


(** C3: the day-5 quota of a weekly integer quota of 7 is 5, and the day-5
    quota of a currency quota of 10.01 is 10.00. *)
Lemma quota_day5_not_full :
  GetQuotaInt 5 "7" = OK 5 /\ GetQuotaInt 5 "7" <> OK 7
  /\ GetQuotaFloat 5 "10.01" = OK (USD_Float64 1000)
  /\ ParseFloat "10.01" = OK (USD_Float64 1001)
  /\ USD_Float64 1000 <> USD_Float64 1001.
Proof. vm_compute. repeat split; discriminate. Qed.

(** C5: user 2 writes the weekly value of a personal stat assigned to
    user 1 and the write succeeds. *)
Lemma non_owner_weekly_write_accepted :
  assigned_user_id stat_sales = Some 1
  /\ handleLogWeeklyStats sample_db 1 "2024-01-04" "7" 2
     = (OK "Weekly value saved",
        set_weekly sample_db [mkWeekly "sales" "2024-01-04" 7 (Some 2) None]).
Proof. vm_compute. split; reflexivity. Qed.

(** C7: a number-typed value stored as 7 is returned by
    [handleGetWeeklyStats] as 7 / 100 = 0.07, not as 7. *)
Lemma weekly_read_divides_number :
  let db1 := snd (handleLogWeeklyStats sample_db 1 "2024-01-04" "7" 1) in
  value_type stat_sales = "number"
  /\ weekly_stats db1 = [mkWeekly "sales" "2024-01-04" 7 (Some 1) None]
  /\ handleGetWeeklyStats db1 "1" "" "" 1 false
     = OK [mkWeeklyValue "2024-01-04" (fdiv (float_of_int 7) f_100)]
  /\ fdiv (float_of_int 7) f_100 <> float_of_int 7
  /\ Sprintf_2f (fdiv (float_of_int 7) f_100) = "0.07".
Proof. vm_compute. repeat split; discriminate. Qed.

(** C8: a weekly batch naming only (Sales, 2024-01-04) deletes the acting
    user's GI row of the same week. *)
Lemma weekly_edit_clears_other_stat :
  let db1 := mkDB (stats sample_db)
               [mkWeekly "sales" "2024-01-04" 7 (Some 1) None;
                mkWeekly "gi" "2024-01-04" 5000 (Some 1) None] [] in
  handleSaveWeeklyEdit db1 [mkEditRow 1 "2024-01-04" "8"] 1
    = (OK "Saved Weekly stat data",
       set_weekly db1 [mkWeekly "sales" "2024-01-04" 8 (Some 1) None]).
Proof. vm_compute. reflexivity. Qed.

(** C9: an unknown short code is resolved, without error, as a personal
    stat, and as a personal number stat by [handleGetDailyStats]. *)
Lemma unknown_short_code_defaults_personal :
  stat_by_short sample_db "nope" = None
  /\ resolveStatIdentity sample_db "" "NOPE" = OK ("nope", "personal")
  /\ handleGetDailyStats sample_db "2024-01-04" "" "NOPE" 1
     = OK (mkDailyStat "NOPE" "" "" "" "" "" "").
Proof. vm_compute. repeat split. Qed.

(** ** Helper lemmas *)

Lemma range_check_ok z n : range_check z = OK n -> n = z /\ int64_min <= n <= int64_max.
Proof.
  unfold range_check. destruct (int64_min <=? z) eqn:E1, (z <=? int64_max) eqn:E2;
    simpl; intro H; inversion H; subst; lia.
Qed.

Lemma Atoi_range q n : Atoi q = OK n -> int64_min <= n <= int64_max.
Proof.
  unfold Atoi. destruct q as [|c r]; [discriminate|].
  destruct (Ascii.eqb c "-"); [|destruct (Ascii.eqb c "+")];
  [destruct (unsigned_digits r) | destruct (unsigned_digits r) | destruct (unsigned_digits (String c r))];
  try discriminate; intro H; apply range_check_ok in H; lia.
Qed.

Lemma Atoi_nonempty q n : Atoi q = OK n -> String.eqb q "" = false.
Proof. destruct q; [discriminate | reflexivity]. Qed.

Lemma wrap64_id z : int64_min <= z <= int64_max -> wrap64 z = z.
Proof.
  unfold wrap64, int64_min, int64_max. intro H.
  rewrite Z.mod_small; lia.
Qed.

Lemma quot5_bounds n : Z.abs (Z.quot n 5 * 5) <= Z.abs n.
Proof.
  pose proof (Z.quot_rem' n 5) as E.
  destruct (Z_le_gt_dec 0 n).
  - pose proof (Z.rem_bound_pos n 5). lia.
  - pose proof (Z.rem_bound_pos (- n) 5). rewrite Z.rem_opp_l' in H. lia.
Qed.

Lemma GetQuotaInt_spec q n i :
  Atoi q = OK n -> 0 <= i <= 5 -> GetQuotaInt i q = OK (Z.quot n 5 * i).
Proof.
  intros Hq Hi. unfold GetQuotaInt. rewrite (Atoi_nonempty q n Hq), Hq. simpl.
  f_equal. apply wrap64_id.
  pose proof (Atoi_range q n Hq). pose proof (quot5_bounds n).
  unfold int64_min, int64_max in *.
  assert (Z.abs (Z.quot n 5 * i) <= Z.abs (Z.quot n 5 * 5)).
  { rewrite !Z.abs_mul. apply Z.mul_le_mono_nonneg_l; lia. }
  lia.
Qed.

(** [find] through a map that keeps the searched field. *)
Lemma find_map_keep {A} (f : A -> A) (p : A -> bool) (l : list A) :
  (forall x, p (f x) = p x) -> find p (map f l) = option_map f (find p l).
Proof.
  intro Hp. induction l as [|x l IH]; simpl; [reflexivity|].
  rewrite Hp. destruct (p x); [reflexivity | exact IH].
Qed.

Lemma stat_by_id_reassign g db i :
  stat_by_id (reassign g db) i
  = option_map (fun s => mkStat (id s) (short_id s) (stype s) (value_type s) (g s)
                           (assigned_division_id s)) (stat_by_id db i).
Proof. unfold stat_by_id; simpl. apply find_map_keep. reflexivity. Qed.

Lemma stat_by_id_retype g db i :
  stat_by_id (retype g db) i
  = option_map (fun s => mkStat (id s) (short_id s) (stype s) (g s) (assigned_user_id s)
                           (assigned_division_id s)) (stat_by_id db i).
Proof. unfold stat_by_id; simpl. apply find_map_keep. reflexivity. Qed.

Lemma stat_by_short_retype g db l :
  stat_by_short (retype g db) l
  = option_map (fun s => mkStat (id s) (short_id s) (stype s) (g s) (assigned_user_id s)
                           (assigned_division_id s)) (stat_by_short db l).
Proof. unfold stat_by_short; simpl. apply find_map_keep. reflexivity. Qed.

(** ** Settled claims (general statements) *)

(** C3 (as the code does it): [GetQuotaInt i q] is [(q quot 5) * i] with
    Go's truncating division, so the day-5 quota equals [q] exactly when 5
    divides [q]; [GetQuotaFloat] rounds [q / 5] to whole cents before
    multiplying by the day index, so its day-5 quota of 10.01 is 10.00. *)
Theorem quota_divides_then_multiplies (q : string) (n i : Z)
  (Hq : Atoi q = OK n) (Hi : 0 <= i <= 5) :
  GetQuotaInt i q = OK (Z.quot n 5 * i)
  /\ (GetQuotaInt 5 q = OK n <-> Z.rem n 5 = 0)
  /\ GetQuotaFloat 5 "10.01" = OK (USD_Float64 1000).
Proof.
  split; [apply GetQuotaInt_spec; assumption|]. split.
  - rewrite (GetQuotaInt_spec q n 5 Hq ltac:(lia)).
    pose proof (Z.quot_rem' n 5) as E. split.
    + intro H. injection H as H. lia.
    + intro H. f_equal. lia.
  - vm_compute. reflexivity.
Qed.

Lemma quota_divides_then_multiplies_witness :
  Atoi "12" = OK 12 /\ 0 <= 3 <= 5
  /\ GetQuotaInt 3 "12" = OK (Z.quot 12 5 * 3).
Proof.
  split; [reflexivity|]. split; [lia|].
  apply (quota_divides_then_multiplies "12" 12 3); [reflexivity | lia].
Defined.

(** C9 (as the code does it): a short code with no matching stat is
    resolved without error, as a personal stat by [resolveStatIdentity] and
    as a personal number stat by [handleGetDailyStats], which then answers
    normally for any valid week-ending date. *)
Theorem short_code_fallback_fabricates (db : DB) (sh : string)
  (Hne : sh <> "") (Hnf : stat_by_short db (ToLower sh) = None) :
  resolveStatIdentity db "" sh = OK (ToLower sh, "personal")
  /\ daily_stat_meta db "" sh = OK (ToLower sh, "personal", "number")
  /\ (forall we u, checkIfValidWE we = true ->
        exists out, handleGetDailyStats db we "" sh u = OK out
                    /\ Name out = ToUpper (ToLower sh)).
Proof.
  assert (Hsh : String.eqb sh "" = false) by (apply String.eqb_neq; exact Hne).
  split; [|split].
  - unfold resolveStatIdentity. simpl. rewrite Hsh. simpl. rewrite Hnf. reflexivity.
  - unfold daily_stat_meta. simpl. rewrite Hnf. reflexivity.
  - intros we u Hwe.
    assert (Hwe0 : String.eqb we "" = false) by (destruct we; [discriminate | reflexivity]).
    unfold handleGetDailyStats. rewrite Hwe0, Hsh, Hwe. simpl.
    unfold daily_stat_meta. simpl. rewrite Hnf. simpl.
    eexists. split; reflexivity.
Qed.

Lemma short_code_fallback_fabricates_witness :
  "nope" <> "" /\ stat_by_short sample_db (ToLower "nope") = None
  /\ resolveStatIdentity sample_db "" "nope" = OK (ToLower "nope", "personal").
Proof.
  split; [discriminate|]. split; [reflexivity|].
  apply (short_code_fallback_fabricates sample_db "nope");
    [discriminate | reflexivity].
Defined.

(** C5 (as the code does it): [handleLogWeeklyStats] does not consult the
    stat's assigned user: whoever the stats are assigned to, a request has
    the same outcome and leaves the same weekly rows.  For a personal stat,
    a valid request of any actor [u] succeeds: it removes [u]'s rows of that
    stat for the week ending and adds one row scoped to [u]'s user id,
    keeping every other row.  What it refuses is a non-personal stat, with
    an error and the store unchanged. *)
Theorem log_weekly_ignores_assignment (db : DB) (i : Z) (date value : string)
  (u : Z) (g : Stat -> option Z) :
  fst (handleLogWeeklyStats (reassign g db) i date value u)
    = fst (handleLogWeeklyStats db i date value u)
  /\ weekly_stats (snd (handleLogWeeklyStats (reassign g db) i date value u))
     = weekly_stats (snd (handleLogWeeklyStats db i date value u))
  /\ (forall st, stat_by_id db i = Some st ->
        String.eqb (stype st) "personal" = false ->
        exists m, handleLogWeeklyStats db i date value u = (ERR m, db))
  /\ (forall st v, i <> 0 -> checkIfValidWE date = true -> stat_by_id db i = Some st ->
        stype st = "personal" -> validateWeeklyValueByType value (value_type st) = OK tt ->
        weekly_store_value value (value_type st) = OK v ->
        handleLogWeeklyStats db i date value u
        = (OK "Weekly value saved",
           set_weekly db
             (filter (fun r => negb (String.eqb (ToLower (w_name r)) (ToLower (short_id st))
                                     && String.eqb (w_week_ending r) date
                                     && sql_eq (w_user_id r) u))
                (weekly_stats db)
              ++ [mkWeekly (ToLower (short_id st)) date v (Some u) None])%list)).
Proof.
  split; [|split; [|split]].
  - unfold handleLogWeeklyStats. rewrite stat_by_id_reassign.
    destruct (i =? 0); [reflexivity|]. destruct (checkIfValidWE date); [|reflexivity].
    destruct (stat_by_id db i) as [st|]; simpl; [|reflexivity].
    destruct (String.eqb (stype st) "personal"); simpl; [|reflexivity].
    destruct (validateWeeklyValueByType value (value_type st)); [|reflexivity].
    destruct (weekly_store_value value (value_type st)); reflexivity.
  - unfold handleLogWeeklyStats. rewrite stat_by_id_reassign.
    destruct (i =? 0); [reflexivity|]. destruct (checkIfValidWE date); [|reflexivity].
    destruct (stat_by_id db i) as [st|]; simpl; [|reflexivity].
    destruct (String.eqb (stype st) "personal"); simpl; [|reflexivity].
    destruct (validateWeeklyValueByType value (value_type st)); [|reflexivity].
    destruct (weekly_store_value value (value_type st)); reflexivity.
  - intros st Hst Hp. unfold handleLogWeeklyStats.
    destruct (i =? 0); [eexists; reflexivity|].
    destruct (checkIfValidWE date); [|eexists; reflexivity].
    rewrite Hst, Hp. eexists; reflexivity.
  - intros st v Hi Hd Hst Hp Hv Hs. unfold handleLogWeeklyStats.
    replace (i =? 0) with false by (symmetry; apply Z.eqb_neq; exact Hi).
    rewrite Hd, Hst, Hp, Hv, Hs. reflexivity.
Qed.

Lemma log_weekly_ignores_assignment_witness :
  (stat_by_id (mkDB [mkStat 5 "Div" "divisional" "number" None (Some 1)] [] []) 5
     = Some (mkStat 5 "Div" "divisional" "number" None (Some 1))
   /\ exists m, handleLogWeeklyStats (mkDB [mkStat 5 "Div" "divisional" "number" None (Some 1)] [] [])
                  5 "2024-01-04" "3" 1
                = (ERR m, mkDB [mkStat 5 "Div" "divisional" "number" None (Some 1)] [] []))
  /\ assigned_user_id stat_sales = Some 1
  /\ handleLogWeeklyStats sample_db 1 "2024-01-04" "7" 2
     = (OK "Weekly value saved",
        set_weekly sample_db
          (filter (fun r => negb (String.eqb (ToLower (w_name r)) (ToLower (short_id stat_sales))
                                  && String.eqb (w_week_ending r) "2024-01-04"
                                  && sql_eq (w_user_id r) 2))
             (weekly_stats sample_db)
           ++ [mkWeekly (ToLower (short_id stat_sales)) "2024-01-04" 7 (Some 2) None])%list).
Proof.
  split; [split; [reflexivity|]|split; [reflexivity|]].
  - apply (proj1 (proj2 (proj2 (log_weekly_ignores_assignment
           (mkDB [mkStat 5 "Div" "divisional" "number" None (Some 1)] [] [])
           5 "2024-01-04" "3" 1 (fun _ => None))))
           (mkStat 5 "Div" "divisional" "number" None (Some 1)));
      reflexivity.
  - apply (proj2 (proj2 (proj2 (log_weekly_ignores_assignment
           sample_db 1 "2024-01-04" "7" 2 (fun _ => None)))));
      [discriminate | vm_compute; reflexivity ..].
Defined.

(** C7 (as the code does it): [handleGetWeeklyStats] returns the stored
    value divided by 100 (as a float64) whatever the value type, so its
    answer does not change when the stats' value types do;
    [handleGetDailyStats] renders a currency value with [USD.String] (two
    decimals) and a number or a percentage value as the bare stored integer,
    so its answer only depends on whether the value type is currency. *)
Theorem read_formatting_by_type :
  (forall db a b c su adm g,
     handleGetWeeklyStats (retype g db) a b c su adm = handleGetWeeklyStats db a b c su adm)
  /\ (forall db we a b u g,
        (forall s, String.eqb (g s) "currency" = String.eqb (value_type s) "currency") ->
        handleGetDailyStats (retype g db) we a b u = handleGetDailyStats db we a b u)
  /\ (forall v, format_daily "percentage" v = Itoa v
                /\ format_daily "number" v = Itoa v
                /\ format_daily "currency" v = USD_String v).
Proof.
  split; [|split].
  - intros db a b c su adm g. unfold handleGetWeeklyStats.
    destruct (String.eqb a "" && String.eqb b ""); [reflexivity|].
    assert (Hr : resolveStatIdentity (retype g db) a b = resolveStatIdentity db a b).
    { unfold resolveStatIdentity.
      destruct (negb (String.eqb a "")).
      - destruct (Atoi a) as [i|m]; simpl; [|reflexivity].
        rewrite stat_by_id_retype. destruct (stat_by_id db i); reflexivity.
      - destruct (negb (String.eqb b "")); [|reflexivity].
        rewrite stat_by_short_retype. destruct (stat_by_short db (ToLower b)); reflexivity. }
    rewrite Hr. reflexivity.
  - intros db we a b u g Hg. unfold handleGetDailyStats.
    destruct (String.eqb we "" || (String.eqb a "" && String.eqb b "")); [reflexivity|].
    destruct (checkIfValidWE we); [|reflexivity]. simpl.
    unfold daily_stat_meta.
    destruct (negb (String.eqb a "")).
    + destruct (Atoi a) as [i|m]; [|reflexivity].
      rewrite stat_by_id_retype. destruct (stat_by_id db i) as [st|]; [|reflexivity].
      simpl. unfold format_daily. rewrite Hg. reflexivity.
    + rewrite stat_by_short_retype. destruct (stat_by_short db (ToLower b)) as [st|].
      * simpl. unfold format_daily. rewrite Hg. reflexivity.
      * reflexivity.
  - intro v. repeat split.
Qed.

Lemma read_formatting_by_type_witness :
  (forall s : Stat, String.eqb (if String.eqb (value_type s) "percentage" then "number"
                                else value_type s) "currency"
                    = String.eqb (value_type s) "currency")
  /\ handleGetDailyStats
       (retype (fun s => if String.eqb (value_type s) "percentage" then "number"
                         else value_type s) sample_db) "2024-01-04" "2" "" 1
     = handleGetDailyStats sample_db "2024-01-04" "2" "" 1.
Proof.
  assert (H : forall s : Stat, String.eqb (if String.eqb (value_type s) "percentage" then "number"
                                           else value_type s) "currency"
                               = String.eqb (value_type s) "currency").
  { intro s. destruct (String.eqb (value_type s) "percentage") eqn:E; [|reflexivity].
    apply String.eqb_eq in E. rewrite E. reflexivity. }
  split; [exact H|].
  apply (proj1 (proj2 read_formatting_by_type)). exact H.
Defined.

(** ** Store lemmas *)

Lemma sql_eq_true c u : sql_eq c u = true <-> c = Some u.
Proof.
  destruct c as [x|]; simpl; [|split; discriminate].
  rewrite Z.eqb_eq. split; [intros ->; reflexivity | intro H; injection H; auto].
Qed.

Lemma existsb_eqb_In (x : string) (l : list string) :
  existsb (String.eqb x) l = true <-> In x l.
Proof.
  rewrite existsb_exists. split.
  - intros [y [Hy E]]. apply String.eqb_eq in E. subst. exact Hy.
  - intro H. exists x. split; [exact H | apply String.eqb_refl].
Qed.

Lemma In_delete_weekly db p r :
  In r (weekly_stats (delete_weekly db p)) <-> In r (weekly_stats db) /\ p r = false.
Proof.
  unfold delete_weekly, set_weekly; simpl. rewrite filter_In.
  destruct (p r); simpl; intuition.
Qed.


Lemma stat_by_id_stats d1 d2 i : stats d1 = stats d2 -> stat_by_id d1 i = stat_by_id d2 i.
Proof. unfold stat_by_id. intros ->. reflexivity. Qed.

Lemma edit_store_value_some val vt v :
  edit_store_value val vt = OK (Some v) ->
  String.eqb (TrimSpace val) "" = false /\ weekly_store_value val vt = OK v.
Proof.
  unfold edit_store_value. destruct (known_value_type vt); [|discriminate].
  destruct (String.eqb (TrimSpace val) ""); [discriminate|].
  destruct (weekly_store_value val vt); [|discriminate]. intro H. injection H as <-. auto.
Qed.

Lemma edit_store_value_none val vt :
  edit_store_value val vt = OK None -> String.eqb (TrimSpace val) "" = true.
Proof.
  unfold edit_store_value. destruct (known_value_type vt); [|discriminate].
  destruct (String.eqb (TrimSpace val) ""); [reflexivity|].
  destruct (weekly_store_value val vt); discriminate.
Qed.

Lemma Forall2_In_r {A B} (P : A -> B -> Prop) l1 l2 y :
  Forall2 P l1 l2 -> In y l2 -> exists x, In x l1 /\ P x y.
Proof.
  induction 1 as [|x y' l1 l2 Hxy _ IH]; [intros []|].
  intros [<- | Hin]; [exists x; split; [left; reflexivity | exact Hxy]|].
  destruct (IH Hin) as (x' & Hx' & Hp). exists x'. split; [right; exact Hx' | exact Hp].
Qed.

(** The loop of [handleSaveWeeklyEdit] appends one row per payload row with
    a non-blank value, in payload order. *)
Lemma weekly_edit_rows_exact payload : forall db0 db u db',
  stats db = stats db0 ->
  weekly_edit_rows db payload u = OK db' ->
  stats db' = stats db /\ daily_stats db' = daily_stats db
  /\ exists new, weekly_stats db' = (weekly_stats db ++ new)%list
     /\ Forall2 (edit_row_inserted db0 u)
          (filter (fun row => negb (String.eqb (TrimSpace (Value row)) "")) payload) new.
Proof.
  induction payload as [|row rest IH]; intros db0 db u db' Hs0 H; simpl in H.
  - injection H as <-. split; [reflexivity|]. split; [reflexivity|].
    exists []. split; [symmetry; apply app_nil_r | constructor].
  - destruct (stat_by_id db (E_StatID row)) as [st|] eqn:Hst; [|discriminate].
    rewrite (stat_by_id_stats db db0) in Hst by exact Hs0.
    destruct (negb (String.eqb (stype st) "personal")); [discriminate|].
    destruct (validateWeeklyValueByType (Value row) (value_type st)); [|discriminate].
    destruct (edit_store_value (Value row) (value_type st)) as [[v|]|] eqn:Ev; [| |discriminate].
    + apply edit_store_value_some in Ev as [Hb Hv].
      assert (Hs1 : stats (insert_weekly db (mkWeekly (ToLower (short_id st)) (Weekending row) v
                                              (Some u) None)) = stats db0) by exact Hs0.
      destruct (IH db0 _ u db' Hs1 H) as (Hs & Hd & new & Hw & Hf).
      split; [exact Hs|]. split; [exact Hd|].
      exists (mkWeekly (ToLower (short_id st)) (Weekending row) v (Some u) None :: new).
      split.
      * rewrite Hw. cbn [insert_weekly set_weekly weekly_stats]. rewrite <- app_assoc. reflexivity.
      * cbn [filter]. rewrite Hb. cbn [negb]. constructor; [|exact Hf].
        exists st, v. auto.
    + apply edit_store_value_none in Ev.
      destruct (IH db0 db u db' Hs0 H) as (Hs & Hd & new & Hw & Hf).
      split; [exact Hs|]. split; [exact Hd|]. exists new. split; [exact Hw|].
      cbn [filter]. rewrite Ev. exact Hf.
Qed.

Lemma weekly_edit_rows_ok payload : forall db u db',
  weekly_edit_rows db payload u = OK db' ->
  stats db' = stats db /\ daily_stats db' = daily_stats db
  /\ (forall r, In r (weekly_stats db) -> In r (weekly_stats db'))
  /\ (forall r, In r (weekly_stats db') ->
        In r (weekly_stats db) \/ edit_row_written db payload u r).
Proof.
  intros db u db' H.
  destruct (weekly_edit_rows_exact payload db db u db' eq_refl H) as (Hs & Hd & new & Hw & Hf).
  split; [exact Hs|]. split; [exact Hd|]. rewrite Hw. split.
  - intros r Hr. apply in_or_app. left. exact Hr.
  - intros r Hr. apply in_app_or in Hr as [Hr | Hr]; [left; exact Hr|]. right.
    destruct (Forall2_In_r _ _ _ _ Hf Hr) as (row & Hrow & st & v & Hst & _ & ->).
    apply filter_In in Hrow as [Hrow _].
    split; [reflexivity|]. exists row, st. simpl. auto.
Qed.

(** C8 (as the code does it): [handleSaveWeeklyEdit] leaves the stats and
    the daily rows alone and keeps every weekly row that belongs to another
    user or to a week ending the request does not name; when it succeeds,
    every weekly row of the acting user for a named week ending is one the
    request wrote, whatever the stats of the rows that were there before.
    Precisely, on success the weekly table is the old one without the
    acting user's rows for the named week endings, followed by one row per
    payload row with a non-blank value, in payload order: scoped to the
    acting user, named by the lower-cased short id of the row's stat, with
    the row's week ending and its stored value. *)
Theorem weekly_edit_frame (db : DB) (payload : list EditRow) (u : Z) :
  stats (snd (handleSaveWeeklyEdit db payload u)) = stats db
  /\ daily_stats (snd (handleSaveWeeklyEdit db payload u)) = daily_stats db
  /\ (forall r, In r (weekly_stats db) ->
        w_user_id r <> Some u \/ ~ In (w_week_ending r) (map Weekending payload) ->
        In r (weekly_stats (snd (handleSaveWeeklyEdit db payload u))))
  /\ (forall m, fst (handleSaveWeeklyEdit db payload u) = OK m ->
        forall r, In r (weekly_stats (snd (handleSaveWeeklyEdit db payload u))) ->
          (In r (weekly_stats db)
           /\ (w_user_id r <> Some u \/ ~ In (w_week_ending r) (map Weekending payload)))
          \/ edit_row_written db payload u r)
  /\ (forall m, fst (handleSaveWeeklyEdit db payload u) = OK m ->
        exists new,
          weekly_stats (snd (handleSaveWeeklyEdit db payload u))
          = (filter (fun r => negb (sql_eq (w_user_id r) u
                                    && existsb (String.eqb (w_week_ending r))
                                         (map Weekending payload)))
               (weekly_stats db) ++ new)%list
          /\ Forall2 (edit_row_inserted db u)
               (filter (fun row => negb (String.eqb (TrimSpace (Value row)) "")) payload) new).
Proof.
  unfold handleSaveWeeklyEdit.
  destruct payload as [|p ps] eqn:Ep.
  { simpl. repeat split; auto; intros m H; discriminate. }
  rewrite <- Ep.
  destruct (existsb _ payload).
  { simpl. repeat split; auto; intros m H; discriminate. }
  set (pd := fun r => sql_eq (w_user_id r) u
                      && existsb (String.eqb (w_week_ending r)) (map Weekending payload)).
  unfold run_tx.
  destruct (weekly_edit_rows (delete_weekly db pd) payload u) as [db'|m] eqn:E.
  2:{ simpl. repeat split; auto; intros m' H; discriminate. }
  destruct (weekly_edit_rows_exact payload db (delete_weekly db pd) u db' eq_refl E) as (_ & _ & new & Hw & Hf).
  apply weekly_edit_rows_ok in E as (Hs & Hd & Hkeep & Hnew). simpl.
  assert (Hpd : forall r, pd r = false <->
                  w_user_id r <> Some u \/ ~ In (w_week_ending r) (map Weekending payload)).
  { intro r. unfold pd. rewrite Bool.andb_false_iff, <- !Bool.not_true_iff_false,
      sql_eq_true, existsb_eqb_In. tauto. }
  split; [exact Hs|]. split; [exact Hd|]. split; [|split].
  - intros r Hr Hf'. apply Hkeep. apply In_delete_weekly. split; [exact Hr|].
    apply Hpd. exact Hf'.
  - intros m _ r Hr. destruct (Hnew r Hr) as [Hin | Hw'].
    + apply In_delete_weekly in Hin as [Hin Hf']. left. split; [exact Hin|].
      apply Hpd. exact Hf'.
    + right. destruct Hw' as (Hu & row & st & Hrow & Hwe & Hst & Hn).
      split; [exact Hu|]. exists row, st. repeat split; auto.
  - intros m _. exists new. split; [exact Hw | exact Hf].
Qed.

Lemma weekly_edit_frame_witness :
  let db1 := mkDB (stats sample_db)
               [mkWeekly "sales" "2024-01-04" 7 (Some 1) None;
                mkWeekly "gi" "2024-01-11" 5000 (Some 1) None] [] in
  In (mkWeekly "gi" "2024-01-11" 5000 (Some 1) None) (weekly_stats db1)
  /\ ~ In "2024-01-11" (map Weekending [mkEditRow 1 "2024-01-04" "8"])
  /\ In (mkWeekly "gi" "2024-01-11" 5000 (Some 1) None)
        (weekly_stats (snd (handleSaveWeeklyEdit db1 [mkEditRow 1 "2024-01-04" "8"] 1)))
  /\ fst (handleSaveWeeklyEdit db1 [mkEditRow 1 "2024-01-04" "8"; mkEditRow 1 "2024-01-04" "9"] 1)
     = OK "Saved Weekly stat data"
  /\ exists new,
       weekly_stats (snd (handleSaveWeeklyEdit db1
                            [mkEditRow 1 "2024-01-04" "8"; mkEditRow 1 "2024-01-04" "9"] 1))
       = (filter (fun r => negb (sql_eq (w_user_id r) 1
                                 && existsb (String.eqb (w_week_ending r))
                                      (map Weekending [mkEditRow 1 "2024-01-04" "8";
                                                       mkEditRow 1 "2024-01-04" "9"])))
            (weekly_stats db1) ++ new)%list
       /\ Forall2 (edit_row_inserted db1 1)
            (filter (fun row => negb (String.eqb (TrimSpace (Value row)) ""))
               [mkEditRow 1 "2024-01-04" "8"; mkEditRow 1 "2024-01-04" "9"]) new.
Proof.
  intro db1.
  assert (Hin : In (mkWeekly "gi" "2024-01-11" 5000 (Some 1) None) (weekly_stats db1)).
  { simpl. right. left. reflexivity. }
  assert (Hn : ~ In "2024-01-11" (map Weekending [mkEditRow 1 "2024-01-04" "8"])).
  { simpl. intros [H | []]. discriminate. }
  assert (Hok : fst (handleSaveWeeklyEdit db1
                       [mkEditRow 1 "2024-01-04" "8"; mkEditRow 1 "2024-01-04" "9"] 1)
                = OK "Saved Weekly stat data") by (vm_compute; reflexivity).
  split; [exact Hin|]. split; [exact Hn|]. split.
  - apply (proj1 (proj2 (proj2 (weekly_edit_frame db1 [mkEditRow 1 "2024-01-04" "8"] 1))));
      [exact Hin | right; exact Hn].
  - split; [exact Hok|].
    exact (proj2 (proj2 (proj2 (proj2 (weekly_edit_frame db1
             [mkEditRow 1 "2024-01-04" "8"; mkEditRow 1 "2024-01-04" "9"] 1))))
             _ Hok).
Defined.

(** ** Batch failure lemmas *)

Lemma validate_rows_fail db rows r :
  In r rows ->
  (stat_by_id db (StatID r) = None
   \/ exists st, stat_by_id db (StatID r) = Some st
      /\ is_err (validateDailyStatByType (short_id st) (value_type st)
                   (row_daily (short_id st) r)) = true) ->
  exists m, validate_rows db rows = ERR m.
Proof.
  induction rows as [|v rest IH]; [intros []|].
  intros [<- | Hin] Hf; simpl.
  - destruct Hf as [-> | (st & -> & He)]; [eexists; reflexivity|].
    destruct (validateDailyStatByType _ _ _); [discriminate | eexists; reflexivity].
  - destruct (stat_by_id db (StatID v)); [|eexists; reflexivity].
    destruct (validateDailyStatByType _ _ _); [|eexists; reflexivity].
    apply IH; assumption.
Qed.

Lemma insert_cells_fail cells : forall db nl u d raw,
  In (d, raw) cells -> String.eqb (TrimSpace raw) "" = false ->
  is_err (cell_value (TrimSpace raw)) = true ->
  exists m, insert_cells db nl cells u = ERR m.
Proof.
  induction cells as [|[d0 raw0] rest IH]; intros db nl u d raw Hin Hne He; [destruct Hin|].
  destruct Hin as [E | Hin]; simpl.
  - injection E as -> ->. rewrite Hne.
    destruct (cell_value (TrimSpace raw)); [discriminate | eexists; reflexivity].
  - destruct (String.eqb (TrimSpace raw0) ""); [eapply IH; eauto|].
    destruct (cell_value (TrimSpace raw0)); [eapply IH; eauto | eexists; reflexivity].
Qed.

Lemma insert_cells_ok cells : forall db nl u db',
  insert_cells db nl cells u = OK db' ->
  stats db' = stats db /\ weekly_stats db' = weekly_stats db.
Proof.
  induction cells as [|[d0 raw0] rest IH]; intros db nl u db' H; simpl in H.
  - injection H as <-. auto.
  - destruct (String.eqb (TrimSpace raw0) ""); [eapply IH; eauto|].
    destruct (cell_value (TrimSpace raw0)); [|discriminate].
    apply IH in H as [H1 H2]. simpl in *. auto.
Qed.

Lemma combine_In_r {A B} (l1 : list A) (l2 : list B) y :
  List.length l1 = List.length l2 -> In y l2 -> exists x, In (x, y) (combine l1 l2).
Proof.
  revert l2. induction l1 as [|x l1 IH]; intros [|y' l2] Hl Hin; try discriminate;
    try destruct Hin.
  - subst. exists x. left. reflexivity.
  - simpl in Hl. injection Hl as Hl. destruct (IH l2 Hl H) as [x' Hx'].
    exists x'. right. exact Hx'.
Qed.

Lemma save7R_rows_fail db0 dates u r st rows : forall db,
  stats db = stats db0 -> In r rows -> stat_by_id db0 (StatID r) = Some st ->
  List.length dates = 5%nat ->
  (String.eqb (stype st) "personal" = false
   \/ existsb (fun raw => negb (String.eqb (TrimSpace raw) "")
                          && is_err (cell_value (TrimSpace raw))) (row_cells r) = true) ->
  exists m, save7R_rows db dates rows u = ERR m.
Proof.
  induction rows as [|row rest IH]; intros db Hs Hin Hst Hlen Hf; [destruct Hin|].
  simpl. rewrite (stat_by_id_stats db db0) by exact Hs.
  destruct Hin as [-> | Hin].
  - rewrite Hst. destruct Hf as [Hp | Hc].
    + rewrite Hp. eexists; reflexivity.
    + destruct (String.eqb (stype st) "personal"); [|eexists; reflexivity]. simpl.
      apply existsb_exists in Hc as [raw [Hraw Hc]].
      apply andb_true_iff in Hc as [Hne He]. apply negb_true_iff in Hne.
      destruct (combine_In_r dates (row_cells r) raw) as [d Hd]; [exact Hlen | exact Hraw |].
      match goal with |- context [insert_cells ?D ?N _ _] =>
        destruct (insert_cells_fail _ D N u d raw Hd Hne He) as [m Hm]; rewrite Hm
      end.
      eexists; reflexivity.
  - destruct (stat_by_id db0 (StatID row)) as [st'|]; [|eexists; reflexivity].
    destruct (negb (String.eqb (stype st') "personal")); [eexists; reflexivity|].
    destruct (insert_cells _ _ _ _) as [db2|m] eqn:Hi; [|eexists; reflexivity].
    apply insert_cells_ok in Hi as [Hs2 _].
    apply (IH db2); auto. rewrite Hs2. simpl. exact Hs.
Qed.

Lemma weekly_edit_rows_fail db0 u r payload : forall db,
  stats db = stats db0 -> In r payload ->
  match stat_by_id db0 (E_StatID r) with
  | None => True
  | Some st =>
      negb (String.eqb (stype st) "personal")
      || is_err (validateWeeklyValueByType (Value r) (value_type st))
      || is_err (edit_store_value (Value r) (value_type st)) = true
  end ->
  exists m, weekly_edit_rows db payload u = ERR m.
Proof.
  induction payload as [|row rest IH]; intros db Hs Hin Hf; [destruct Hin|].
  simpl. rewrite (stat_by_id_stats db db0) by exact Hs.
  destruct Hin as [-> | Hin].
  - destruct (stat_by_id db0 (E_StatID r)) as [st|]; [|eexists; reflexivity].
    destruct (negb (String.eqb (stype st) "personal")); [eexists; reflexivity|].
    destruct (validateWeeklyValueByType (Value r) (value_type st)); [|eexists; reflexivity].
    destruct (edit_store_value (Value r) (value_type st)); [discriminate | eexists; reflexivity].
  - destruct (stat_by_id db0 (E_StatID row)) as [st'|]; [|eexists; reflexivity].
    destruct (negb (String.eqb (stype st') "personal")); [eexists; reflexivity|].
    destruct (validateWeeklyValueByType (Value row) (value_type st')); [|eexists; reflexivity].
    destruct (edit_store_value (Value row) (value_type st')) as [[v|]|]; [| |eexists; reflexivity].
    + apply IH; [exact Hs | exact Hin | exact Hf].
    + apply (IH db); auto.
Qed.

(** C2: the batch writes are all-or-nothing. If any row of a [handleSave7R]
    batch fails stat lookup, value validation, the personal-scope rule or
    the cell conversion, or any row of a [handleSaveWeeklyEdit] batch fails
    the week-ending check, stat lookup, the scope rule or value validation,
    the handler answers an error and the store is exactly as before; and
    whenever either handler answers an error, the store is unchanged. *)
Theorem batch_writes_all_or_nothing :
  (forall db we rows u r, In r rows -> row7R_fails db r = true ->
     exists m, handleSave7R db we rows u = (ERR m, db))
  /\ (forall db payload u r, In r payload -> edit_row_fails db r = true ->
     exists m, handleSaveWeeklyEdit db payload u = (ERR m, db))
  /\ (forall db we rows u m db', handleSave7R db we rows u = (ERR m, db') -> db' = db)
  /\ (forall db payload u m db',
        handleSaveWeeklyEdit db payload u = (ERR m, db') -> db' = db).
Proof.
  split; [|split; [|split]].
  - intros db we rows u r Hin Hf. unfold handleSave7R.
    destruct (String.eqb we ""); [eexists; reflexivity|].
    destruct (negb (checkIfValidWE we)); [eexists; reflexivity|].
    unfold row7R_fails in Hf.
    destruct (stat_by_id db (StatID r)) as [st|] eqn:Hst.
    + destruct (is_err (validateDailyStatByType (short_id st) (value_type st)
                          (row_daily (short_id st) r))) eqn:Hv.
      * destruct (validate_rows_fail db rows r Hin) as [m Hm];
          [right; exists st; auto|].
        rewrite Hm. eexists; reflexivity.
      * destruct (validate_rows db rows); [|eexists; reflexivity].
        simpl in Hf.
        destruct (save7R_rows_fail db (week_dates we) u r st rows db eq_refl Hin Hst
                    eq_refl) as [m Hm].
        { destruct (String.eqb (stype st) "personal"); simpl in Hf; auto. }
        rewrite Hm. eexists; reflexivity.
    + destruct (validate_rows_fail db rows r Hin) as [m Hm]; [left; exact Hst|].
      rewrite Hm. eexists; reflexivity.
  - intros db [|p ps] u r Hin Hf; [destruct Hin|]. unfold handleSaveWeeklyEdit.
    unfold edit_row_fails in Hf.
    destruct (existsb (fun row => negb (checkIfValidWE (Weekending row))) (p :: ps)) eqn:Hw;
      [eexists; reflexivity|].
    destruct (negb (checkIfValidWE (Weekending r))) eqn:Hr.
    + assert (existsb (fun row => negb (checkIfValidWE (Weekending row))) (p :: ps) = true)
        as Ht by (apply existsb_exists; exists r; auto).
      congruence.
    + simpl in Hf.
      destruct (weekly_edit_rows_fail db u r (p :: ps)
                  (delete_weekly db (fun w => sql_eq (w_user_id w) u
                     && existsb (String.eqb (w_week_ending w)) (map Weekending (p :: ps))))
                  eq_refl Hin) as [m Hm].
      { destruct (stat_by_id db (E_StatID r)); auto. }
      rewrite Hm. eexists; reflexivity.
  - intros db we rows u m db' H. unfold handleSave7R in H.
    destruct (String.eqb we ""); [injection H; auto|].
    destruct (negb (checkIfValidWE we)); [injection H; auto|].
    destruct (validate_rows db rows); [|injection H; auto].
    unfold run_tx in H. destruct (save7R_rows _ _ _ _); injection H; [discriminate|auto].
  - intros db [|p ps] u m db' H; unfold handleSaveWeeklyEdit in H; [injection H; auto|].
    destruct (existsb _ _); [injection H; auto|].
    unfold run_tx in H. destruct (weekly_edit_rows _ _ _); injection H; [discriminate|auto].
Qed.

Lemma batch_writes_all_or_nothing_witness :
  let rows := [mkRow 1 "Sales" "5" "" "" "" "" "";
               mkRow 1 "Sales" "abc" "" "" "" "" "";
               mkRow 3 "GI" "10.00" "" "" "" "" ""] in
  row7R_fails sample_db (nth 1 rows (mkRow 0 "" "" "" "" "" "" "")) = true
  /\ exists m, handleSave7R sample_db "2024-01-04" rows 1 = (ERR m, sample_db).
Proof.
  intro rows.
  assert (Hf : row7R_fails sample_db (nth 1 rows (mkRow 0 "" "" "" "" "" "" "")) = true)
    by (vm_compute; reflexivity).
  split; [exact Hf|].
  apply (proj1 batch_writes_all_or_nothing sample_db "2024-01-04" rows 1
           (nth 1 rows (mkRow 0 "" "" "" "" "" "" ""))); [simpl; auto | exact Hf].
Defined.

(** ** The five dates of a week are distinct *)

Lemma days_in_range m y : 28 <= days_in m y <= 31.
Proof.
  unfold days_in. destruct (m =? 2); [destruct (is_leap y); lia|].
  destruct (_ || _); lia.
Qed.

Lemma parse_date_valid s t : parse_date s = Some t -> valid_date t.
Proof.
  unfold parse_date.
  repeat match goal with
         | |- match ?x with _ => _ end = _ -> _ => destruct x eqn:?
         end.
  all: intro H; try discriminate.
  injection H as <-.
  repeat match goal with
         | H : (_ && _) = true |- _ => apply andb_true_iff in H as [? ?]
         | H : (_ <=? _) = true |- _ => apply Z.leb_le in H
         end.
  unfold valid_date; simpl. repeat split; assumption.
Qed.


Lemma AddDays_S t k : AddDays t (S k) = next_day (AddDays t k).
Proof. reflexivity. Qed.





Lemma str_app_assoc (s1 s2 s3 : string) : s1 ++ (s2 ++ s3) = (s1 ++ s2) ++ s3.
Proof. induction s1 as [|c s1 IH]; simpl; [reflexivity | rewrite IH; reflexivity]. Qed.








(** ** Uniqueness of the stored rows *)



Lemma NoDup_map_filter {A B} (f : A -> B) (p : A -> bool) l :
  NoDup (map f l) -> NoDup (map f (filter p l)).
Proof.
  induction l as [|x l IH]; simpl; intro H; [constructor|].
  inversion H as [|? ? Hx Hl]; subst.
  destruct (p x); simpl; [|auto].
  constructor; [|auto].
  intro Hin. apply Hx. apply in_map_iff in Hin as (y & Ey & Hy).
  apply filter_In in Hy as [Hy _]. rewrite <- Ey. apply in_map. exact Hy.
Qed.

Lemma NoDup_snoc {A} (l : list A) x : NoDup l -> ~ In x l -> NoDup (l ++ [x])%list.
Proof.
  induction l as [|y l IH]; simpl; intros H Hx.
  - constructor; [intros []|constructor].
  - inversion H as [|? ? Hy Hl]; subst. constructor.
    + intro Hin. apply in_app_or in Hin as [Hin | [E | []]]; [tauto|].
      apply Hx. left. exact (eq_sym E).
    + apply IH; [exact Hl|]. intro Hin. apply Hx. right. exact Hin.
Qed.









Lemma filter_all_false {A} (f : A -> bool) l :
  (forall x, In x l -> f x = false) -> filter f l = [].
Proof.
  induction l as [|x l IH]; simpl; intro H; [reflexivity|].
  rewrite (H x (or_introl eq_refl)). apply IH. intros y Hy. apply H. right. exact Hy.
Qed.



(** ** Decimal rendering and [strconv.Atoi] *)

Lemma digit_char_ok d : 0 <= d <= 9 ->
  is_digit (digit_char d) = true /\ digit_val (digit_char d) = d.
Proof.
  intro H. assert (d = 0 \/ d = 1 \/ d = 2 \/ d = 3 \/ d = 4 \/ d = 5 \/ d = 6
                   \/ d = 7 \/ d = 8 \/ d = 9) as E by lia.
  repeat destruct E as [E | E]; subst; split; reflexivity.
Qed.

Lemma digits_aux_value fuel : forall n acc a,
  0 <= n < 10 ^ Z.of_nat fuel -> 0 <= a ->
  exists p, 0 <= p /\ digits_value (digits_aux fuel n acc) a = digits_value acc (a * 10 ^ p + n).
Proof.
  induction fuel as [|f IH]; intros n acc a Hn Ha.
  - simpl in Hn. exists 0. split; [lia|]. simpl. replace n with 0 by lia.
    rewrite Z.mul_1_r, Z.add_0_r. reflexivity.
  - rewrite Nat2Z.inj_succ, Z.pow_succ_r in Hn by lia. simpl.
    pose proof (Z.mod_pos_bound n 10 ltac:(lia)) as Hb.
    destruct (digit_char_ok (n mod 10) ltac:(lia)) as [D V].
    destruct (Z.ltb_spec n 10).
    + exists 1. split; [lia|]. simpl. rewrite D, V.
      rewrite Z.mod_small by lia. f_equal; lia.
    + destruct (IH (n / 10) (String (digit_char (n mod 10)) acc) a) as (p & Hp & E);
        [split; [apply Z.div_pos; lia | apply Z.div_lt_upper_bound; lia] | exact Ha |].
      exists (p + 1). split; [lia|]. rewrite E. simpl. rewrite D, V.
      f_equal. rewrite Z.pow_add_r by lia.
      pose proof (Z.div_mod n 10 ltac:(lia)). lia.
Qed.

Lemma digits_aux_head fuel : forall n acc,
  exists c r, digits_aux (S fuel) n acc = String c r /\ is_digit c = true.
Proof.
  induction fuel as [|f IH]; intros n acc;
    pose proof (Z.mod_pos_bound n 10 ltac:(lia)) as Hb.
  - simpl. destruct (n <? 10); eexists _, _; split; try reflexivity;
      apply (digit_char_ok (n mod 10)); lia.
  - change (digits_aux (S (S f)) n acc) with
      (if n <? 10 then String (digit_char (n mod 10)) acc
       else digits_aux (S f) (n / 10) (String (digit_char (n mod 10)) acc)).
    destruct (n <? 10); [|apply IH].
    eexists _, _; split; [reflexivity|].
    apply (digit_char_ok (n mod 10)); lia.
Qed.

Lemma nat_digits_ok n : 0 <= n <= 2 ^ 63 ->
  exists c r, nat_digits n = String c r /\ is_digit c = true
    /\ digits_value (nat_digits n) 0 = Some n.
Proof.
  intro Hn. unfold nat_digits.
  destruct (digits_aux_head 39 n EmptyString) as (c & r & E & D).
  exists c, r. split; [exact E|]. split; [exact D|].
  destruct (digits_aux_value 40 n EmptyString 0) as (p & _ & V);
    [split; [lia|]; eapply Z.le_lt_trans; [apply Hn|]; reflexivity | lia |].
  rewrite V. reflexivity.
Qed.

Lemma Atoi_Itoa z : int64_min <= z <= int64_max -> Atoi (Itoa z) = OK z.
Proof.
  unfold int64_min, int64_max. intro Hz. unfold Itoa.
  destruct (Z.ltb_spec z 0).
  - destruct (nat_digits_ok (- z) ltac:(lia)) as (c & r & E & _ & V).
    simpl. unfold unsigned_digits. rewrite E. rewrite E in V. rewrite V.
    unfold range_check, int64_min, int64_max.
    replace (- - z) with z by lia.
    destruct (Z.leb_spec (- 2 ^ 63) z); [|lia].
    destruct (Z.leb_spec z (2 ^ 63 - 1)); [reflexivity | lia].
  - destruct (nat_digits_ok z ltac:(lia)) as (c & r & E & D & V).
    rewrite E. rewrite E in V. unfold Atoi.
    assert (Ascii.eqb c "-" = false) as N1 by
      (destruct (Ascii.eqb_spec c "-"); [subst; discriminate | reflexivity]).
    assert (Ascii.eqb c "+" = false) as N2 by
      (destruct (Ascii.eqb_spec c "+"); [subst; discriminate | reflexivity]).
    rewrite N1, N2. unfold unsigned_digits. rewrite V.
    unfold range_check, int64_min, int64_max.
    destruct (Z.leb_spec (- 2 ^ 63) z); [|lia].
    destruct (Z.leb_spec z (2 ^ 63 - 1)); [reflexivity | lia].
Qed.

(** ** [splitInt] *)

Lemma split_sep_aux_app sep a : forall b cur,
  split_sep_aux sep (a ++ String sep b) cur
  = (split_sep_aux sep a cur ++ split_sep_aux sep b EmptyString)%list.
Proof.
  induction a as [|c a IH]; intros b cur; simpl.
  - rewrite Ascii.eqb_refl. reflexivity.
  - destruct (Ascii.eqb c sep); [rewrite IH; reflexivity | apply IH].
Qed.

Lemma str_app_nil (s : string) : s ++ EmptyString = s.
Proof. induction s as [|c s IH]; simpl; [reflexivity | rewrite IH; reflexivity]. Qed.

Lemma split_sep_aux_nosep sep s : forall cur,
  no_sep sep s = true -> split_sep_aux sep s cur = [cur ++ s].
Proof.
  induction s as [|c s IH]; intros cur H; simpl.
  - rewrite str_app_nil. reflexivity.
  - unfold no_sep in H. simpl in H. apply andb_true_iff in H as [H1 H2].
    apply negb_true_iff in H1. rewrite H1, IH by exact H2.
    rewrite <- str_app_assoc. reflexivity.
Qed.

Lemma no_sep_cons sep c s :
  no_sep sep (String c s) = negb (Ascii.eqb c sep) && no_sep sep s.
Proof. reflexivity. Qed.

Lemma digits_aux_no_sep sep fuel : forall n acc,
  is_digit sep = false -> no_sep sep acc = true -> no_sep sep (digits_aux fuel n acc) = true.
Proof.
  induction fuel as [|f IH]; intros n acc Hs Ha; simpl; [exact Ha|].
  pose proof (Z.mod_pos_bound n 10 ltac:(lia)) as Hb.
  destruct (digit_char_ok (n mod 10) ltac:(lia)) as [D _].
  assert (no_sep sep (String (digit_char (n mod 10)) acc) = true) as H.
  { rewrite no_sep_cons, Ha, andb_true_r.
    destruct (Ascii.eqb_spec (digit_char (n mod 10)) sep); [congruence | reflexivity]. }
  destruct (n <? 10); [exact H | exact (IH _ _ Hs H)].
Qed.

Lemma Itoa_no_comma z : no_sep "," (Itoa z) = true.
Proof.
  unfold Itoa, nat_digits.
  destruct (z <? 0); [|apply digits_aux_no_sep; reflexivity].
  change (no_sep "," (String "-" (digits_aux 40 (- z) EmptyString)) = true).
  rewrite no_sep_cons. apply (digits_aux_no_sep "," 40 (- z) EmptyString); reflexivity.
Qed.

Lemma splitInt_keep s : splitInt s = keep_ints (Split_sep s ",").
Proof.
  unfold splitInt. destruct (String.eqb_spec s ""); [subst; reflexivity | reflexivity].
Qed.

Lemma keep_ints_app l1 l2 : keep_ints (l1 ++ l2) = (keep_ints l1 ++ keep_ints l2)%list.
Proof.
  induction l1 as [|p l1 IH]; simpl; [reflexivity|].
  destruct (Atoi p); simpl; rewrite IH; reflexivity.
Qed.

Lemma splitInt_comma a b :
  splitInt (a ++ String "," b) = (splitInt a ++ splitInt b)%list.
Proof.
  rewrite !splitInt_keep. unfold Split_sep.
  rewrite split_sep_aux_app, keep_ints_app. reflexivity.
Qed.

(** X1: [splitInt] reads a comma-separated list piecewise: splitting at any
    comma gives the integers of the left part followed by those of the
    right part; empty and malformed pieces are dropped. *)
Theorem splitInt_concat a b :
  splitInt (a ++ String "," b) = (splitInt a ++ splitInt b)%list.
Proof. exact (splitInt_comma a b). Qed.

(** X2: [splitInt] decodes the comma-joined decimal list that [GROUP_CONCAT]
    produces from 64-bit integer ids: the ids come back in order. *)
Theorem splitInt_group_concat (l : list Z) :
  Forall (fun z => int64_min <= z <= int64_max) l ->
  splitInt (join_comma (map Itoa l)) = l.
Proof.
  induction l as [|z l IH]; intro H; [reflexivity|].
  inversion H as [|? ? Hz Hl]; subst.
  destruct l as [|z' l].
  - change (join_comma (map Itoa [z])) with (Itoa z).
    rewrite splitInt_keep. unfold Split_sep.
    rewrite split_sep_aux_nosep by apply Itoa_no_comma.
    change (keep_ints [Itoa z] = [z]). unfold keep_ints.
    rewrite Atoi_Itoa by exact Hz. reflexivity.
  - change (join_comma (map Itoa (z :: z' :: l)))
      with (Itoa z ++ String "," (join_comma (map Itoa (z' :: l)))).
    rewrite splitInt_comma, (IH Hl), splitInt_keep. unfold Split_sep.
    rewrite split_sep_aux_nosep by apply Itoa_no_comma.
    change (keep_ints [Itoa z] ++ z' :: l = z :: z' :: l)%list. unfold keep_ints.
    rewrite Atoi_Itoa by exact Hz. reflexivity.
Qed.

Lemma splitInt_group_concat_witness :
  Forall (fun z => int64_min <= z <= int64_max) [12; -3; 9223372036854775807]
  /\ splitInt (join_comma (map Itoa [12; -3; 9223372036854775807])) = [12; -3; 9223372036854775807].
Proof.
  assert (H : Forall (fun z => int64_min <= z <= int64_max) [12; -3; 9223372036854775807]).
  { unfold int64_min, int64_max. repeat constructor; lia. }
  split; [exact H | exact (splitInt_group_concat _ H)].
Defined.

(** ** [CumWeekInt] and [CumWeekFloat] *)

Lemma wrap64_add_l a b : wrap64 (wrap64 a + b) = wrap64 (a + b).
Proof.
  unfold wrap64.
  replace ((a + 2 ^ 63) mod 2 ^ 64 - 2 ^ 63 + b + 2 ^ 63)
    with ((a + 2 ^ 63) mod 2 ^ 64 + b) by lia.
  rewrite Zplus_mod_idemp_l. f_equal. f_equal. lia.
Qed.

Lemma wrap64_add_r a b : wrap64 (a + wrap64 b) = wrap64 (a + b).
Proof. rewrite Z.add_comm, wrap64_add_l, Z.add_comm. reflexivity. Qed.

Lemma wrap64_wrap64 a : wrap64 (wrap64 a) = wrap64 a.
Proof. pose proof (wrap64_add_l a 0) as H. rewrite !Z.add_0_r in H. exact H. Qed.

Lemma accumulate_app conv xs : forall ys i,
  accumulate conv (xs ++ ys) i = (j <- accumulate conv xs i ;; accumulate conv ys j).
Proof.
  induction xs as [|v xs IH]; intros ys i; simpl; [reflexivity|].
  destruct (conv v); [apply IH | reflexivity].
Qed.

Lemma accumulate_shift conv l : forall i, wrap64 i = i ->
  accumulate conv l i = (r <- accumulate conv l 0 ;; OK (wrap64 (i + r))).
Proof.
  induction l as [|v l IH]; intros i Hi; simpl.
  - rewrite Z.add_0_r, Hi. reflexivity.
  - destruct (conv v) as [value|]; [|reflexivity].
    rewrite (IH (wrap64 (i + value))) by apply wrap64_wrap64.
    rewrite (IH (wrap64 value)) by apply wrap64_wrap64.
    destruct (accumulate conv l 0) as [r|]; simpl; [|reflexivity].
    rewrite !wrap64_add_l, wrap64_add_r. f_equal. f_equal. lia.
Qed.

Lemma accumulate_wrapped conv l : forall i r, wrap64 i = i ->
  accumulate conv l i = OK r -> wrap64 r = r.
Proof.
  induction l as [|v l IH]; intros i r Hi H; simpl in H.
  - injection H as <-. exact Hi.
  - destruct (conv v); [|discriminate]. exact (IH _ _ (wrap64_wrap64 _) H).
Qed.

Lemma accumulate_split conv xs ys :
  accumulate conv (xs ++ ys) 0
  = (a <- accumulate conv xs 0 ;; b <- accumulate conv ys 0 ;; OK (wrap64 (a + b))).
Proof.
  rewrite accumulate_app.
  destruct (accumulate conv xs 0) as [a|] eqn:E; simpl; [|reflexivity].
  apply accumulate_shift. exact (accumulate_wrapped _ _ _ _ eq_refl E).
Qed.

Lemma accumulate_blank conv xs ys : conv "" = OK 0 ->
  accumulate conv (xs ++ "" :: ys) 0 = accumulate conv (xs ++ ys) 0.
Proof.
  intro Hc. rewrite !accumulate_app.
  destruct (accumulate conv xs 0) as [a|] eqn:E; simpl; [|reflexivity].
  rewrite Hc, Z.add_0_r, (accumulate_wrapped _ _ _ _ eq_refl E). reflexivity.
Qed.

(** X3: [CumWeekInt] is a running sum: the total of a concatenation is the
    64-bit wrapped sum of the totals of its parts (the first error wins),
    and an empty argument counts as zero. *)
Theorem CumWeekInt_split xs ys :
  CumWeekInt (xs ++ ys) = (a <- CumWeekInt xs ;; b <- CumWeekInt ys ;; OK (wrap64 (a + b)))
  /\ CumWeekInt (xs ++ "" :: ys) = CumWeekInt (xs ++ ys).
Proof.
  unfold CumWeekInt. split; [apply accumulate_split|].
  apply accumulate_blank. reflexivity.
Qed.

(** X4: [CumWeekFloat] sums in whole cents: the result for a concatenation
    is [USD.Float64] of the wrapped sum of the cents of its parts, and an
    empty argument adds nothing. *)
Theorem CumWeekFloat_split xs ys :
  CumWeekFloat (xs ++ ys)
  = (a <- accumulate cum_money_item xs 0 ;; b <- accumulate cum_money_item ys 0 ;;
     OK (USD_Float64 (wrap64 (a + b))))
  /\ CumWeekFloat (xs ++ "" :: ys) = CumWeekFloat (xs ++ ys).
Proof.
  unfold CumWeekFloat. split.
  - rewrite accumulate_split.
    destruct (accumulate cum_money_item xs 0); simpl; [|reflexivity].
    destruct (accumulate cum_money_item ys 0); reflexivity.
  - rewrite accumulate_blank; [reflexivity|]. vm_compute. reflexivity.
Qed.

(** ** The date layout round trip *)

Lemma digit_round c : is_digit c = true -> digit_char (digit_val c) = c /\ 0 <= digit_val c <= 9.
Proof.
  destruct c as [[] [] [] [] [] [] [] []]; try discriminate; intros _;
    split; try reflexivity; unfold digit_val; simpl; lia.
Qed.

Lemma unsigned_digits4 a b c d y :
  unsigned_digits (String a (String b (String c (String d EmptyString)))) = Some y ->
  is_digit a = true /\ is_digit b = true /\ is_digit c = true /\ is_digit d = true
  /\ y = digit_val a * 1000 + digit_val b * 100 + digit_val c * 10 + digit_val d.
Proof.
  unfold unsigned_digits; simpl.
  destruct (is_digit a), (is_digit b), (is_digit c), (is_digit d); try discriminate.
  intro H. injection H as <-. repeat split; lia.
Qed.

Lemma fw4_table :
  forallb (fun n => String.eqb (pad_left 4 (nat_digits (Z.of_nat n))) (fw4 (Z.of_nat n)))
    (seq 0 (100 * 100)) = true.
Proof. vm_compute. reflexivity. Qed.

Lemma fw2_table :
  forallb (fun n => String.eqb (pad_left 2 (nat_digits (Z.of_nat n))) (fw2 (Z.of_nat n)))
    (seq 0 100) = true.
Proof. vm_compute. reflexivity. Qed.

Lemma pad4_fw4 y : 0 <= y <= 9999 -> pad_left 4 (nat_digits y) = fw4 y.
Proof.
  intro Hy. pose proof (proj1 (forallb_forall _ _) fw4_table (Z.to_nat y)) as H.
  cbv beta in H. rewrite Z2Nat.id in H by lia.
  specialize (H ltac:(apply in_seq; lia)). apply String.eqb_eq in H. exact H.
Qed.

Lemma pad2_fw2 y : 0 <= y <= 99 -> pad_left 2 (nat_digits y) = fw2 y.
Proof.
  intro Hy. pose proof (proj1 (forallb_forall _ _) fw2_table (Z.to_nat y)) as H.
  cbv beta in H. rewrite Z2Nat.id in H by lia.
  specialize (H ltac:(apply in_seq; lia)). apply String.eqb_eq in H. exact H.
Qed.

Lemma fw4_digits a b c d :
  is_digit a = true -> is_digit b = true -> is_digit c = true -> is_digit d = true ->
  fw4 (digit_val a * 1000 + digit_val b * 100 + digit_val c * 10 + digit_val d)
  = String a (String b (String c (String d EmptyString))).
Proof.
  intros Ha Hb Hc Hd.
  destruct (digit_round _ Ha) as [Ra Ba], (digit_round _ Hb) as [Rb Bb],
    (digit_round _ Hc) as [Rc Bc], (digit_round _ Hd) as [Rd Bd].
  unfold fw4.
  set (y := digit_val a * 1000 + digit_val b * 100 + digit_val c * 10 + digit_val d).
  replace (y / 1000 mod 10) with (digit_val a) by (unfold y; Z.div_mod_to_equations; lia).
  replace (y / 100 mod 10) with (digit_val b) by (unfold y; Z.div_mod_to_equations; lia).
  replace (y / 10 mod 10) with (digit_val c) by (unfold y; Z.div_mod_to_equations; lia).
  replace (y mod 10) with (digit_val d) by (unfold y; Z.div_mod_to_equations; lia).
  rewrite Ra, Rb, Rc, Rd. reflexivity.
Qed.

Lemma fw2_digits a b : is_digit a = true -> is_digit b = true ->
  fw2 (digit_val a * 10 + digit_val b) = String a (String b EmptyString).
Proof.
  intros Ha Hb. destruct (digit_round _ Ha) as [Ra Ba], (digit_round _ Hb) as [Rb Bb].
  unfold fw2. set (y := digit_val a * 10 + digit_val b).
  replace (y / 10 mod 10) with (digit_val a) by (unfold y; Z.div_mod_to_equations; lia).
  replace (y mod 10) with (digit_val b) by (unfold y; Z.div_mod_to_equations; lia).
  rewrite Ra, Rb. reflexivity.
Qed.

Lemma parse_date_roundtrip s t : parse_date s = Some t -> Format t = s.
Proof.
  intro H. unfold parse_date in H.
  destruct s as [|a [|b [|c [|d [|s1 [|m1 [|m2 [|s2 [|d1 [|d2 [|x r]]]]]]]]]]];
    try discriminate.
  destruct (unsigned_digits (String a (String b (String c (String d EmptyString)))))
    as [y|] eqn:U; [|discriminate].
  apply unsigned_digits4 in U as (Ha & Hb & Hc & Hd & ->).
  repeat match type of H with
  | context [if ?b then _ else _] => let E := fresh "E" in destruct b eqn:E; [|discriminate]
  end.
  injection H as <-.
  repeat match goal with
  | Hx : _ && _ = true |- _ => apply andb_true_iff in Hx as [? ?]
  end.
  repeat match goal with
  | Hx : Ascii.eqb _ _ = true |- _ => apply Ascii.eqb_eq in Hx; subst
  end.
  destruct (digit_round _ Ha), (digit_round _ Hb), (digit_round _ Hc), (digit_round _ Hd).
  destruct (digit_round m1), (digit_round m2), (digit_round d1), (digit_round d2);
    try assumption.
  unfold Format, format_year. cbn [year month day].
  replace (_ <? 0) with false by (symmetry; apply Z.ltb_ge; lia).
  rewrite pad4_fw4, !pad2_fw2 by lia.
  rewrite fw4_digits, !fw2_digits by assumption. reflexivity.
Qed.

(** X5: [Format("2006-01-02")] gives back exactly the text [time.Parse]
    accepted with that layout. *)
Theorem parse_date_Format s t : parse_date s = Some t -> Format t = s.
Proof. exact (parse_date_roundtrip s t). Qed.

Lemma parse_date_Format_witness :
  parse_date "2024-02-29" = Some (mkDate 2024 2 29) /\ Format (mkDate 2024 2 29) = "2024-02-29".
Proof. split; [reflexivity | apply parse_date_Format; reflexivity]. Defined.

Lemma daily_last_week_parsed s : parse_date s <> None -> daily_last_week s = s.
Proof.
  unfold daily_last_week. destruct (parse_date s) as [t|] eqn:P; [|contradiction].
  intros _. exact (parse_date_roundtrip _ _ P).
Qed.

(** X6: in [handleDailyStatsRequest], once [checkIfValidWE] has accepted
    the week ending, the "last week" file name is this week's own date:
    [t.Add] discards its result. *)
Theorem daily_last_week_same thisWeek :
  checkIfValidWE thisWeek = true -> daily_last_week thisWeek = thisWeek.
Proof.
  unfold checkIfValidWE. intro H. apply daily_last_week_parsed.
  destruct (parse_date thisWeek); discriminate.
Qed.

Lemma daily_last_week_same_witness :
  checkIfValidWE "2024-01-04" = true /\ daily_last_week "2024-01-04" = "2024-01-04".
Proof. split; [reflexivity | apply daily_last_week_same; reflexivity]. Defined.

(** ** Weekdays of the dates written for a week *)

Lemma next_day_valid t : valid_date t -> valid_date (next_day t).
Proof.
  intros [Hm Hd]. pose proof (days_in_range (month t) (year t)).
  unfold next_day, valid_date.
  destruct (Z.ltb_spec (day t) (days_in (month t) (year t))); simpl; [lia|].
  destruct (Z.ltb_spec (month t) 12); simpl;
    [pose proof (days_in_range (month t + 1) (year t)) | pose proof (days_in_range 1 (year t + 1))];
    lia.
Qed.

Lemma AddDays_valid t k : valid_date t -> valid_date (AddDays t k).
Proof.
  intro Hv. induction k as [|k IH]; [exact Hv|].
  rewrite AddDays_S. apply next_day_valid, IH.
Qed.

Lemma days_from_civil_next t : valid_date t ->
  days_from_civil (next_day t) = days_from_civil t + 1.
Proof.
  destruct t as [y m d]. intros [Hm Hd]. cbn [year month day] in *.
  unfold next_day. cbn [year month day].
  destruct (Z.ltb_spec d (days_in m y)).
  - unfold days_from_civil. cbn [year month day]. lia.
  - assert (d = days_in m y) as -> by lia.
    assert (m = 1 \/ m = 2 \/ m = 3 \/ m = 4 \/ m = 5 \/ m = 6 \/ m = 7 \/ m = 8
            \/ m = 9 \/ m = 10 \/ m = 11 \/ m = 12) as Hc by lia.
    repeat destruct Hc as [-> | Hc]; [..| subst m];
      unfold days_from_civil, days_in; simpl.
    all: try (Z.div_mod_to_equations; lia).
    unfold is_leap. destruct (Z.eqb_spec (y mod 4) 0), (Z.eqb_spec (y mod 100) 0),
      (Z.eqb_spec (y mod 400) 0); cbn; Z.div_mod_to_equations; lia.
Qed.

Lemma weekday_next t : valid_date t -> weekday (next_day t) = (weekday t + 1) mod 7.
Proof.
  intro Hv. unfold weekday. rewrite days_from_civil_next by exact Hv.
  rewrite Z.add_mod_idemp_l by lia. f_equal. lia.
Qed.

Lemma weekday_AddDays t k : valid_date t ->
  weekday (AddDays t k) = (weekday t + Z.of_nat k) mod 7.
Proof.
  intro Hv. induction k as [|k IH].
  - unfold weekday. simpl. rewrite Z.add_0_r, Z.mod_mod by lia. reflexivity.
  - rewrite AddDays_S, weekday_next by (apply AddDays_valid; exact Hv).
    rewrite IH, Z.add_mod_idemp_l by lia. f_equal. lia.
Qed.

Lemma year_next t : year t <= year (next_day t) <= year t + 1.
Proof.
  unfold next_day. destruct (_ <? _); [simpl; lia|]. destruct (_ <? _); simpl; lia.
Qed.

Lemma year_AddDays t k : year t <= year (AddDays t k) <= year t + Z.of_nat k.
Proof.
  induction k as [|k IH]; [simpl; lia|].
  rewrite AddDays_S. pose proof (year_next (AddDays t k)). lia.
Qed.

Lemma digit_char_val k : 0 <= k <= 9 -> is_digit (digit_char k) = true /\ digit_val (digit_char k) = k.
Proof.
  intro Hk.
  assert (k = 0 \/ k = 1 \/ k = 2 \/ k = 3 \/ k = 4 \/ k = 5 \/ k = 6 \/ k = 7 \/ k = 8 \/ k = 9)
    as Hc by lia.
  repeat destruct Hc as [-> | Hc]; [..| subst k]; split; reflexivity.
Qed.

Lemma parse_date_shape a b c d m1 m2 d1 d2 :
  is_digit a = true -> is_digit b = true -> is_digit c = true -> is_digit d = true ->
  is_digit m1 = true -> is_digit m2 = true -> is_digit d1 = true -> is_digit d2 = true ->
  parse_date (String a (String b (String c (String d (String "-" (String m1 (String m2
    (String "-" (String d1 (String d2 EmptyString))))))))))
  = let y := ((digit_val a * 10 + digit_val b) * 10 + digit_val c) * 10 + digit_val d in
    let m := digit_val m1 * 10 + digit_val m2 in
    let dd := digit_val d1 * 10 + digit_val d2 in
    if (1 <=? m) && (m <=? 12) && (1 <=? dd) && (dd <=? days_in m y)
    then Some (mkDate y m dd) else None.
Proof.
  intros Ha Hb Hc Hd Hm1 Hm2 Hd1 Hd2. unfold parse_date, unsigned_digits. simpl.
  rewrite Ha, Hb, Hc, Hd, Hm1, Hm2, Hd1, Hd2. reflexivity.
Qed.

Lemma Format_parse_roundtrip t : valid_date t -> 0 <= year t <= 9999 ->
  parse_date (Format t) = Some t.
Proof.
  destruct t as [y m d]. intros [Hm Hd] Hy. cbn [year month day] in *.
  pose proof (days_in_range m y).
  unfold Format, format_year. cbn [year month day].
  replace (y <? 0) with false by (symmetry; apply Z.ltb_ge; lia).
  rewrite pad4_fw4, !pad2_fw2 by lia. unfold fw4, fw2. cbn [append].
  pose proof (Z.mod_pos_bound (y / 1000) 10 ltac:(lia)) as B1.
  pose proof (Z.mod_pos_bound (y / 100) 10 ltac:(lia)) as B2.
  pose proof (Z.mod_pos_bound (y / 10) 10 ltac:(lia)) as B3.
  pose proof (Z.mod_pos_bound y 10 ltac:(lia)) as B4.
  pose proof (Z.mod_pos_bound (m / 10) 10 ltac:(lia)) as B5.
  pose proof (Z.mod_pos_bound m 10 ltac:(lia)) as B6.
  pose proof (Z.mod_pos_bound (d / 10) 10 ltac:(lia)) as B7.
  pose proof (Z.mod_pos_bound d 10 ltac:(lia)) as B8.
  destruct (digit_char_val (y / 1000 mod 10) ltac:(lia)) as [I1 V1].
  destruct (digit_char_val (y / 100 mod 10) ltac:(lia)) as [I2 V2].
  destruct (digit_char_val (y / 10 mod 10) ltac:(lia)) as [I3 V3].
  destruct (digit_char_val (y mod 10) ltac:(lia)) as [I4 V4].
  destruct (digit_char_val (m / 10 mod 10) ltac:(lia)) as [I5 V5].
  destruct (digit_char_val (m mod 10) ltac:(lia)) as [I6 V6].
  destruct (digit_char_val (d / 10 mod 10) ltac:(lia)) as [I7 V7].
  destruct (digit_char_val (d mod 10) ltac:(lia)) as [I8 V8].
  rewrite parse_date_shape by assumption. cbv zeta.
  rewrite V1, V2, V3, V4, V5, V6, V7, V8.
  replace (((y / 1000 mod 10 * 10 + y / 100 mod 10) * 10 + y / 10 mod 10) * 10 + y mod 10)
    with y by (Z.div_mod_to_equations; lia).
  replace (m / 10 mod 10 * 10 + m mod 10) with m by (Z.div_mod_to_equations; lia).
  replace (d / 10 mod 10 * 10 + d mod 10) with d by (Z.div_mod_to_equations; lia).
  replace ((1 <=? m) && (m <=? 12) && (1 <=? d) && (d <=? days_in m y)) with true
    by (symmetry; repeat rewrite andb_true_iff; repeat split; apply Z.leb_le; lia).
  reflexivity.
Qed.

Lemma parse_date_year s t : parse_date s = Some t -> 0 <= year t <= 9999.
Proof.
  intro H. unfold parse_date in H.
  destruct s as [|a [|b [|c [|d [|s1 [|m1 [|m2 [|s2 [|d1 [|d2 [|x r]]]]]]]]]]];
    try discriminate.
  destruct (unsigned_digits (String a (String b (String c (String d EmptyString)))))
    as [y|] eqn:U; [|discriminate].
  apply unsigned_digits4 in U as (Ha & Hb & Hc & Hd & ->).
  repeat match type of H with
  | context [if ?b then _ else _] => let E := fresh "E" in destruct b eqn:E; [|discriminate]
  end.
  injection H as <-. simpl.
  destruct (digit_round _ Ha), (digit_round _ Hb), (digit_round _ Hc), (digit_round _ Hd).
  lia.
Qed.

Lemma year_AddDays_short t k : (k <= 27)%nat ->
  year (AddDays t k) = year t
  \/ (year (AddDays t k) = year t + 1 /\ month (AddDays t k) = 1
      /\ day (AddDays t k) <= Z.of_nat k).
Proof.
  induction k as [|k IH]; intro Hk; [left; reflexivity|].
  rewrite AddDays_S. destruct (IH ltac:(lia)) as [E | (E & M & D)].
  - unfold next_day. destruct (_ <? _); [left; exact E|].
    destruct (_ <? _); [left; exact E|]. right. simpl. lia.
  - right. unfold next_day. rewrite M.
    replace (day (AddDays t k) <? days_in 1 (year (AddDays t k))) with true
      by (symmetry; apply Z.ltb_lt; unfold days_in; simpl; lia).
    simpl. lia.
Qed.

Lemma week_date_parses t k : valid_date t -> 0 <= year t -> (k <= 27)%nat -> year t <= 9998 ->
  option_map weekday (parse_date (Format (AddDays t k)))
  = Some ((weekday t + Z.of_nat k) mod 7).
Proof.
  intros Hv Hy0 Hk Hy. pose proof (year_AddDays_short t k Hk).
  rewrite Format_parse_roundtrip by (try apply AddDays_valid; auto; destruct H as [E|(E & _)]; lia).
  simpl. rewrite weekday_AddDays by exact Hv. reflexivity.
Qed.

(** X7: for a week ending [checkIfValidWE] accepts (and a year below 9999,
    so that six days later still has a four-digit year), the five dates the
    7R handlers write parse back with the layout and fall on Thursday,
    Friday, Monday, Tuesday and Wednesday ([time.Weekday] 4, 5, 1, 2, 3). *)
Theorem week_dates_weekdays thisWeek :
  checkIfValidWE thisWeek = true -> year (week_anchor thisWeek) <= 9998 ->
  map (fun s => option_map weekday (parse_date s)) (week_dates thisWeek)
  = [Some 4; Some 5; Some 1; Some 2; Some 3].
Proof.
  unfold checkIfValidWE, week_dates, week_anchor.
  destruct (parse_date thisWeek) as [t|] eqn:P; [|discriminate].
  intros W Hy. apply Z.eqb_eq in W. unfold time_Thursday in W.
  pose proof (parse_date_valid _ _ P) as Hv. pose proof (parse_date_year _ _ P).
  change (Format t) with (Format (AddDays t 0)). cbn [map].
  assert (Hk : forall k, (k <= 6)%nat ->
            option_map weekday (parse_date (Format (AddDays t k)))
            = Some ((weekday t + Z.of_nat k) mod 7)).
  { intros k Hk. apply week_date_parses; [exact Hv | lia | lia | exact Hy]. }
  rewrite !Hk by lia.
  rewrite W. reflexivity.
Qed.

Lemma week_dates_weekdays_witness :
  checkIfValidWE "2024-12-26" = true /\ year (week_anchor "2024-12-26") <= 9998
  /\ map (fun s => option_map weekday (parse_date s)) (week_dates "2024-12-26")
     = [Some 4; Some 5; Some 1; Some 2; Some 3].
Proof.
  assert (H1 : checkIfValidWE "2024-12-26" = true) by reflexivity.
  assert (H2 : year (week_anchor "2024-12-26") <= 9998) by (vm_compute; discriminate).
  exact (conj H1 (conj H2 (week_dates_weekdays _ H1 H2))).
Defined.

(** X8: [time.Parse] with the layout "2006-01-02" reads back what [Format]
    writes, for every valid date with a year from 0 to 9999. *)
Theorem Format_parse_date t : valid_date t -> 0 <= year t <= 9999 ->
  parse_date (Format t) = Some t.
Proof. exact (Format_parse_roundtrip t). Qed.

Lemma Format_parse_date_witness :
  valid_date (mkDate 2023 12 31) /\ 0 <= year (mkDate 2023 12 31) <= 9999
  /\ parse_date (Format (mkDate 2023 12 31)) = Some (mkDate 2023 12 31).
Proof.
  assert (H1 : valid_date (mkDate 2023 12 31)) by (split; split; vm_compute; discriminate).
  assert (H2 : 0 <= year (mkDate 2023 12 31) <= 9999) by (simpl; lia).
  exact (conj H1 (conj H2 (Format_parse_date _ H1 H2))).
Defined.

(** ** The legacy [validateDailyStats] *)

(** X9: on a CSV row whose five day cells and quota are all empty, the
    legacy [validateDailyStats] succeeds exactly for the names "GI" and
    "VSD" (an empty money cell reads as "0.00"); "Sites" fails since
    [strconv.Atoi("")] is an error, and every other name, in any other
    letter case too, is refused. *)
Theorem validateDailyStats_blank nm :
  validateDailyStats (mkDailyStat nm "" "" "" "" "" "") = OK tt <-> nm = "GI" \/ nm = "VSD".
Proof.
  assert (M : StringToMoney "" = OK (mkMoney 0 0 false)) by (vm_compute; reflexivity).
  unfold validateDailyStats, check_fields. cbn [Name Thursday Friday Monday Tuesday Wednesday Quota].
  destruct (String.eqb_spec nm "GI") as [->|N1]; [rewrite M; split; auto|].
  destruct (String.eqb_spec nm "VSD") as [->|N2]; [rewrite M; split; auto|]. simpl.
  split; [|intros [E|E]; contradiction].
  destruct (String.eqb nm "Sites"); simpl; discriminate.
Qed.

(** ** Accounts *)

Lemma join_company_aux_some a p us u c :
  join_company_aux a p us = Some (u, c) ->
  In u us /\ p u c = true /\ company_by_id a (u_company_id u) = Some c.
Proof.
  induction us as [|v us IH]; simpl; [discriminate|].
  destruct (company_by_id a (u_company_id v)) as [c'|] eqn:Ec.
  - destruct (p v c') eqn:Ep.
    + intro H. injection H as <- <-. auto.
    + intro H. destruct (IH H) as (? & ? & ?). auto.
  - intro H. destruct (IH H) as (? & ? & ?). auto.
Qed.

Lemma join_company_aux_ext a p q us :
  (forall u c, p u c = q u c) -> join_company_aux a p us = join_company_aux a q us.
Proof.
  intro E. induction us as [|v us IH]; simpl; [reflexivity|].
  destruct (company_by_id a (u_company_id v)); [rewrite E|]; rewrite IH; reflexivity.
Qed.

Lemma join_company_aux_none a p us :
  (forall u c, In u us -> company_by_id a (u_company_id u) = Some c -> p u c = false) ->
  join_company_aux a p us = None.
Proof.
  induction us as [|v us IH]; intro H; simpl; [reflexivity|].
  destruct (company_by_id a (u_company_id v)) as [c|] eqn:Ec.
  - rewrite (H v c (or_introl eq_refl) Ec). apply IH. intros u c' Hu. apply H. right. exact Hu.
  - apply IH. intros u c' Hu. apply H. right. exact Hu.
Qed.

Lemma NoDup_map_inj {A B} (f : A -> B) l x y :
  NoDup (map f l) -> In x l -> In y l -> f x = f y -> x = y.
Proof.
  induction l as [|z l IH]; simpl; [tauto|].
  intros H Hx Hy E. inversion H as [|? ? Hz Hl]; subst.
  destruct Hx as [<- | Hx], Hy as [<- | Hy]; auto.
  - exfalso. apply Hz. rewrite E. apply in_map. exact Hy.
  - exfalso. apply Hz. rewrite <- E. apply in_map. exact Hx.
Qed.

(** X10: [RegisterUser] lets the role "manager" through its own check, but
    the [users.role] CHECK constraint admits only 'admin' and 'user': a
    manager is never registered, and the store is left as it was. *)
Theorem RegisterUser_manager_refused gen fk a cid uname pw :
  exists m, RegisterUser gen fk a cid uname pw "manager" = (ERR m, a).
Proof.
  unfold RegisterUser. simpl.
  destruct (company_by_cid a cid) as [c|]; [|eexists; reflexivity].
  destruct (gen pw) as [h|m]; [|eexists; reflexivity].
  unfold insert_user. simpl. eexists; reflexivity.
Qed.

(** X11: [RegisterCompany] is all or nothing: either it fails and the store
    is unchanged, or it adds exactly one company with the given company id
    and name and exactly one user of that company, with the given user
    name, the role "admin" and the bcrypt hash of the password. *)
Theorem RegisterCompany_all_or_nothing gen fk a cid cname uname pw :
  (exists m, RegisterCompany gen fk a cid cname uname pw = (ERR m, a))
  \/ (exists c u a', RegisterCompany gen fk a cid cname uname pw = (OK tt, a')
      /\ companies a' = (companies a ++ [c])%list /\ users a' = (users a ++ [u])%list
      /\ company_id c = cid /\ c_name c = cname
      /\ u_company_id u = c_id c /\ username u = uname /\ role u = "admin"
      /\ gen pw = OK (password_hash u)).
Proof.
  unfold RegisterCompany, insert_company.
  destruct (existsb _ (companies a)); [left; eexists; reflexivity|]. simpl.
  destruct (gen pw) as [h|m] eqn:G; [|left; eexists; reflexivity]. simpl.
  unfold insert_user. simpl.
  destruct (existsb _ (users a)); [left; eexists; reflexivity|].
  destruct (fk && _); [left; eexists; reflexivity|]. simpl.
  right. do 3 eexists. split; [reflexivity|]. simpl. repeat split; auto.
Qed.

(** X12: [RegisterCompany] refuses a company id that is already registered
    (the UNIQUE constraint on [companies.company_id]) and changes nothing. *)
Theorem RegisterCompany_duplicate gen fk a cid cname uname pw c :
  In c (companies a) -> company_id c = cid ->
  exists m, RegisterCompany gen fk a cid cname uname pw = (ERR m, a).
Proof.
  intros Hin Hc. unfold RegisterCompany, insert_company.
  replace (existsb _ (companies a)) with true; [eexists; reflexivity|].
  symmetry. apply existsb_exists. exists c. split; [exact Hin|].
  apply String.eqb_eq. exact Hc.
Qed.

Lemma RegisterCompany_duplicate_witness :
  let a := mkAdmin [mkCompany 1 "acme" "Acme"] [] [] [] [] [] [] 1 0 0 0 in
  In (mkCompany 1 "acme" "Acme") (companies a) /\ company_id (mkCompany 1 "acme" "Acme") = "acme"
  /\ exists m, RegisterCompany (fun p => OK p) true a "acme" "Other" "root" "pw" = (ERR m, a).
Proof.
  intro a. assert (H1 : In (mkCompany 1 "acme" "Acme") (companies a)) by (left; reflexivity).
  assert (H2 : company_id (mkCompany 1 "acme" "Acme") = "acme") by reflexivity.
  exact (conj H1 (conj H2 (RegisterCompany_duplicate _ _ _ _ _ _ _ _ H1 H2))).
Defined.

Lemma find_app {A} (f : A -> bool) l1 l2 :
  find f (l1 ++ l2) = match find f l1 with Some x => Some x | None => find f l2 end.
Proof. induction l1 as [|x l1 IH]; simpl; [reflexivity|]. destruct (f x); auto. Qed.

Lemma join_company_aux_app a p l1 l2 :
  join_company_aux a p (l1 ++ l2)
  = match join_company_aux a p l1 with Some x => Some x | None => join_company_aux a p l2 end.
Proof.
  induction l1 as [|v l1 IH]; simpl; [reflexivity|].
  destruct (company_by_id a (u_company_id v)); [destruct (p v c)|]; auto.
Qed.

Lemma RegisterCompany_ok gen fk a cid cname uname pw a' :
  RegisterCompany gen fk a cid cname uname pw = (OK tt, a') ->
  exists h, gen pw = OK h
  /\ (forall c, In c (companies a) -> company_id c <> cid)
  /\ a' = set_users
            (set_companies a (companies a ++ [mkCompany (seq_companies a + 1) cid cname])
               (seq_companies a + 1))
            (users a ++ [mkUser (seq_users a + 1) (seq_companies a + 1) uname h "admin"])
            (seq_users a + 1).
Proof.
  unfold RegisterCompany, insert_company.
  destruct (existsb _ (companies a)) eqn:X; [discriminate|]. simpl.
  destruct (gen pw) as [h|m]; [|discriminate]. simpl.
  unfold insert_user. simpl.
  destruct (existsb _ (users a)); [discriminate|].
  destruct (fk && _); [discriminate|]. simpl. intro H. injection H as <-.
  exists h. split; [reflexivity|]. split; [|reflexivity].
  intros c Hc E. apply String.eqb_eq in E.
  assert (existsb (fun c => String.eqb (company_id c) cid) (companies a) = true) as T
    by (apply existsb_exists; exists c; split; assumption).
  congruence.
Qed.

Lemma company_by_id_old cs c0 sq i c :
  Forall (fun c => c_id c <= sq) cs -> c_id c0 = sq + 1 -> i <= sq ->
  find (fun c => c_id c =? i) (cs ++ [c0]) = Some c -> In c cs.
Proof.
  intros Hf H0 Hi Hc. apply find_some in Hc as [Hin E]. apply Z.eqb_eq in E.
  apply in_app_or in Hin as [Hin | [<- | []]]; [exact Hin | lia].
Qed.

Lemma company_by_id_new cs c0 sq :
  Forall (fun c => c_id c <= sq) cs -> c_id c0 = sq + 1 ->
  find (fun c => c_id c =? sq + 1) (cs ++ [c0]) = Some c0.
Proof.
  intros Hf H0. rewrite find_app.
  replace (find (fun c => c_id c =? sq + 1) cs) with (@None Company).
  - simpl. rewrite H0, Z.eqb_refl. reflexivity.
  - symmetry. destruct (find _ cs) as [c|] eqn:E; [|reflexivity].
    apply find_some in E as [Hin E]. apply Z.eqb_eq in E.
    rewrite Forall_forall in Hf. specialize (Hf c Hin). lia.
Qed.

(** X13: right after [RegisterCompany] succeeds on a well-formed store, the
    new admin can log in with the company id, user name and password just
    registered (given that bcrypt accepts the password against the hash it
    made), and the session then passes [AuthMiddleware("admin")] with that
    company id. *)
Theorem RegisterCompany_then_login gen cmp fk a cid cname uname pw a' :
  accounts_wf a -> (forall h, gen pw = OK h -> cmp h pw = true) ->
  RegisterCompany gen fk a cid cname uname pw = (OK tt, a') ->
  exists uid, LoginHandler cmp a' cid uname pw = OK uid
              /\ AuthMiddleware "admin" (Some uid) a' = OK (cid, uid).
Proof.
  intros (Sc & Su & Fc & Fu & _ & _ & _ & _) Hb H.
  apply RegisterCompany_ok in H as (h & G & Old & ->).
  set (C := mkCompany (seq_companies a + 1) cid cname).
  set (U := mkUser (seq_users a + 1) (seq_companies a + 1) uname h "admin").
  assert (Fc' : Forall (fun c => c_id c <= seq_companies a) (companies a))
    by (eapply Forall_impl; [|exact Fc]; simpl; intros; lia).
  assert (Hnew : company_by_id
                   (set_users (set_companies a (companies a ++ [C]) (seq_companies a + 1))
                      (users a ++ [U]) (seq_users a + 1)) (u_company_id U) = Some C)
    by (apply company_by_id_new; [exact Fc' | reflexivity]).
  exists (seq_users a + 1). split.
  - unfold LoginHandler, join_company. cbn [users set_users].
    rewrite join_company_aux_app, join_company_aux_none.
    + cbn [join_company_aux]. rewrite Hnew. cbn. rewrite !String.eqb_refl. cbn.
      rewrite (Hb h G). reflexivity.
    + intros u c Hu Hc. rewrite Forall_forall in Fu. destruct (Fu u Hu) as [_ Hcu].
      apply in_map_iff in Hcu as (c1 & E1 & Hc1). rewrite Forall_forall in Fc.
      specialize (Fc c1 Hc1).
      apply company_by_id_old with (sq := seq_companies a) (c0 := C) (i := u_company_id u)
        in Hc; [|exact Fc' | reflexivity | lia].
      apply andb_false_iff. left. apply String.eqb_neq. exact (Old c Hc).
  - unfold AuthMiddleware. replace (seq_users a + 1 =? 0) with false by (symmetry; apply Z.eqb_neq; lia).
    unfold join_company. cbn [users set_users].
    rewrite join_company_aux_app, join_company_aux_none.
    + cbn [join_company_aux]. rewrite Hnew. cbn. rewrite Z.eqb_refl. reflexivity.
    + intros u c Hu _. rewrite Forall_forall in Fu. destruct (Fu u Hu) as [Hid _].
      apply Z.eqb_neq. lia.
Qed.

Lemma RegisterCompany_then_login_witness :
  let a := mkAdmin [] [] [] [] [] [] [] 0 0 0 0 in
  let gen := fun p : string => OK ("h:" ++ p) in
  let cmp := fun h p : string => String.eqb h ("h:" ++ p) in
  accounts_wf a /\ (forall h, gen "pw" = OK h -> cmp h "pw" = true)
  /\ RegisterCompany gen true a "acme" "Acme" "root" "pw"
     = (OK tt, snd (RegisterCompany gen true a "acme" "Acme" "root" "pw"))
  /\ exists uid, LoginHandler cmp (snd (RegisterCompany gen true a "acme" "Acme" "root" "pw"))
                   "acme" "root" "pw" = OK uid
     /\ AuthMiddleware "admin" (Some uid) (snd (RegisterCompany gen true a "acme" "Acme" "root" "pw"))
        = OK ("acme", uid).
Proof.
  intros a gen cmp.
  assert (H1 : accounts_wf a) by (unfold accounts_wf; simpl; repeat split; try lia; constructor).
  assert (H2 : forall h, gen "pw" = OK h -> cmp h "pw" = true).
  { intros h E. injection E as <-. reflexivity. }
  assert (H3 : RegisterCompany gen true a "acme" "Acme" "root" "pw"
               = (OK tt, snd (RegisterCompany gen true a "acme" "Acme" "root" "pw")))
    by reflexivity.
  exact (conj H1 (conj H2 (conj H3 (RegisterCompany_then_login _ _ _ _ _ _ _ _ _ H1 H2 H3)))).
Defined.

Lemma map_keep {A B} (f : A -> B) (g : A -> A) l :
  (forall x, f (g x) = f x) -> map f (map g l) = map f l.
Proof. intro E. rewrite map_map. apply map_ext. exact E. Qed.

(** The users' table changed in place: companies and sequences untouched,
    every new row carrying the id and company of an old row. *)
Lemma accounts_wf_users a a' :
  accounts_wf a ->
  companies a' = companies a -> seq_companies a' = seq_companies a -> seq_users a' = seq_users a ->
  (forall u', In u' (users a') -> exists u, In u (users a) /\ u_id u' = u_id u
                                            /\ u_company_id u' = u_company_id u) ->
  NoDup (map u_id (users a')) -> NoDup (map user_key (users a')) ->
  accounts_wf a'.
Proof.
  intros (Sc & Su & Fc & Fu & Nc & Nk & Nu & Nuk) Ec Esc Esu Hu Nu' Nuk'.
  unfold accounts_wf. rewrite Ec, Esc, Esu.
  repeat split; try assumption.
  apply Forall_forall. intros u' Hin. destruct (Hu u' Hin) as (u & Hu0 & E1 & E2).
  rewrite Forall_forall in Fu. rewrite E1, E2. exact (Fu u Hu0).
Qed.

Lemma accounts_wf_map a g :
  accounts_wf a -> (forall u, u_id (g u) = u_id u) -> (forall u, user_key (g u) = user_key u) ->
  accounts_wf (set_users a (map g (users a)) (seq_users a)).
Proof.
  intros W Ei Ek. pose proof W as (_ & _ & _ & _ & _ & _ & Nu & Nuk).
  apply (accounts_wf_users a); try reflexivity; try exact W; cbn [users set_users].
  - intros u' Hin. apply in_map_iff in Hin as (u & <- & Hu). exists u. split; [exact Hu|].
    split; [apply Ei|]. specialize (Ek u). unfold user_key in Ek. congruence.
  - rewrite map_keep by exact Ei. exact Nu.
  - rewrite map_keep by exact Ek. exact Nuk.
Qed.

Lemma accounts_wf_filter a p :
  accounts_wf a -> accounts_wf (set_users a (filter p (users a)) (seq_users a)).
Proof.
  intro W. pose proof W as (_ & _ & _ & _ & _ & _ & Nu & Nuk).
  apply (accounts_wf_users a); try reflexivity; try exact W; cbn [users set_users].
  - intros u' Hin. apply filter_In in Hin as [Hin _]. exists u'. auto.
  - apply NoDup_map_filter. exact Nu.
  - apply NoDup_map_filter. exact Nuk.
Qed.

Lemma accounts_wf_ua a l : accounts_wf a -> accounts_wf (set_user_assignments a l).
Proof. intro W. exact W. Qed.

Lemma insert_user_ok fk a comp uname h r a' :
  insert_user fk a comp uname h r = OK a' ->
  ~ In (comp, uname) (map user_key (users a))
  /\ a' = set_users a (users a ++ [mkUser (seq_users a + 1) comp uname h r]) (seq_users a + 1).
Proof.
  unfold insert_user. destruct (negb _); [discriminate|].
  destruct (existsb _ (users a)) eqn:X; [discriminate|].
  destruct (fk && _); [discriminate|]. intro H. injection H as <-. split; [|reflexivity].
  intro Hin. apply in_map_iff in Hin as (u & E & Hu). unfold user_key in E.
  injection E as E1 E2.
  assert (existsb (fun u => (u_company_id u =? comp) && String.eqb (username u) uname) (users a)
          = true) as T.
  { apply existsb_exists. exists u. split; [exact Hu|]. rewrite E1, E2, Z.eqb_refl, String.eqb_refl.
    reflexivity. }
  congruence.
Qed.

Lemma accounts_wf_insert_user a comp uname h r :
  accounts_wf a -> In comp (map c_id (companies a)) ->
  ~ In (comp, uname) (map user_key (users a)) ->
  accounts_wf (set_users a (users a ++ [mkUser (seq_users a + 1) comp uname h r]) (seq_users a + 1)).
Proof.
  intros (Sc & Su & Fc & Fu & Nc & Nk & Nu & Nuk) Hc Hk.
  unfold accounts_wf; cbn [companies users seq_companies seq_users set_users].
  repeat split; try assumption; try lia.
  - apply Forall_app. split.
    + eapply Forall_impl; [|exact Fu]. simpl. intros u [? ?]. split; [lia | assumption].
    + constructor; [|constructor]. simpl. split; [lia | exact Hc].
  - rewrite map_app. apply NoDup_snoc; [exact Nu|]. simpl. intro Hin.
    apply in_map_iff in Hin as (u & E & Hu). rewrite Forall_forall in Fu.
    destruct (Fu u Hu) as [? _]. lia.
  - rewrite map_app. apply NoDup_snoc; [exact Nuk | exact Hk].
Qed.

Lemma accounts_wf_RegisterCompany gen fk a cid cname uname pw :
  accounts_wf a -> accounts_wf (snd (RegisterCompany gen fk a cid cname uname pw)).
Proof.
  intro W. destruct (RegisterCompany gen fk a cid cname uname pw) as [r a'] eqn:E.
  destruct r as [[]|m]; simpl.
  - apply RegisterCompany_ok in E as (h & _ & Old & ->).
    destruct W as (Sc & Su & Fc & Fu & Nc & Nk & Nu & Nuk).
    set (a1 := set_companies a (companies a ++ [mkCompany (seq_companies a + 1) cid cname])
                 (seq_companies a + 1)).
    assert (W1 : accounts_wf a1).
    { unfold a1, accounts_wf; cbn [companies users seq_companies seq_users set_companies].
      repeat split; try assumption; try lia.
      - apply Forall_app. split.
        + eapply Forall_impl; [|exact Fc]. simpl. intros; lia.
        + constructor; [|constructor]. simpl. lia.
      - eapply Forall_impl; [|exact Fu]. simpl. intros u [? ?]. split; [assumption|].
        rewrite map_app. apply in_or_app. left. assumption.
      - rewrite map_app. apply NoDup_snoc; [exact Nc|]. simpl. intro Hin.
        apply in_map_iff in Hin as (c & E & Hc). rewrite Forall_forall in Fc.
        specialize (Fc c Hc). lia.
      - rewrite map_app. apply NoDup_snoc; [exact Nk|]. simpl. intro Hin.
        apply in_map_iff in Hin as (c & E & Hc). exact (Old c Hc E). }
    apply (accounts_wf_insert_user a1); [exact W1 | |].
    + unfold a1. cbn [companies set_companies]. rewrite map_app. apply in_or_app. right.
      left. reflexivity.
    + unfold a1. cbn [users set_companies]. intro Hin. apply in_map_iff in Hin as (u & E & Hu).
      unfold user_key in E. injection E as E1 _. rewrite Forall_forall in Fu.
      destruct (Fu u Hu) as [_ Hcu]. apply in_map_iff in Hcu as (c & Ec & Hc).
      rewrite Forall_forall in Fc. specialize (Fc c Hc). lia.
  - unfold RegisterCompany in E.
    destruct (_ <- _ ;; _); inversion E; subst; exact W.
Qed.

Lemma accounts_wf_RegisterUser gen fk a cid uname pw r :
  accounts_wf a -> accounts_wf (snd (RegisterUser gen fk a cid uname pw r)).
Proof.
  intro W. unfold RegisterUser. destruct (negb _); [exact W|].
  destruct (company_by_cid a cid) as [c|] eqn:Ec; [|exact W].
  destruct (gen pw) as [h|m]; [|exact W].
  destruct (insert_user fk a (c_id c) uname h r) as [a'|m] eqn:I; [|exact W]. simpl.
  apply insert_user_ok in I as [Hk ->]. apply accounts_wf_insert_user; [exact W | | exact Hk].
  apply find_some in Ec as [Hc _]. apply in_map. exact Hc.
Qed.

Lemma accounts_wf_delete_user t2i fk a userID a' :
  accounts_wf a -> delete_user t2i fk a userID = OK a' -> accounts_wf a'.
Proof.
  intros W. unfold delete_user. destruct (fk && _); [discriminate|].
  intro H. injection H as <-. destruct fk.
  - apply accounts_wf_ua, accounts_wf_filter, W.
  - apply accounts_wf_filter, W.
Qed.

(** X14: the account handlers keep the account tables well formed: after
    [RegisterHandler] (for a company or a user), [DeleteUserHandler],
    [UpdateUserRoleHandler], [ResetPasswordHandler] or
    [ChangePasswordHandler], user and company ids stay unique and within
    their sequences, company ids and (company, user name) pairs stay
    unique, and every user still belongs to a company in the table, with
    or without foreign key enforcement. *)
Theorem accounts_wf_preserved gen cmp t2i fk a :
  accounts_wf a ->
  (forall cid cname uname pw, accounts_wf (snd (RegisterCompany gen fk a cid cname uname pw)))
  /\ (forall cid uname pw r, accounts_wf (snd (RegisterUser gen fk a cid uname pw r)))
  /\ (forall companyID adminID userID,
        accounts_wf (snd (DeleteUserHandler t2i fk a companyID adminID userID)))
  /\ (forall companyID adminID userID r,
        accounts_wf (snd (UpdateUserRoleHandler t2i a companyID adminID userID r)))
  /\ (forall companyID target pw, accounts_wf (snd (ResetPasswordHandler gen a companyID target pw)))
  /\ (forall uid oldpw newpw, accounts_wf (snd (ChangePasswordHandler gen cmp a uid oldpw newpw))).
Proof.
  intro W. split; [|split; [|split; [|split; [|split]]]].
  - intros. apply accounts_wf_RegisterCompany, W.
  - intros. apply accounts_wf_RegisterUser, W.
  - intros companyID adminID userID. unfold DeleteUserHandler.
    destruct (String.eqb _ _); [exact W|].
    destruct (join_company _ _) as [[u0 c0]|]; [|exact W].
    destruct (String.eqb _ _); [|exact W].
    destruct (delete_user t2i fk a userID) as [a'|m] eqn:D; [|exact W].
    exact (accounts_wf_delete_user _ _ _ _ _ W D).
  - intros companyID adminID userID r. unfold UpdateUserRoleHandler.
    destruct (negb _); [exact W|]. destruct (String.eqb _ _); [exact W|].
    destruct (join_company _ _) as [[u0 c0]|]; [|exact W].
    destruct (String.eqb _ _); [|exact W].
    apply accounts_wf_map; [exact W | |]; intro u; destruct (id_matches t2i userID u); reflexivity.
  - intros companyID target pw. unfold ResetPasswordHandler.
    destruct (join_company _ _) as [[u0 c0]|]; [|exact W].
    destruct (String.eqb _ _); [|exact W]. destruct (gen pw); [|exact W].
    apply accounts_wf_map; [exact W | |]; intro u; destruct (u_id u =? target); reflexivity.
  - intros uid oldpw newpw. unfold ChangePasswordHandler.
    destruct (find _ _) as [u|]; [|exact W]. destruct (negb _); [exact W|].
    destruct (gen newpw); [|exact W].
    apply accounts_wf_map; [exact W | |]; intro v; destruct (u_id v =? uid); reflexivity.
Qed.

Lemma accounts_wf_preserved_witness :
  accounts_wf (mkAdmin [] [] [] [] [] [] [] 0 0 0 0)
  /\ (forall cid cname uname pw,
        accounts_wf (snd (RegisterCompany (fun p => OK p) true (mkAdmin [] [] [] [] [] [] [] 0 0 0 0)
                            cid cname uname pw))).
Proof.
  assert (W : accounts_wf (mkAdmin [] [] [] [] [] [] [] 0 0 0 0))
    by (unfold accounts_wf; simpl; repeat split; try lia; constructor).
  split; [exact W|].
  exact (proj1 (accounts_wf_preserved (fun p => OK p) (fun h p => String.eqb h p)
                  (fun _ => None) true _ W)).
Defined.

Lemma company_by_id_same a a' i : companies a' = companies a -> company_by_id a' i = company_by_id a i.
Proof. intro E. unfold company_by_id. rewrite E. reflexivity. Qed.

Lemma join_company_aux_map a a' p q g us :
  companies a' = companies a -> (forall u, u_company_id (g u) = u_company_id u) ->
  (forall u c, q (g u) c = p u c) ->
  join_company_aux a' q (map g us)
  = match join_company_aux a p us with Some (u, c) => Some (g u, c) | None => None end.
Proof.
  intros Ec Eg Eq. induction us as [|v us IH]; simpl; [reflexivity|].
  rewrite Eg, (company_by_id_same a a' _ Ec).
  destruct (company_by_id a (u_company_id v)) as [c|]; [rewrite Eq; destruct (p v c)|]; auto.
Qed.

Lemma join_company_aux_filter_none a p q us :
  (forall u c, p u c = true -> q u = true) ->
  join_company_aux a p (filter (fun u => negb (q u)) us) = None.
Proof.
  intro H. apply join_company_aux_none. intros u c Hu _.
  apply filter_In in Hu as [_ Hq]. destruct (p u c) eqn:E; [|reflexivity].
  rewrite (H u c E) in Hq. discriminate.
Qed.

Lemma zero_Itoa_digits n : 0 <= n <= int64_max ->
  unsigned_digits ("0" ++ Itoa n) = Some n /\ String.eqb ("0" ++ Itoa n) (Itoa n) = false.
Proof.
  unfold int64_max. intro Hn. unfold Itoa. destruct (Z.ltb_spec n 0); [lia|].
  destruct (nat_digits_ok n ltac:(lia)) as (c & r & E & _ & V). split.
  - change (digits_value (nat_digits n) 0 = Some n). exact V.
  - apply String.eqb_neq. intro X. apply (f_equal String.length) in X. simpl in X. lia.
Qed.

Lemma id_matches_zero t2i n u :
  (forall s m, unsigned_digits s = Some m -> m <= int64_max -> t2i s = Some m) ->
  0 <= n <= int64_max -> id_matches t2i ("0" ++ Itoa n) u = (u_id u =? n).
Proof.
  intros T Hn. unfold id_matches.
  rewrite (T _ n (proj1 (zero_Itoa_digits n Hn)) ltac:(lia)). reflexivity.
Qed.

(** X15: the own-account guards of [DeleteUserHandler] and
    [UpdateUserRoleHandler] compare the path text with the decimal form of
    the admin's id, while SQLite matches the text against the integer
    column [users.id] by value.  The path "0" followed by the admin's own
    id passes both guards: the admin can delete their own account (after
    which their session is no longer authorized), or demote themselves to
    "user" (after which their session is refused by
    [AuthMiddleware("admin")] with "Forbidden"). *)
Theorem own_account_guard_leading_zero t2i fk a cid adminID :
  (forall s n, unsigned_digits s = Some n -> n <= int64_max -> t2i s = Some n) ->
  0 < adminID <= int64_max ->
  AuthMiddleware "admin" (Some adminID) a = OK (cid, adminID) ->
  (fk = false \/ ~ In adminID (author_ids a)) ->
  (exists a', DeleteUserHandler t2i fk a cid adminID ("0" ++ Itoa adminID)
              = (OK "User deleted successfully", a')
          /\ AuthMiddleware "" (Some adminID) a' = ERR "Unauthorized")
  /\ (exists a', UpdateUserRoleHandler t2i a cid adminID ("0" ++ Itoa adminID) "user"
                 = (OK "Role updated successfully", a')
          /\ AuthMiddleware "admin" (Some adminID) a' = ERR "Forbidden").
Proof.
  intros T Hn Auth Hfk.
  destruct (zero_Itoa_digits adminID ltac:(lia)) as [_ Neq].
  assert (Im : forall u, id_matches t2i ("0" ++ Itoa adminID) u = (u_id u =? adminID))
    by (intro u; apply id_matches_zero; [exact T | lia]).
  unfold AuthMiddleware in Auth.
  replace (adminID =? 0) with false in Auth by (symmetry; apply Z.eqb_neq; lia).
  destruct (join_company a (fun u _ => u_id u =? adminID)) as [[u c]|] eqn:J; [|discriminate].
  destruct (negb _ && negb _) eqn:R; [discriminate|]. injection Auth as Ec.
  assert (J' : join_company a (fun u _ => id_matches t2i ("0" ++ Itoa adminID) u) = Some (u, c)).
  { rewrite <- J. unfold join_company. apply join_company_aux_ext. intros; apply Im. }
  split.
  - unfold DeleteUserHandler. rewrite Neq, J', Ec, String.eqb_refl.
    unfold delete_user.
    replace (fk && _) with false.
    + eexists. split; [reflexivity|].
      unfold AuthMiddleware. replace (adminID =? 0) with false by (symmetry; apply Z.eqb_neq; lia).
      destruct fk; unfold join_company; cbn [users set_users set_user_assignments];
        (rewrite join_company_aux_filter_none; [reflexivity|]);
        intros v _ E; rewrite Im; exact E.
    + destruct Hfk as [-> | Hna]; [reflexivity|]. destruct fk; [|reflexivity]. simpl.
      symmetry. apply Bool.not_true_iff_false. intro X. apply existsb_exists in X as (i & Hi & X).
      apply existsb_exists in X as (j & Hj & X). apply Z.eqb_eq in X. subst j.
      apply in_map_iff in Hi as (v & <- & Hv). apply filter_In in Hv as [_ Hv].
      rewrite Im in Hv. apply Z.eqb_eq in Hv. rewrite Hv in Hj. exact (Hna Hj).
  - unfold UpdateUserRoleHandler. simpl (negb _). rewrite Neq, J', Ec, String.eqb_refl.
    eexists. split; [reflexivity|].
    unfold AuthMiddleware. replace (adminID =? 0) with false by (symmetry; apply Z.eqb_neq; lia).
    unfold join_company. cbn [users set_users].
    rewrite (join_company_aux_map a _ (fun u _ => u_id u =? adminID)); [| reflexivity | |].
    + unfold join_company in J. rewrite J. rewrite Im.
      apply join_company_aux_some in J as (_ & Hu & _). rewrite Hu. reflexivity.
    + intro v. rewrite Im. destruct (u_id v =? adminID); reflexivity.
    + intros v c'. rewrite Im. destruct (u_id v =? adminID) eqn:E; simpl; rewrite E; reflexivity.
Qed.

Lemma own_account_guard_leading_zero_witness :
  let t2i := fun s => match unsigned_digits s with
                      | Some n => if n <=? int64_max then Some n else None
                      | None => None end in
  let a := mkAdmin [mkCompany 1 "acme" "Acme"] [mkUser 7 1 "root" "h" "admin"] [] [] [] [] []
             1 7 0 0 in
  AuthMiddleware "admin" (Some 7) a = OK ("acme", 7)
  /\ (exists a', DeleteUserHandler t2i true a "acme" 7 ("0" ++ Itoa 7)
                 = (OK "User deleted successfully", a')
        /\ AuthMiddleware "" (Some 7) a' = ERR "Unauthorized")
  /\ (exists a', UpdateUserRoleHandler t2i a "acme" 7 ("0" ++ Itoa 7) "user"
                 = (OK "Role updated successfully", a')
        /\ AuthMiddleware "admin" (Some 7) a' = ERR "Forbidden").
Proof.
  intros t2i a.
  assert (T : forall s n, unsigned_digits s = Some n -> n <= int64_max -> t2i s = Some n).
  { intros s n H Hn. unfold t2i. rewrite H. destruct (Z.leb_spec n int64_max); [reflexivity | lia]. }
  assert (B : 0 < 7 <= int64_max) by (unfold int64_max; lia).
  assert (A : AuthMiddleware "admin" (Some 7) a = OK ("acme", 7)) by reflexivity.
  assert (F : true = false \/ ~ In 7 (author_ids a)) by (right; intros []).
  exact (conj A (own_account_guard_leading_zero t2i true a "acme" 7 T B A F)).
Defined.

(** A row predicate that singles out one id. *)
Lemma join_scoped a cid (pred : User -> bool) u v c :
  NoDup (map u_id (users a)) -> In u (users a) -> ~ in_company a cid u ->
  join_company a (fun w _ => pred w) = Some (v, c) -> company_id c = cid ->
  (forall w w', pred w = true -> pred w' = true -> u_id w = u_id w') ->
  pred u = false.
Proof.
  intros N Hu Nin J Ec Hp. destruct (pred u) eqn:Pu; [|reflexivity]. exfalso.
  apply join_company_aux_some in J as (Hv & Pv & Cv).
  assert (u = v) as <- by exact (NoDup_map_inj u_id _ u v N Hu Hv (Hp u v Pu Pv)).
  apply Nin. exists c. split; assumption.
Qed.

Lemma id_matches_single t2i userID w w' :
  id_matches t2i userID w = true -> id_matches t2i userID w' = true -> u_id w = u_id w'.
Proof.
  unfold id_matches. destruct (t2i userID); [|discriminate].
  intros E E'. apply Z.eqb_eq in E, E'. congruence.
Qed.

(** X16: an admin's user management stays inside the admin's company: when
    user ids are unique, [DeleteUserHandler], [UpdateUserRoleHandler] and
    [ResetPasswordHandler], called with the admin's company id [cid], leave
    every user row of another company exactly as it was, whatever the id
    in the request. *)
Theorem admin_handlers_company_scoped t2i gen fk a cid adminID u :
  NoDup (map u_id (users a)) -> In u (users a) -> ~ in_company a cid u ->
  (forall userID, In u (users (snd (DeleteUserHandler t2i fk a cid adminID userID))))
  /\ (forall userID r, In u (users (snd (UpdateUserRoleHandler t2i a cid adminID userID r))))
  /\ (forall target pw, In u (users (snd (ResetPasswordHandler gen a cid target pw)))).
Proof.
  intros N Hu Nin. split; [|split].
  - intro userID. unfold DeleteUserHandler.
    destruct (String.eqb _ _); [exact Hu|].
    destruct (join_company _ _) as [[v c]|] eqn:J; [|exact Hu].
    destruct (String.eqb (company_id c) cid) eqn:Ec; [|exact Hu]. apply String.eqb_eq in Ec.
    pose proof (join_scoped a cid (id_matches t2i userID) u v c N Hu Nin J Ec
                  (id_matches_single t2i userID)) as P.
    unfold delete_user. destruct (fk && _); [exact Hu|]. simpl.
    assert (In u (filter (fun w => negb (id_matches t2i userID w)) (users a))) as F
      by (apply filter_In; rewrite P; auto).
    destruct fk; exact F.
  - intros userID r. unfold UpdateUserRoleHandler.
    destruct (negb _); [exact Hu|]. destruct (String.eqb _ _); [exact Hu|].
    destruct (join_company _ _) as [[v c]|] eqn:J; [|exact Hu].
    destruct (String.eqb (company_id c) cid) eqn:Ec; [|exact Hu]. apply String.eqb_eq in Ec.
    pose proof (join_scoped a cid (id_matches t2i userID) u v c N Hu Nin J Ec
                  (id_matches_single t2i userID)) as P.
    simpl. apply in_map_iff. exists u. rewrite P. auto.
  - intros target pw. unfold ResetPasswordHandler.
    destruct (join_company _ _) as [[v c]|] eqn:J; [|exact Hu].
    destruct (String.eqb (company_id c) cid) eqn:Ec; [|exact Hu]. apply String.eqb_eq in Ec.
    assert (Hp : forall w w', (u_id w =? target) = true -> (u_id w' =? target) = true ->
                              u_id w = u_id w')
      by (intros w w' E E'; apply Z.eqb_eq in E, E'; congruence).
    pose proof (join_scoped a cid (fun w => u_id w =? target) u v c N Hu Nin J Ec Hp) as P.
    simpl in P. destruct (gen pw); [|exact Hu].
    simpl. apply in_map_iff. exists u. rewrite P. auto.
Qed.

Lemma admin_handlers_company_scoped_witness :
  let a := mkAdmin [mkCompany 1 "acme" "Acme"; mkCompany 2 "beta" "Beta"]
             [mkUser 7 1 "root" "h" "admin"; mkUser 8 2 "bob" "h2" "admin"] [] [] [] [] []
             2 8 0 0 in
  let u := mkUser 8 2 "bob" "h2" "admin" in
  NoDup (map u_id (users a)) /\ In u (users a) /\ ~ in_company a "acme" u
  /\ (forall userID, In u (users (snd (DeleteUserHandler (fun _ => Some 8) true a "acme" 7 userID))))
  /\ (forall userID r, In u (users (snd (UpdateUserRoleHandler (fun _ => Some 8) a "acme" 7 userID r))))
  /\ (forall target pw, In u (users (snd (ResetPasswordHandler (fun p => OK p) a "acme" target pw)))).
Proof.
  intros a u.
  assert (N : NoDup (map u_id (users a))).
  { simpl. constructor; [simpl; lia | constructor; [intros [] | constructor]]. }
  assert (Hu : In u (users a)) by (right; left; reflexivity).
  assert (Nin : ~ in_company a "acme" u).
  { intros (c & E & F). vm_compute in E. injection E as <-. discriminate. }
  exact (conj N (conj Hu (conj Nin
           (admin_handlers_company_scoped (fun _ => Some 8) (fun p => OK p) true a "acme" 7 u
              N Hu Nin)))).
Defined.

(** ** Stat administration *)

Lemma insert_user_assignment_ok fk a sid uid a' :
  insert_user_assignment fk a sid uid = OK a' ->
  ~ In (sid, uid) (user_assignments a) /\ (fk = true -> In uid (map u_id (users a)))
  /\ a' = set_user_assignments a (user_assignments a ++ [(sid, uid)]).
Proof.
  unfold insert_user_assignment.
  destruct (existsb _ (user_assignments a)) eqn:X; [discriminate|].
  destruct (fk && _) eqn:F; [discriminate|]. intro H. injection H as <-.
  split; [|split; [|reflexivity]].
  - intro Hin. assert (existsb (fun p => (fst p =? sid) && (snd p =? uid)) (user_assignments a) = true)
      as T by (apply existsb_exists; exists (sid, uid); split; [exact Hin|];
               simpl; rewrite !Z.eqb_refl; reflexivity).
    congruence.
  - intros ->. simpl in F. apply negb_false_iff, andb_true_iff in F as [_ F].
    apply existsb_exists in F as (u & Hu & E). apply Z.eqb_eq in E. subst uid.
    apply in_map. exact Hu.
Qed.

Lemma insert_division_assignment_ok fk a sid did a' :
  insert_division_assignment fk a sid did = OK a' ->
  ~ In (sid, did) (division_assignments a) /\ (fk = true -> In did (map dv_id (divisions a)))
  /\ a' = set_division_assignments a (division_assignments a ++ [(sid, did)]).
Proof.
  unfold insert_division_assignment.
  destruct (existsb _ (division_assignments a)) eqn:X; [discriminate|].
  destruct (fk && _) eqn:F; [discriminate|]. intro H. injection H as <-.
  split; [|split; [|reflexivity]].
  - intro Hin. assert (existsb (fun p => (fst p =? sid) && (snd p =? did)) (division_assignments a) = true)
      as T by (apply existsb_exists; exists (sid, did); split; [exact Hin|];
               simpl; rewrite !Z.eqb_refl; reflexivity).
    congruence.
  - intros ->. simpl in F. apply negb_false_iff, andb_true_iff in F as [_ F].
    apply existsb_exists in F as (d & Hd & E). apply Z.eqb_eq in E. subst did.
    apply in_map. exact Hd.
Qed.

Lemma assign_users_ok fk sid uids : forall a a',
  assign_users fk a sid uids = OK a' ->
  NoDup uids /\ (forall uid, In uid uids -> ~ In (sid, uid) (user_assignments a))
  /\ (fk = true -> incl uids (map u_id (users a)))
  /\ a' = set_user_assignments a (user_assignments a ++ map (pair sid) uids).
Proof.
  induction uids as [|uid r IH]; intros a a' H; simpl in H.
  - injection H as <-. split; [constructor|]. split; [intros _ []|].
    split; [intros _ x []|]. destruct a; unfold set_user_assignments; simpl.
    rewrite app_nil_r. reflexivity.
  - destruct (insert_user_assignment fk a sid uid) as [a1|m] eqn:I; [|discriminate].
    apply insert_user_assignment_ok in I as (N1 & F1 & ->).
    apply IH in H as (Nr & Fr & Kr & ->). cbn [user_assignments users set_user_assignments] in *.
    split; [|split; [|split]].
    + constructor; [|exact Nr]. intro Hin. apply (Fr uid Hin). apply in_or_app. right. left.
      reflexivity.
    + intros x [<- | Hx]; [exact N1|]. intro Hin. apply (Fr x Hx). apply in_or_app. left. exact Hin.
    + intros Hf x [<- | Hx]; [exact (F1 Hf) | exact (Kr Hf x Hx)].
    + rewrite <- app_assoc. reflexivity.
Qed.

Lemma assign_divisions_ok fk sid dids : forall a a',
  assign_divisions fk a sid dids = OK a' ->
  NoDup dids /\ (forall did, In did dids -> ~ In (sid, did) (division_assignments a))
  /\ (fk = true -> incl dids (map dv_id (divisions a)))
  /\ a' = set_division_assignments a (division_assignments a ++ map (pair sid) dids).
Proof.
  induction dids as [|did r IH]; intros a a' H; simpl in H.
  - injection H as <-. split; [constructor|]. split; [intros _ []|].
    split; [intros _ x []|]. destruct a; unfold set_division_assignments; simpl.
    rewrite app_nil_r. reflexivity.
  - destruct (insert_division_assignment fk a sid did) as [a1|m] eqn:I; [|discriminate].
    apply insert_division_assignment_ok in I as (N1 & F1 & ->).
    apply IH in H as (Nr & Fr & Kr & ->).
    cbn [division_assignments divisions set_division_assignments] in *.
    split; [|split; [|split]].
    + constructor; [|exact Nr]. intro Hin. apply (Fr did Hin). apply in_or_app. right. left.
      reflexivity.
    + intros x [<- | Hx]; [exact N1|]. intro Hin. apply (Fr x Hx). apply in_or_app. left. exact Hin.
    + intros Hf x [<- | Hx]; [exact (F1 Hf) | exact (Kr Hf x Hx)].
    + rewrite <- app_assoc. reflexivity.
Qed.

Lemma insert_stat_ok a sh fn ty vt rev sid a1 :
  insert_stat a sh fn ty vt rev = OK (sid, a1) ->
  sid = seq_stats a + 1
  /\ a1 = set_stat_defs a (stat_defs a ++ [mkStatDef (seq_stats a + 1) sh fn ty vt rev]) (seq_stats a + 1).
Proof.
  unfold insert_stat. destruct (negb _); [discriminate|]. destruct (negb _); [discriminate|].
  intro H. injection H as <- <-. split; reflexivity.
Qed.

(** X17: [CreateStatHandler] is all or nothing: either it fails and the store
    is unchanged (the transaction is rolled back), or it adds exactly one
    stat, with id one past the stats' sequence, the trimmed and upper-cased
    short id and the trimmed full name, and assigns it to exactly the
    requested users and divisions, in request order.  It succeeds only if
    the requested user ids and division ids have no repetition, and, when
    foreign keys are enforced, only if they name existing users and
    divisions; the users, companies and divisions are untouched. *)
Theorem CreateStatHandler_all_or_nothing fk a req :
  (exists m, CreateStatHandler fk a req = (ERR m, a))
  \/ (exists a', CreateStatHandler fk a req = (OK "Stat created", a')
      /\ stat_defs a' = (stat_defs a ++ [mkStatDef (seq_stats a + 1)
                                          (ToUpper (TrimSpace (ShortID req)))
                                          (TrimSpace (FullName req)) (Type_ req) (ValueType req)
                                          (Reversed req)])%list
      /\ user_assignments a' = (user_assignments a ++ map (pair (seq_stats a + 1)) (UserIDs req))%list
      /\ division_assignments a'
         = (division_assignments a ++ map (pair (seq_stats a + 1)) (DivisionIDs req))%list
      /\ NoDup (UserIDs req) /\ NoDup (DivisionIDs req)
      /\ (fk = true -> incl (UserIDs req) (map u_id (users a))
                       /\ incl (DivisionIDs req) (map dv_id (divisions a)))
      /\ users a' = users a /\ companies a' = companies a /\ divisions a' = divisions a).
Proof.
  unfold CreateStatHandler.
  destruct (String.eqb _ "") ; [left; eexists; reflexivity|].
  destruct (String.eqb _ "") ; [left; eexists; reflexivity|].
  destruct (insert_stat _ _ _ _ _ _) as [[sid a1]|m] eqn:I; [|left; eexists; reflexivity].
  destruct (assign_users fk a1 sid (UserIDs req)) as [a2|m] eqn:U; [|left; eexists; reflexivity].
  destruct (assign_divisions fk a2 sid (DivisionIDs req)) as [a3|m] eqn:D;
    [|left; eexists; reflexivity].
  right. apply insert_stat_ok in I as [-> ->].
  apply assign_users_ok in U as (NU & _ & KU & ->).
  apply assign_divisions_ok in D as (ND & _ & KD & ->).
  eexists.
  split; [reflexivity|]. cbn in KU, KD |- *.
  repeat split; auto.
Qed.

Lemma insert_user_assignment_lenient fk a sid uid :
  let a' := match insert_user_assignment fk a sid uid with OK a1 => a1 | ERR _ => a end in
  stat_defs a' = stat_defs a /\ users a' = users a /\ divisions a' = divisions a
  /\ division_assignments a' = division_assignments a
  /\ forall p, In p (user_assignments a') <->
       In p (user_assignments a)
       \/ (p = (sid, uid) /\ (fk = false \/ (In sid (map sd_id (stat_defs a))
                                            /\ In uid (map u_id (users a))))).
Proof.
  unfold insert_user_assignment.
  destruct (existsb _ (user_assignments a)) eqn:X.
  - repeat split; auto. intros [H | [-> _]]; [exact H|].
    apply existsb_exists in X as ([s u] & Hq & E). apply andb_true_iff in E as [E1 E2].
    simpl in E1, E2. apply Z.eqb_eq in E1, E2. subst. exact Hq.
  - destruct (fk && _) eqn:F.
    + repeat split; auto. intros [H | [-> C]]; [exact H|]. exfalso.
      apply andb_true_iff in F as [-> F]. destruct C as [C | [Cs Cu]]; [discriminate|].
      apply negb_true_iff, andb_false_iff in F as [F | F]; apply Bool.not_true_iff_false in F;
        apply F, existsb_exists.
      * apply in_map_iff in Cs as (s & E & Hs). exists s. split; [exact Hs|]. apply Z.eqb_eq. exact E.
      * apply in_map_iff in Cu as (u & E & Hu). exists u. split; [exact Hu|]. apply Z.eqb_eq. exact E.
    + repeat split; auto; intro H; cbn [user_assignments set_user_assignments] in *; rewrite ?in_app_iff in *.
      * destruct H as [H | [<- | []]]; [left; exact H|]. right. split; [reflexivity|].
        destruct fk; [right|left; reflexivity]. simpl in F.
        apply negb_false_iff, andb_true_iff in F as [Fs Fu].
        apply existsb_exists in Fs as (s & Hs & Es). apply existsb_exists in Fu as (u & Hu & Eu).
        apply Z.eqb_eq in Es, Eu. split; [rewrite <- Es | rewrite <- Eu]; apply in_map; assumption.
      * destruct H as [H | [-> _]]; [left; exact H | right; left; reflexivity].
Qed.

Lemma insert_division_assignment_lenient fk a sid did :
  let a' := match insert_division_assignment fk a sid did with OK a1 => a1 | ERR _ => a end in
  stat_defs a' = stat_defs a /\ users a' = users a /\ divisions a' = divisions a
  /\ user_assignments a' = user_assignments a
  /\ forall p, In p (division_assignments a') <->
       In p (division_assignments a)
       \/ (p = (sid, did) /\ (fk = false \/ (In sid (map sd_id (stat_defs a))
                                            /\ In did (map dv_id (divisions a))))).
Proof.
  unfold insert_division_assignment.
  destruct (existsb _ (division_assignments a)) eqn:X.
  - repeat split; auto. intros [H | [-> _]]; [exact H|].
    apply existsb_exists in X as ([s d] & Hq & E). apply andb_true_iff in E as [E1 E2].
    simpl in E1, E2. apply Z.eqb_eq in E1, E2. subst. exact Hq.
  - destruct (fk && _) eqn:F.
    + repeat split; auto. intros [H | [-> C]]; [exact H|]. exfalso.
      apply andb_true_iff in F as [-> F]. destruct C as [C | [Cs Cd]]; [discriminate|].
      apply negb_true_iff, andb_false_iff in F as [F | F]; apply Bool.not_true_iff_false in F;
        apply F, existsb_exists.
      * apply in_map_iff in Cs as (s & E & Hs). exists s. split; [exact Hs|]. apply Z.eqb_eq. exact E.
      * apply in_map_iff in Cd as (d & E & Hd). exists d. split; [exact Hd|]. apply Z.eqb_eq. exact E.
    + repeat split; auto; intro H; cbn [division_assignments set_division_assignments] in *; rewrite ?in_app_iff in *.
      * destruct H as [H | [<- | []]]; [left; exact H|]. right. split; [reflexivity|].
        destruct fk; [right|left; reflexivity]. simpl in F.
        apply negb_false_iff, andb_true_iff in F as [Fs Fd].
        apply existsb_exists in Fs as (s & Hs & Es). apply existsb_exists in Fd as (d & Hd & Ed).
        apply Z.eqb_eq in Es, Ed. split; [rewrite <- Es | rewrite <- Ed]; apply in_map; assumption.
      * destruct H as [H | [-> _]]; [left; exact H | right; left; reflexivity].
Qed.

Lemma assign_users_lenient_spec fk sid uids : forall a,
  let a' := assign_users_lenient fk a sid uids in
  stat_defs a' = stat_defs a /\ users a' = users a /\ divisions a' = divisions a
  /\ division_assignments a' = division_assignments a
  /\ forall s u, In (s, u) (user_assignments a') <->
       In (s, u) (user_assignments a)
       \/ (s = sid /\ In u uids /\ (fk = false \/ (In sid (map sd_id (stat_defs a))
                                                  /\ In u (map u_id (users a))))).
Proof.
  induction uids as [|uid r IH]; intro a; simpl.
  - repeat split; auto. intros [H | (_ & [] & _)]. exact H.
  - pose proof (insert_user_assignment_lenient fk a sid uid) as (E1 & E2 & E3 & E4 & Ein).
    set (a1 := match insert_user_assignment fk a sid uid with OK a1 => a1 | ERR _ => a end) in *.
    replace (match insert_user_assignment fk a sid uid with
             | OK a' => assign_users_lenient fk a' sid r
             | ERR _ => assign_users_lenient fk a sid r end)
      with (assign_users_lenient fk a1 sid r)
      by (unfold a1; destruct (insert_user_assignment fk a sid uid); reflexivity).
    destruct (IH a1) as (F1 & F2 & F3 & F4 & Fin).
    rewrite E1, E2 in Fin. repeat split; try congruence.
    + intro H. apply Fin in H as [H | H]; [apply Ein in H as [H | [Hp C]]|].
      * left. exact H.
      * injection Hp as -> ->. right. auto.
      * right. destruct H as (-> & Hu & C). auto.
    + intros [H | (-> & [<- | Hu] & C)].
      * apply Fin. left. apply Ein. left. exact H.
      * apply Fin. left. apply Ein. right. auto.
      * apply Fin. right. auto.
Qed.

Lemma assign_divisions_lenient_spec fk sid dids : forall a,
  let a' := assign_divisions_lenient fk a sid dids in
  stat_defs a' = stat_defs a /\ users a' = users a /\ divisions a' = divisions a
  /\ user_assignments a' = user_assignments a
  /\ forall s d, In (s, d) (division_assignments a') <->
       In (s, d) (division_assignments a)
       \/ (s = sid /\ In d dids /\ (fk = false \/ (In sid (map sd_id (stat_defs a))
                                                  /\ In d (map dv_id (divisions a))))).
Proof.
  induction dids as [|did r IH]; intro a; simpl.
  - repeat split; auto. intros [H | (_ & [] & _)]. exact H.
  - pose proof (insert_division_assignment_lenient fk a sid did) as (E1 & E2 & E3 & E4 & Ein).
    set (a1 := match insert_division_assignment fk a sid did with OK a1 => a1 | ERR _ => a end) in *.
    replace (match insert_division_assignment fk a sid did with
             | OK a' => assign_divisions_lenient fk a' sid r
             | ERR _ => assign_divisions_lenient fk a sid r end)
      with (assign_divisions_lenient fk a1 sid r)
      by (unfold a1; destruct (insert_division_assignment fk a sid did); reflexivity).
    destruct (IH a1) as (F1 & F2 & F3 & F4 & Fin).
    rewrite E1, E3 in Fin. repeat split; try congruence.
    + intro H. apply Fin in H as [H | H]; [apply Ein in H as [H | [Hp C]]|].
      * left. exact H.
      * injection Hp as -> ->. right. auto.
      * right. destruct H as (-> & Hd & C). auto.
    + intros [H | (-> & [<- | Hd] & C)].
      * apply Fin. left. apply Ein. left. exact H.
      * apply Fin. left. apply Ein. right. auto.
      * apply Fin. right. auto.
Qed.

Lemma update_stat_ok a sid sh fn ty vt rev a1 :
  update_stat a sid sh fn ty vt rev = OK a1 ->
  map sd_id (stat_defs a1) = map sd_id (stat_defs a)
  /\ users a1 = users a /\ divisions a1 = divisions a
  /\ user_assignments a1 = user_assignments a /\ division_assignments a1 = division_assignments a.
Proof.
  unfold update_stat. destruct (negb (existsb _ _)); [intro H; injection H as <-; auto|].
  destruct (negb _); [discriminate|]. destruct (negb _); [discriminate|].
  intro H. injection H as <-. cbn [stat_defs users divisions user_assignments
                                    division_assignments set_stat_defs].
  repeat split. rewrite map_map. apply map_ext. intro s. destruct (sd_id s =? sid); reflexivity.
Qed.

(** X18: when [UpdateStatHandler] reports success, the stat's assignments
    are replaced: the stat [sid] given by the path is assigned exactly the
    requested users (divisions) that the connection's foreign key check
    lets through, that is all of them when foreign keys are off, and
    otherwise those that exist, provided a stat with id [sid] exists (with
    no such stat it still answers "Stat updated" and leaves [sid] with no
    assignment); the assignments of every other stat are unchanged. *)
Theorem UpdateStatHandler_reassigns fk a idStr req m a' :
  UpdateStatHandler fk a idStr req = (OK m, a') ->
  exists sid, Atoi idStr = OK sid /\ m = "Stat updated"
  /\ (forall s uid, In (s, uid) (user_assignments a') <->
        (s <> sid /\ In (s, uid) (user_assignments a))
        \/ (s = sid /\ In uid (UserIDs req)
            /\ (fk = false \/ (In sid (map sd_id (stat_defs a)) /\ In uid (map u_id (users a))))))
  /\ (forall s did, In (s, did) (division_assignments a') <->
        (s <> sid /\ In (s, did) (division_assignments a))
        \/ (s = sid /\ In did (DivisionIDs req)
            /\ (fk = false \/ (In sid (map sd_id (stat_defs a))
                               /\ In did (map dv_id (divisions a)))))).
Proof.
  unfold UpdateStatHandler.
  destruct (Atoi idStr) as [sid|e]; [|discriminate].
  destruct (String.eqb _ "") ; [discriminate|].
  destruct (String.eqb _ "") ; [discriminate|].
  destruct (update_stat _ _ _ _ _ _ _) as [a1|e] eqn:U; [|discriminate].
  intro H. injection H as <- <-. exists sid. split; [reflexivity|]. split; [reflexivity|].
  apply update_stat_ok in U as (S1 & U1 & D1 & UA1 & DA1).
  set (a2 := set_user_assignments a1 (filter (fun p => negb (fst p =? sid)) (user_assignments a1))).
  set (a3 := set_division_assignments a2
               (filter (fun p => negb (fst p =? sid)) (division_assignments a1))).
  set (a4 := assign_users_lenient fk a3 sid (UserIDs req)).
  destruct (assign_users_lenient_spec fk sid (UserIDs req) a3) as (G1 & G2 & G3 & G4 & Gin).
  destruct (assign_divisions_lenient_spec fk sid (DivisionIDs req) a4)
    as (H1 & H2 & H3 & H4 & Hin).
  fold a4 in G1, G2, G3, G4, Gin.
  assert (Sa3 : map sd_id (stat_defs a3) = map sd_id (stat_defs a)) by exact S1.
  assert (Ua3 : users a3 = users a) by exact U1.
  assert (Da3 : divisions a3 = divisions a) by exact D1.
  assert (UAa3 : forall s u, In (s, u) (user_assignments a3) <-> s <> sid /\ In (s, u) (user_assignments a)).
  { intros s u. cbn [a3 a2 user_assignments set_user_assignments set_division_assignments].
    rewrite filter_In, UA1. simpl. rewrite negb_true_iff, Z.eqb_neq. tauto. }
  assert (DAa3 : forall s d, In (s, d) (division_assignments a3)
                             <-> s <> sid /\ In (s, d) (division_assignments a)).
  { intros s d. cbn [a3 a2 division_assignments set_user_assignments set_division_assignments].
    rewrite filter_In, DA1. simpl. rewrite negb_true_iff, Z.eqb_neq. tauto. }
  split.
  - intros s uid. rewrite H4, Gin, UAa3, Sa3, Ua3. reflexivity.
  - intros s did. rewrite Hin, G4, DAa3, G1, Sa3, G3, Da3. reflexivity.
Qed.

Lemma UpdateStatHandler_reassigns_witness :
  let a := mkAdmin [] [mkUser 5 1 "u" "h" "user"] [] [mkStatDef 1 "A" "a" "main" "number" false]
             [(1, 3); (2, 5)] [] [] 1 5 0 1 in
  let req := mkStatReq " x " "y" "bogus" "number" false [5; 9] [] in
  UpdateStatHandler true a "9" req = (OK "Stat updated", snd (UpdateStatHandler true a "9" req))
  /\ exists sid, Atoi "9" = OK sid /\ "Stat updated" = "Stat updated"
  /\ (forall s uid, In (s, uid) (user_assignments (snd (UpdateStatHandler true a "9" req))) <->
        (s <> sid /\ In (s, uid) (user_assignments a))
        \/ (s = sid /\ In uid (UserIDs req)
            /\ (true = false \/ (In sid (map sd_id (stat_defs a)) /\ In uid (map u_id (users a))))))
  /\ (forall s did, In (s, did) (division_assignments (snd (UpdateStatHandler true a "9" req))) <->
        (s <> sid /\ In (s, did) (division_assignments a))
        \/ (s = sid /\ In did (DivisionIDs req)
            /\ (true = false \/ (In sid (map sd_id (stat_defs a))
                                 /\ In did (map dv_id (divisions a)))))).
Proof.
  intros a req.
  assert (H : UpdateStatHandler true a "9" req
              = (OK "Stat updated", snd (UpdateStatHandler true a "9" req))) by reflexivity.
  exact (conj H (UpdateStatHandler_reassigns true a "9" req _ _ H)).
Defined.

Lemma Atoi_value_err s m :
  Atoi s = ERR m -> Atoi_value s = 0 \/ Atoi_value s = int64_min \/ Atoi_value s = int64_max.
Proof.
  intro E. unfold Atoi_value. rewrite E.
  repeat match goal with |- context [match ?x with _ => _ end] => destruct x end; auto.
Qed.

Lemma delete_stat_absent fk a sid :
  (forall s, In s (stat_defs a) -> sd_id s <> sid) -> delete_stat fk a sid = a.
Proof.
  intro H. unfold delete_stat.
  assert (F1 : filter (fun s => sd_id s =? sid) (stat_defs a) = []).
  { apply filter_all_false. intros s Hs. apply Z.eqb_neq, H, Hs. }
  assert (F2 : filter (fun s => negb (sd_id s =? sid)) (stat_defs a) = stat_defs a).
  { apply forallb_filter_id. apply forallb_forall. intros s Hs.
    apply negb_true_iff, Z.eqb_neq, H, Hs. }
  rewrite F1, F2. simpl.
  assert (K : forall l : list (Z * Z), filter (fun p => negb false) l = l)
    by (intro l; apply filter_true).
  destruct fk; destruct a; unfold set_division_assignments, set_user_assignments, set_stat_defs;
    simpl; rewrite ?K; reflexivity.
Qed.

(** X19: [DeleteStatHandler] ignores the error of [strconv.Atoi]: for a path
    id that is not a valid int it still answers "Stat deleted", and, as
    long as every stat id is positive and below the largest int, deletes
    nothing (the id used is 0, or the clamped bound of a too long
    number). *)
Theorem DeleteStatHandler_bad_id fk a idStr m :
  Atoi idStr = ERR m -> (forall s, In s (stat_defs a) -> 0 < sd_id s < int64_max) ->
  DeleteStatHandler fk a idStr = (OK "Stat deleted", a).
Proof.
  intros E H. unfold DeleteStatHandler. rewrite delete_stat_absent; [reflexivity|].
  intros s Hs. specialize (H s Hs).
  destruct (Atoi_value_err idStr m E) as [-> | [-> | ->]]; unfold int64_min, int64_max in *; lia.
Qed.

Lemma DeleteStatHandler_bad_id_witness :
  let a := mkAdmin [] [] [] [mkStatDef 1 "A" "a" "main" "number" false] [(1, 5)] [(1, 2)] []
             0 0 0 1 in
  Atoi "abc" = ERR "strconv.Atoi: invalid syntax"
  /\ DeleteStatHandler true a "abc" = (OK "Stat deleted", a).
Proof.
  intro a.
  assert (E : Atoi "abc" = ERR "strconv.Atoi: invalid syntax") by reflexivity.
  assert (H : forall s, In s (stat_defs a) -> 0 < sd_id s < int64_max).
  { intros s [<- | []]. unfold int64_max. simpl. lia. }
  exact (conj E (DeleteStatHandler_bad_id true a "abc" _ E H)).
Defined.

(** ** Week lists *)

Lemma prev_day_valid t : valid_date t -> valid_date (prev_day t).
Proof.
  destruct t as [y m d]. intros [Hm Hd]. cbn [year month day] in *. unfold prev_day, valid_date.
  cbn [year month day].
  destruct (Z.ltb_spec 1 d); cbn [year month day]; [lia|].
  destruct (Z.ltb_spec 1 m); cbn [year month day].
  - pose proof (days_in_range (m - 1) y). lia.
  - unfold days_in. simpl. lia.
Qed.

Lemma next_prev_day t : valid_date t -> next_day (prev_day t) = t.
Proof.
  destruct t as [y m d]. intros [Hm Hd]. cbn [year month day] in *. unfold prev_day.
  cbn [year month day].
  destruct (Z.ltb_spec 1 d).
  - unfold next_day. cbn [year month day].
    destruct (Z.ltb_spec (d - 1) (days_in m y)); [f_equal; lia | lia].
  - assert (d = 1) as -> by lia. destruct (Z.ltb_spec 1 m).
    + unfold next_day. cbn [year month day].
      rewrite Z.ltb_irrefl. destruct (Z.ltb_spec (m - 1) 12); [f_equal; lia | lia].
    + assert (m = 1) as -> by lia. unfold next_day, days_in. simpl. f_equal. lia.
Qed.

Lemma days_from_civil_prev t : valid_date t ->
  days_from_civil (prev_day t) = days_from_civil t - 1.
Proof.
  intro Hv. rewrite <- (next_prev_day t Hv) at 2.
  rewrite days_from_civil_next by (apply prev_day_valid; exact Hv). lia.
Qed.

Lemma SubDays_valid t k : valid_date t -> valid_date (SubDays t k).
Proof.
  intro Hv. induction k as [|k IH]; [exact Hv|]. unfold SubDays. simpl. apply prev_day_valid, IH.
Qed.

Lemma days_SubDays t k : valid_date t ->
  days_from_civil (SubDays t k) = days_from_civil t - Z.of_nat k.
Proof.
  intro Hv. induction k as [|k IH]; [simpl; lia|].
  change (SubDays t (S k)) with (prev_day (SubDays t k)).
  rewrite days_from_civil_prev by (apply SubDays_valid; exact Hv). rewrite IH. lia.
Qed.

Lemma days_AddDays t k : valid_date t ->
  days_from_civil (AddDays t k) = days_from_civil t + Z.of_nat k.
Proof.
  intro Hv. induction k as [|k IH]; [simpl; lia|].
  rewrite AddDays_S, days_from_civil_next by (apply AddDays_valid; exact Hv). rewrite IH. lia.
Qed.

Lemma weekday_shift t t' k :
  days_from_civil t' = days_from_civil t + 7 * k -> weekday t' = weekday t.
Proof.
  intro E. unfold weekday. rewrite E.
  replace (days_from_civil t + 7 * k + 4) with ((days_from_civil t + 4) + k * 7) by lia.
  apply Z.mod_add. lia.
Qed.

Lemma weeks_back_dates n : forall t, valid_date t -> weekday t = time_Thursday ->
  exists ds, weeks_back t n = map Format ds /\ List.length ds = n
  /\ Forall (fun x => valid_date x /\ weekday x = time_Thursday) ds
  /\ (forall i x y, nth_error (t :: ds)%list i = Some x -> nth_error (t :: ds)%list (S i) = Some y ->
        days_from_civil x = days_from_civil y + 7).
Proof.
  induction n as [|n IH]; intros t Hv Hw.
  - exists []. split; [reflexivity|]. split; [reflexivity|]. split; [constructor|].
    intros [|i] x y _ H; discriminate H.
  - set (t' := SubDays t 7).
    assert (Hv' : valid_date t') by (apply SubDays_valid; exact Hv).
    assert (Hd : days_from_civil t' = days_from_civil t - 7) by (apply days_SubDays; exact Hv).
    assert (Hw' : weekday t' = time_Thursday)
      by (rewrite <- Hw; apply (weekday_shift t t' (-1)); lia).
    destruct (IH t' Hv' Hw') as (ds & E & L & F & C).
    exists (t' :: ds). split; [change (weeks_back t (S n)) with (Format t' :: weeks_back t' n)%list; rewrite E; reflexivity|].
    split; [simpl; rewrite L; reflexivity|]. split; [constructor; auto|].
    intros [|i] x y Hx Hy.
    + injection Hx as <-. injection Hy as <-. lia.
    + exact (C i x y Hx Hy).
Qed.

(** X20: [getWeeks(n)] lists Thursdays, newest first, one week apart: when
    [now.EndOfWeek()] falls on a Thursday [week] (weeks starting on
    Friday), it returns the formatted dates of n + 1 consecutive Thursdays
    ending [week] and going back, preceded on a Thursday by the Thursday
    after [week]; so it has n + 2 entries on Thursdays and n + 1
    otherwise. *)
Theorem getWeeks_thursdays week thu n :
  valid_date week -> weekday week = time_Thursday ->
  exists ds, getWeeks week thu n = map Format ds
  /\ List.length ds = (n + 1 + (if thu then 1 else 0))%nat
  /\ nth_error ds (if thu then 1 else 0) = Some week
  /\ Forall (fun t => valid_date t /\ weekday t = time_Thursday) ds
  /\ (forall i t t', nth_error ds i = Some t -> nth_error ds (S i) = Some t' ->
        days_from_civil t = days_from_civil t' + 7).
Proof.
  intros Hv Hw. destruct (weeks_back_dates n week Hv Hw) as (ds & E & L & F & C).
  unfold getWeeks. rewrite E. destruct thu.
  - set (nx := AddDays week 7).
    assert (Hd : days_from_civil nx = days_from_civil week + 7) by (apply days_AddDays; exact Hv).
    exists (nx :: week :: ds). split; [reflexivity|].
    split; [simpl; rewrite L; lia|]. split; [reflexivity|].
    split.
    + constructor; [|constructor; auto]. split; [apply AddDays_valid; exact Hv|].
      rewrite <- Hw. apply (weekday_shift week nx 1). lia.
    + intros [|i] x y Hx Hy.
      * injection Hx as <-. injection Hy as <-. exact Hd.
      * exact (C i x y Hx Hy).
  - exists (week :: ds). split; [reflexivity|].
    split; [simpl; rewrite L; lia|]. split; [reflexivity|].
    split; [constructor; auto|]. exact C.
Qed.

Lemma getWeeks_thursdays_witness :
  valid_date (mkDate 2024 1 4) /\ weekday (mkDate 2024 1 4) = time_Thursday
  /\ exists ds, getWeeks (mkDate 2024 1 4) true 16 = map Format ds
  /\ List.length ds = (16 + 1 + 1)%nat
  /\ nth_error ds 1 = Some (mkDate 2024 1 4)
  /\ Forall (fun t => valid_date t /\ weekday t = time_Thursday) ds
  /\ (forall i t t', nth_error ds i = Some t -> nth_error ds (S i) = Some t' ->
        days_from_civil t = days_from_civil t' + 7).
Proof.
  assert (Hv : valid_date (mkDate 2024 1 4)) by (split; simpl; [lia | vm_compute; split; discriminate]).
  assert (Hw : weekday (mkDate 2024 1 4) = time_Thursday) by reflexivity.
  exact (conj Hv (conj Hw (getWeeks_thursdays (mkDate 2024 1 4) true 16 Hv Hw))).
Defined.

(** X21: [RegisterUser] (behind [UserHandler]) succeeds exactly when the
    role is "admin" or "user", a company with the given company id exists,
    no user of that company has the user name yet, and bcrypt hashes the
    password; whether foreign keys are enforced makes no difference. *)
Theorem RegisterUser_succeeds_iff gen fk a cid uname pw r :
  fst (RegisterUser gen fk a cid uname pw r) = OK tt
  <-> (r = "admin" \/ r = "user")
      /\ (exists c, company_by_cid a cid = Some c /\ ~ In (c_id c, uname) (map user_key (users a)))
      /\ (exists h, gen pw = OK h).
Proof.
  unfold RegisterUser. split.
  - destruct (negb _) eqn:R; [discriminate|].
    destruct (company_by_cid a cid) as [c|] eqn:C; [|discriminate].
    destruct (gen pw) as [h|m] eqn:G; [|discriminate].
    destruct (insert_user fk a (c_id c) uname h r) as [a'|m] eqn:I; [|discriminate]. intros _.
    pose proof I as I'. apply insert_user_ok in I' as [Hk _].
    split; [|split; [exists c; split; [reflexivity | exact Hk] | exists h; reflexivity]].
    unfold insert_user in I. destruct (negb (String.eqb r "admin" || String.eqb r "user")) eqn:R2;
      [discriminate|].
    apply negb_false_iff, orb_true_iff in R2 as [R2 | R2]; apply String.eqb_eq in R2; auto.
  - intros (Hr & (c & C & Hk) & (h & G)).
    assert (R : negb (String.eqb r "admin" || String.eqb r "user") = false)
      by (destruct Hr as [-> | ->]; reflexivity).
    assert (R' : negb (String.eqb r "admin" || String.eqb r "user" || String.eqb r "manager") = false)
      by (destruct Hr as [-> | ->]; reflexivity).
    rewrite R', C, G. unfold insert_user. rewrite R.
    replace (existsb _ (users a)) with false.
    + replace (fk && _) with false; [reflexivity|].
      assert (existsb (fun c0 => c_id c0 =? c_id c) (companies a) = true) as E.
      { apply existsb_exists. exists c. split; [|apply Z.eqb_refl].
        apply find_some in C as [Hc _]. exact Hc. }
      rewrite E. destruct fk; reflexivity.
    + symmetry. apply Bool.not_true_iff_false. intro X. apply existsb_exists in X as (u & Hu & X).
      apply andb_true_iff in X as [X1 X2]. apply Z.eqb_eq in X1. apply String.eqb_eq in X2.
      apply Hk. apply in_map_iff. exists u. split; [|exact Hu]. unfold user_key. rewrite X1, X2.
      reflexivity.
Qed.
